(** * KRA ERP forms API: wheel specifications and bogie checksheets

    A shallow embedding of [Backend/apps/forms/api.py] together with the
    parts of [models.py], [schemas.py] and the database settings that decide
    what its four handlers do.

    - Strings are Rocq [string]s; a character is one [ascii], and case
      folding is the ASCII one.
    - The user directory is a finite map from primary key to row; the two
      form tables are lists of rows, newest first, which is the order
      [Meta.ordering = ['-created_at']] gives a query.
    - The store enforces what [models.py] declares for a column: the unique
      index on [form_number] and the width of a [CharField].  The database
      driver refuses a text that holds a NUL character: the call raises, and
      the handler answers through its [except Exception].
    - A handler is a program over database operations ([Prog]); running it
      against a store executes the operations one after the other, and
      stopping it between two operations lets another request run.
    - The later parts embed the string helpers and validators of
      [Backend/apps/common/utils] and the field validators of the
      registration schema in [Backend/apps/users].  Their character classes
      are the ASCII ones; a statement that depends on this is made for ASCII
      text. *)

From Stdlib Require Import ZArith String Ascii List Bool Lia DecimalString.
From Stdlib Require Import DecimalPos.
From stdpp Require Import base gmap strings.
Import ListNotations.

Local Open Scope Z_scope.
Local Open Scope string_scope.

(** ** Python and SQL primitives on strings *)

Module Py.

Definition is_upper (c : ascii) : bool :=
  let n := N_of_ascii c in ((65 <=? n) && (n <=? 90))%N.

Definition is_lower (c : ascii) : bool :=
  let n := N_of_ascii c in ((97 <=? n) && (n <=? 122))%N.

Definition to_upper (c : ascii) : ascii :=
  if is_lower c then ascii_of_N (N_of_ascii c - 32) else c.

Definition to_lower (c : ascii) : ascii :=
  if is_upper c then ascii_of_N (N_of_ascii c + 32) else c.

(** [str.upper()], also SQL [UPPER]. *)
Fixpoint upper (s : string) : string :=
  match s with
  | EmptyString => EmptyString
  | String c r => String (to_upper c) (upper r)
  end.

(** [str.title()]: a cased character is upper-cased when the character
    before it is not cased, and lower-cased otherwise. *)
Fixpoint title_from (prev_cased : bool) (s : string) : string :=
  match s with
  | EmptyString => EmptyString
  | String c r =>
      if is_lower c then
        String (if prev_cased then c else to_upper c) (title_from true r)
      else if is_upper c then
        String (if prev_cased then to_lower c else c) (title_from true r)
      else String c (title_from false r)
  end.

Definition title (s : string) : string := title_from false s.

(** [needle in hay]. *)
Fixpoint contains (hay needle : string) : bool :=
  String.prefix needle hay
  || match hay with
     | EmptyString => false
     | String _ r => contains r needle
     end.

(** The truth value of a string: empty is false. *)
Definition truthy (s : string) : bool :=
  match s with EmptyString => false | String _ _ => true end.

(** *** [int(s)] for a string argument, base ten *)

Definition is_space (c : ascii) : bool :=
  let n := N_of_ascii c in (((9 <=? n) && (n <=? 13)) || (n =? 32))%N.

Definition is_digit (c : ascii) : bool :=
  let n := N_of_ascii c in ((48 <=? n) && (n <=? 57))%N.

Definition digit_value (c : ascii) : Z := Z.of_N (N_of_ascii c) - 48.

Fixpoint lstrip (l : list ascii) : list ascii :=
  match l with
  | c :: r => if is_space c then lstrip r else l
  | [] => []
  end.

Definition strip (l : list ascii) : list ascii :=
  rev (lstrip (rev (lstrip l))).

(** Digits, with single underscores allowed between two digits. *)
Fixpoint parse_digits (acc : Z) (after_digit : bool) (l : list ascii)
  : option Z :=
  match l with
  | [] => if after_digit then Some acc else None
  | c :: r =>
      if is_digit c then parse_digits (10 * acc + digit_value c) true r
      else if Ascii.eqb c "_" && after_digit then parse_digits acc false r
      else None
  end.

(** [None] stands for [ValueError]. *)
Definition int (s : string) : option Z :=
  match strip (list_ascii_of_string s) with
  | c :: r =>
      if Ascii.eqb c "-" then Z.opp <$> parse_digits 0 false r
      else if Ascii.eqb c "+" then parse_digits 0 false r
      else parse_digits 0 false (c :: r)
  | [] => None
  end.

(** [str(n)] for an integer. *)
Definition str (n : Z) : string := NilZero.string_of_int (Z.to_int n).

End Py.

(** ** Data model *)

(** [datetime.date]. *)
Record date := Date { year : Z; month : Z; day : Z }.

Definition date_eqb (a b : date) : bool :=
  ((year a =? year b) && (month a =? month b) && (day a =? day b))%Z.

(** The [users] table is owned by the identity provider: the columns of a
    row, and the object [User.objects.get] builds from a row and its
    primary key. *)
Record UserRow := {
  phone_number : string;
  first_name : string;
  last_name : string;
  is_active : bool
}.

Record User := { id : Z; columns : UserRow }.

(** *** Request and response schemas ([schemas.py]) *)

Module WheelSpecificationFieldsSchema.
Record t := {
  tread_diameter_new : string;
  last_shop_issue_size : string;
  condemning_dia : string;
  wheel_gauge : string;
  variation_same_axle : string;
  variation_same_bogie : string;
  variation_same_coach : string;
  wheel_profile : string;
  intermediate_wwp : string;
  bearing_seat_diameter : string;
  roller_bearing_outer_dia : string;
  roller_bearing_bore_dia : string;
  roller_bearing_width : string;
  axle_box_housing_bore_dia : string;
  wheel_disc_width : string
}.
End WheelSpecificationFieldsSchema.

Module WheelSpecificationCreateSchema.
Record t := {
  form_number : string;
  submitted_by : string;
  submitted_date : date;
  fields : WheelSpecificationFieldsSchema.t
}.

(** The one constraint the schema puts on a parsed body:
    [form_number] has [max_length=50]. *)
Definition validate (p : t) : bool :=
  (String.length (form_number p) <=? 50)%nat.
End WheelSpecificationCreateSchema.

Module WheelSpecificationResponseDataSchema.
Record t := {
  form_number : string;
  submitted_by : string;
  submitted_date : date;
  status : string;
  fields : option WheelSpecificationFieldsSchema.t
}.
End WheelSpecificationResponseDataSchema.

Module BogieDetailsSchema.
Record t := {
  bogie_no : string;
  maker_year_built : string;
  incoming_div_and_date : string;
  deficit_components : string;
  date_of_ioh : date
}.
End BogieDetailsSchema.

Module BogieChecksheetSchema.
Record t := {
  bogie_frame_condition : string;
  bolster : string;
  bolster_suspension_bracket : string;
  lower_spring_seat : string;
  axle_guide : string
}.
End BogieChecksheetSchema.

Module BMBCChecksheetSchema.
Record t := {
  cylinder_body : string;
  piston_trunnion : string;
  adjusting_tube : string;
  plunger_spring : string
}.
End BMBCChecksheetSchema.

Module BogieChecksheetCreateSchema.
Record t := {
  form_number : string;
  inspection_by : string;
  inspection_date : date;
  bogie_details : BogieDetailsSchema.t;
  bogie_checksheet : BogieChecksheetSchema.t;
  bmbc_checksheet : BMBCChecksheetSchema.t
}.

(** The [max_length] constraints of the schema: on the form number and on
    three of the bogie details.  The nine condition fields are plain
    [str]; their vocabulary appears only in a [description]. *)
Definition validate (p : t) : bool :=
  (String.length (form_number p) <=? 50)%nat
  && (String.length (BogieDetailsSchema.bogie_no (bogie_details p)) <=? 50)%nat
  && (String.length (BogieDetailsSchema.maker_year_built (bogie_details p)) <=? 100)%nat
  && (String.length (BogieDetailsSchema.incoming_div_and_date (bogie_details p)) <=? 200)%nat.
End BogieChecksheetCreateSchema.

Module BogieChecksheetResponseDataSchema.
Record t := {
  form_number : string;
  inspection_by : string;
  inspection_date : date;
  status : string;
  bogie_details : option BogieDetailsSchema.t;
  bogie_checksheet : option BogieChecksheetSchema.t;
  bmbc_checksheet : option BMBCChecksheetSchema.t
}.
End BogieChecksheetResponseDataSchema.

(** The response envelope: one constructor per response schema. *)
Inductive Body :=
| ErrorResponse (success : bool) (message : string)
    (errors : list (string * list string))
| WheelSpecificationCreateResponseSchema (success : bool) (message : string)
    (data : WheelSpecificationResponseDataSchema.t)
| WheelSpecificationListResponseSchema (success : bool) (message : string)
    (data : list WheelSpecificationResponseDataSchema.t)
| BogieChecksheetCreateResponseSchema (success : bool) (message : string)
    (data : BogieChecksheetResponseDataSchema.t)
| BogieChecksheetListResponseSchema (success : bool) (message : string)
    (data : list BogieChecksheetResponseDataSchema.t).

(** HTTP status code and body. *)
Definition Response : Type := Z * Body.

(** *** Tables ([models.py]) *)

Module WheelSpecification.
Record t := {
  form_number : string;
  submitted_by : Z;          (* foreign key: the user's primary key *)
  submitted_date : date;
  tread_diameter_new : string;
  last_shop_issue_size : string;
  condemning_dia : string;
  wheel_gauge : string;
  variation_same_axle : string;
  variation_same_bogie : string;
  variation_same_coach : string;
  wheel_profile : string;
  intermediate_wwp : string;
  bearing_seat_diameter : string;
  roller_bearing_outer_dia : string;
  roller_bearing_bore_dia : string;
  roller_bearing_width : string;
  axle_box_housing_bore_dia : string;
  wheel_disc_width : string;
  status : string
}.

(** The model-level default of [status]. *)
Definition status_default : string := "saved".
End WheelSpecification.

Module BogieChecksheet.
Record t := {
  form_number : string;
  inspection_by : Z;         (* foreign key: the user's primary key *)
  inspection_date : date;
  bogie_no : string;
  maker_year_built : string;
  incoming_div_and_date : string;
  deficit_components : string;
  date_of_ioh : date;
  bogie_frame_condition : string;
  bolster : string;
  bolster_suspension_bracket : string;
  lower_spring_seat : string;
  axle_guide : string;
  cylinder_body : string;
  piston_trunnion : string;
  adjusting_tube : string;
  plunger_spring : string;
  status : string
}.

Definition status_default : string := "saved".

(** The [choices] lists of the condition columns. *)
Definition condition_choices : list string := ["Good"; "Fair"; "Poor"; "Damaged"].
Definition bracket_choices : list string := ["Good"; "Fair"; "Poor"; "Cracked"; "Damaged"].
Definition axle_guide_choices : list string := ["Good"; "Fair"; "Worn"; "Damaged"].
Definition bmbc_choices : list string := ["GOOD"; "FAIR"; "WORN OUT"; "DAMAGED"].
End BogieChecksheet.

(** The record store. *)
Record Store := {
  users : gmap Z UserRow;
  wheel_specifications : list WheelSpecification.t;
  bogie_checksheets : list BogieChecksheet.t
}.

(** ** The database layer *)

(** The exceptions the handlers can meet.  The text of a database error is
    the backend's; the handlers only pass it on. *)
Inductive Exception :=
| DoesNotExist (msg : string)
| ValueError (msg : string)
| IntegrityError (msg : string)
| DataError (msg : string).

(** [str(e)]. *)
Definition str_exception (e : Exception) : string :=
  match e with
  | DoesNotExist msg | ValueError msg | IntegrityError msg | DataError msg => msg
  end.

Definition bind_result {A B} (m : Exception + A) (f : A -> Exception + B)
  : Exception + B :=
  match m with
  | inl e => inl e
  | inr a => f a
  end.

Notation "'let+' x ':=' m 'in' k" := (bind_result m (fun x => k))
  (at level 10, x name, m at level 100, k at level 200).

(** [User.objects.get(id=pk)] with a string [pk]: the integer field
    converts it with [int], then the row is looked up by primary key. *)
Definition User_get (s : Store) (pk : string) : Exception + User :=
  match Py.int pk with
  | None => inl (ValueError ("Field 'id' expected a number but got '" ++ pk ++ "'."))
  | Some n =>
      match users s !! n with
      | Some row => inr {| id := n; columns := row |}
      | None => inl (DoesNotExist "User matching query does not exist.")
      end
  end.

(** *** Texts the driver sends

    The driver adapts the parameters of a statement before it sends the
    statement, and refuses a text with a NUL character (PostgreSQL has no
    such text): the call raises, whatever the statement is. *)

Fixpoint has_nul (v : string) : bool :=
  match v with
  | EmptyString => false
  | String c r => Ascii.eqb c "000" || has_nul r
  end.

Definition sendable (v : string) : bool := negb (has_nul v).

(** The exception the driver raises; the handlers only pass its text on. *)
Definition nul_refused : Exception :=
  ValueError "A string literal cannot contain NUL (0x00) characters.".

Definition adapt (params : list string) : Exception + unit :=
  if forallb sendable params then inr tt else inl nul_refused.

Arguments adapt : simpl never.

(** *** Column types

    The settings name PostgreSQL as the engine, so a [CharField] of
    [max_length] n is a [varchar(n)] column: a longer value is an error,
    unless only spaces exceed the width, which are then cut off.
    [Model.objects.create] runs no validators, so [choices] restricts
    nothing here. *)

Fixpoint all_spaces (s : string) : bool :=
  match s with
  | EmptyString => true
  | String c r => Ascii.eqb c " " && all_spaces r
  end.

Definition varchar (n : nat) (v : string) : Exception + string :=
  if (String.length v <=? n)%nat then inr v
  else if all_spaces (String.substring n (String.length v - n) v)
       then inr (String.substring 0 n v)
       else inl (DataError ("value too long for type character varying("
                            ++ Py.str (Z.of_nat n) ++ ")")).

Definition dquote : string := String (ascii_of_nat 34) EmptyString.

Definition unique_violation (constraint : string) : Exception :=
  IntegrityError ("duplicate key value violates unique constraint "
                  ++ dquote ++ constraint ++ dquote).

(** *** The [wheel_specifications] table *)

(** What the columns hold once a row is written. *)
Definition WheelSpecification_columns (r : WheelSpecification.t)
  : Exception + WheelSpecification.t :=
  let+ form_number := varchar 50 (WheelSpecification.form_number r) in
  let+ tread_diameter_new := varchar 100 (WheelSpecification.tread_diameter_new r) in
  let+ last_shop_issue_size := varchar 100 (WheelSpecification.last_shop_issue_size r) in
  let+ condemning_dia := varchar 100 (WheelSpecification.condemning_dia r) in
  let+ wheel_gauge := varchar 100 (WheelSpecification.wheel_gauge r) in
  let+ variation_same_axle := varchar 50 (WheelSpecification.variation_same_axle r) in
  let+ variation_same_bogie := varchar 50 (WheelSpecification.variation_same_bogie r) in
  let+ variation_same_coach := varchar 50 (WheelSpecification.variation_same_coach r) in
  let+ wheel_profile := varchar 100 (WheelSpecification.wheel_profile r) in
  let+ intermediate_wwp := varchar 100 (WheelSpecification.intermediate_wwp r) in
  let+ bearing_seat_diameter := varchar 100 (WheelSpecification.bearing_seat_diameter r) in
  let+ roller_bearing_outer_dia := varchar 100 (WheelSpecification.roller_bearing_outer_dia r) in
  let+ roller_bearing_bore_dia := varchar 100 (WheelSpecification.roller_bearing_bore_dia r) in
  let+ roller_bearing_width := varchar 100 (WheelSpecification.roller_bearing_width r) in
  let+ axle_box_housing_bore_dia := varchar 100 (WheelSpecification.axle_box_housing_bore_dia r) in
  let+ wheel_disc_width := varchar 100 (WheelSpecification.wheel_disc_width r) in
  let+ status := varchar 20 (WheelSpecification.status r) in
  inr {|
    WheelSpecification.form_number := form_number;
    WheelSpecification.submitted_by := WheelSpecification.submitted_by r;
    WheelSpecification.submitted_date := WheelSpecification.submitted_date r;
    WheelSpecification.tread_diameter_new := tread_diameter_new;
    WheelSpecification.last_shop_issue_size := last_shop_issue_size;
    WheelSpecification.condemning_dia := condemning_dia;
    WheelSpecification.wheel_gauge := wheel_gauge;
    WheelSpecification.variation_same_axle := variation_same_axle;
    WheelSpecification.variation_same_bogie := variation_same_bogie;
    WheelSpecification.variation_same_coach := variation_same_coach;
    WheelSpecification.wheel_profile := wheel_profile;
    WheelSpecification.intermediate_wwp := intermediate_wwp;
    WheelSpecification.bearing_seat_diameter := bearing_seat_diameter;
    WheelSpecification.roller_bearing_outer_dia := roller_bearing_outer_dia;
    WheelSpecification.roller_bearing_bore_dia := roller_bearing_bore_dia;
    WheelSpecification.roller_bearing_width := roller_bearing_width;
    WheelSpecification.axle_box_housing_bore_dia := axle_box_housing_bore_dia;
    WheelSpecification.wheel_disc_width := wheel_disc_width;
    WheelSpecification.status := status
  |}.

(** The text parameters of the insert statement. *)
Definition WheelSpecification_texts (r : WheelSpecification.t) : list string :=
  [WheelSpecification.form_number r;
   WheelSpecification.tread_diameter_new r;
   WheelSpecification.last_shop_issue_size r;
   WheelSpecification.condemning_dia r;
   WheelSpecification.wheel_gauge r;
   WheelSpecification.variation_same_axle r;
   WheelSpecification.variation_same_bogie r;
   WheelSpecification.variation_same_coach r;
   WheelSpecification.wheel_profile r;
   WheelSpecification.intermediate_wwp r;
   WheelSpecification.bearing_seat_diameter r;
   WheelSpecification.roller_bearing_outer_dia r;
   WheelSpecification.roller_bearing_bore_dia r;
   WheelSpecification.roller_bearing_width r;
   WheelSpecification.axle_box_housing_bore_dia r;
   WheelSpecification.wheel_disc_width r;
   WheelSpecification.status r].

(** Whether a stored row has the form number [v]: what
    [.filter(form_number=v).exists()] answers when the driver sends [v]. *)
Definition WheelSpecification_exists (s : Store) (v : string) : bool :=
  existsb (fun r => String.eqb (WheelSpecification.form_number r) v)
          (wheel_specifications s).

(** The insert behind [WheelSpecification.objects.create]: the driver
    adapts the texts, the columns are typed, then the unique index on
    [form_number] is checked. *)
Definition WheelSpecification_insert (s : Store) (r : WheelSpecification.t)
  : Exception + Store :=
  let+ _ := adapt (WheelSpecification_texts r) in
  let+ stored := WheelSpecification_columns r in
  if WheelSpecification_exists s (WheelSpecification.form_number stored)
  then inl (unique_violation "wheel_specifications_form_number_key")
  else inr {| users := users s;
              wheel_specifications := stored :: wheel_specifications s;
              bogie_checksheets := bogie_checksheets s |}.

(** The restrictions a query set accumulates through [.filter(...)]. *)
Module WheelLookup.
Inductive t :=
| form_number__icontains (v : string)
| submitted_by (u : User)
| submitted_date (d : date).

Definition holds (r : WheelSpecification.t) (l : t) : bool :=
  match l with
  | form_number__icontains v =>
      Py.contains (Py.upper (WheelSpecification.form_number r)) (Py.upper v)
  | submitted_by u => (WheelSpecification.submitted_by r =? id u)%Z
  | submitted_date d => date_eqb (WheelSpecification.submitted_date r) d
  end.

(** The text parameters a restriction adds to the query. *)
Definition texts (l : t) : list string :=
  match l with
  | form_number__icontains v => [v]
  | submitted_by _ | submitted_date _ => []
  end.
End WheelLookup.

(** Evaluating a query set: the rows that pass every restriction. *)
Definition WheelSpecification_select (s : Store) (qs : list WheelLookup.t)
  : list WheelSpecification.t :=
  List.filter (fun r => forallb (WheelLookup.holds r) qs) (wheel_specifications s).

(** *** The [bogie_checksheets] table *)

(** [deficit_components] is a [TextField] and the two dates are
    [DateField]s: no width applies to them. *)
Definition BogieChecksheet_columns (r : BogieChecksheet.t)
  : Exception + BogieChecksheet.t :=
  let+ form_number := varchar 50 (BogieChecksheet.form_number r) in
  let+ bogie_no := varchar 50 (BogieChecksheet.bogie_no r) in
  let+ maker_year_built := varchar 100 (BogieChecksheet.maker_year_built r) in
  let+ incoming_div_and_date := varchar 200 (BogieChecksheet.incoming_div_and_date r) in
  let+ bogie_frame_condition := varchar 50 (BogieChecksheet.bogie_frame_condition r) in
  let+ bolster := varchar 50 (BogieChecksheet.bolster r) in
  let+ bolster_suspension_bracket := varchar 50 (BogieChecksheet.bolster_suspension_bracket r) in
  let+ lower_spring_seat := varchar 50 (BogieChecksheet.lower_spring_seat r) in
  let+ axle_guide := varchar 50 (BogieChecksheet.axle_guide r) in
  let+ cylinder_body := varchar 50 (BogieChecksheet.cylinder_body r) in
  let+ piston_trunnion := varchar 50 (BogieChecksheet.piston_trunnion r) in
  let+ adjusting_tube := varchar 50 (BogieChecksheet.adjusting_tube r) in
  let+ plunger_spring := varchar 50 (BogieChecksheet.plunger_spring r) in
  let+ status := varchar 20 (BogieChecksheet.status r) in
  inr {|
    BogieChecksheet.form_number := form_number;
    BogieChecksheet.inspection_by := BogieChecksheet.inspection_by r;
    BogieChecksheet.inspection_date := BogieChecksheet.inspection_date r;
    BogieChecksheet.bogie_no := bogie_no;
    BogieChecksheet.maker_year_built := maker_year_built;
    BogieChecksheet.incoming_div_and_date := incoming_div_and_date;
    BogieChecksheet.deficit_components := BogieChecksheet.deficit_components r;
    BogieChecksheet.date_of_ioh := BogieChecksheet.date_of_ioh r;
    BogieChecksheet.bogie_frame_condition := bogie_frame_condition;
    BogieChecksheet.bolster := bolster;
    BogieChecksheet.bolster_suspension_bracket := bolster_suspension_bracket;
    BogieChecksheet.lower_spring_seat := lower_spring_seat;
    BogieChecksheet.axle_guide := axle_guide;
    BogieChecksheet.cylinder_body := cylinder_body;
    BogieChecksheet.piston_trunnion := piston_trunnion;
    BogieChecksheet.adjusting_tube := adjusting_tube;
    BogieChecksheet.plunger_spring := plunger_spring;
    BogieChecksheet.status := status
  |}.

(** [deficit_components] has no width, but it is a text parameter like the
    others. *)
Definition BogieChecksheet_texts (r : BogieChecksheet.t) : list string :=
  [BogieChecksheet.form_number r;
   BogieChecksheet.bogie_no r;
   BogieChecksheet.maker_year_built r;
   BogieChecksheet.incoming_div_and_date r;
   BogieChecksheet.deficit_components r;
   BogieChecksheet.bogie_frame_condition r;
   BogieChecksheet.bolster r;
   BogieChecksheet.bolster_suspension_bracket r;
   BogieChecksheet.lower_spring_seat r;
   BogieChecksheet.axle_guide r;
   BogieChecksheet.cylinder_body r;
   BogieChecksheet.piston_trunnion r;
   BogieChecksheet.adjusting_tube r;
   BogieChecksheet.plunger_spring r;
   BogieChecksheet.status r].

Definition BogieChecksheet_exists (s : Store) (v : string) : bool :=
  existsb (fun r => String.eqb (BogieChecksheet.form_number r) v)
          (bogie_checksheets s).

Definition BogieChecksheet_insert (s : Store) (r : BogieChecksheet.t)
  : Exception + Store :=
  let+ _ := adapt (BogieChecksheet_texts r) in
  let+ stored := BogieChecksheet_columns r in
  if BogieChecksheet_exists s (BogieChecksheet.form_number stored)
  then inl (unique_violation "bogie_checksheets_form_number_key")
  else inr {| users := users s;
              wheel_specifications := wheel_specifications s;
              bogie_checksheets := stored :: bogie_checksheets s |}.

Module BogieLookup.
Inductive t :=
| form_number__icontains (v : string)
| inspection_by (u : User)
| inspection_date (d : date)
| bogie_no__icontains (v : string).

Definition holds (r : BogieChecksheet.t) (l : t) : bool :=
  match l with
  | form_number__icontains v =>
      Py.contains (Py.upper (BogieChecksheet.form_number r)) (Py.upper v)
  | inspection_by u => (BogieChecksheet.inspection_by r =? id u)%Z
  | inspection_date d => date_eqb (BogieChecksheet.inspection_date r) d
  | bogie_no__icontains v =>
      Py.contains (Py.upper (BogieChecksheet.bogie_no r)) (Py.upper v)
  end.

Definition texts (l : t) : list string :=
  match l with
  | form_number__icontains v | bogie_no__icontains v => [v]
  | inspection_by _ | inspection_date _ => []
  end.
End BogieLookup.

Definition BogieChecksheet_select (s : Store) (qs : list BogieLookup.t)
  : list BogieChecksheet.t :=
  List.filter (fun r => forallb (BogieLookup.holds r) qs) (bogie_checksheets s).

(** *** Database operations and programs over them *)

(** One constructor per round trip to the database; the index is the type
    of the value the call returns when it does not raise. *)
Inductive DbOp : Type -> Type :=
| User_objects_get (pk : string) : DbOp User
| WheelSpecification_objects_exists (form_number : string) : DbOp bool
| WheelSpecification_objects_create (r : WheelSpecification.t)
    : DbOp WheelSpecification.t
| WheelSpecification_objects_fetch (qs : list WheelLookup.t)
    : DbOp (list WheelSpecification.t)
| BogieChecksheet_objects_exists (form_number : string) : DbOp bool
| BogieChecksheet_objects_create (r : BogieChecksheet.t)
    : DbOp BogieChecksheet.t
| BogieChecksheet_objects_fetch (qs : list BogieLookup.t)
    : DbOp (list BogieChecksheet.t).

(** What an operation answers on a store, and the store it leaves.
    [create] hands back the object it was given, as the ORM does.  Every
    operation with a text parameter raises when the driver refuses the
    text.  For [exists] the refusal is placed after the look-up: an insert
    never stores a refused text, so on every store the operations build no
    row has the form number of a refused text and the order of the two is
    not observable (lemma [exists_refused] below). *)
Definition exec_op {X} (op : DbOp X) (s : Store) : (Exception + X) * Store :=
  match op in DbOp X return (Exception + X) * Store with
  | User_objects_get pk => (User_get s pk, s)
  | WheelSpecification_objects_exists v =>
      (if WheelSpecification_exists s v then inr true
       else let+ _ := adapt [v] in inr false, s)
  | WheelSpecification_objects_create r =>
      match WheelSpecification_insert s r with
      | inl e => (inl e, s)
      | inr s' => (inr r, s')
      end
  | WheelSpecification_objects_fetch qs =>
      (let+ _ := adapt (flat_map WheelLookup.texts qs) in
       inr (WheelSpecification_select s qs), s)
  | BogieChecksheet_objects_exists v =>
      (if BogieChecksheet_exists s v then inr true
       else let+ _ := adapt [v] in inr false, s)
  | BogieChecksheet_objects_create r =>
      match BogieChecksheet_insert s r with
      | inl e => (inl e, s)
      | inr s' => (inr r, s')
      end
  | BogieChecksheet_objects_fetch qs =>
      (let+ _ := adapt (flat_map BogieLookup.texts qs) in
       inr (BogieChecksheet_select s qs), s)
  end.

(** A program: a result, or a database call and what to do with its
    outcome. *)
Inductive Prog (A : Type) : Type :=
| Ret (a : A)
| Vis {X : Type} (op : DbOp X) (k : Exception + X -> Prog A).

Arguments Ret {A} a.
Arguments Vis {A X} op k.

Fixpoint prog_bind {A B} (m : Prog A) (f : A -> Prog B) : Prog B :=
  match m with
  | Ret a => f a
  | Vis op k => Vis op (fun x => prog_bind (k x) f)
  end.

(** A Python computation returns a value or raises. *)
Definition Py (A : Type) : Type := Prog (Exception + A).

Definition ret {A} (a : A) : Py A := Ret (inr a).
Definition raise {A} (e : Exception) : Py A := Ret (inl e).
Definition call {X} (op : DbOp X) : Py X := Vis op (fun r => Ret r).

Definition py_bind {A B} (m : Py A) (f : A -> Py B) : Py B :=
  prog_bind m (fun r => match r with inl e => Ret (inl e) | inr a => f a end).

(** [try: m], the outcome handed to the [except] clauses. *)
Definition attempt {A} (m : Py A) : Py (Exception + A) :=
  prog_bind m (fun r => Ret (inr r)).

(** [try: m  except Exception as e: h e]. *)
Definition try_except {A} (m : Py A) (h : Exception -> A) : Prog A :=
  prog_bind m (fun r => Ret (match r with inl e => h e | inr a => a end)).

Notation "'let*' x ':=' m 'in' k" := (py_bind m (fun x => k))
  (at level 10, x name, m at level 100, k at level 200).

(** Running a program to its end on a store. *)
Fixpoint run {A} (p : Prog A) (s : Store) : A * Store :=
  match p with
  | Ret a => (a, s)
  | Vis op k => let '(x, s') := exec_op op s in run (k x) s'
  end.

(** Running it for one database call only. *)
Definition step {A} (p : Prog A) (s : Store) : Prog A * Store :=
  match p with
  | Ret a => (Ret a, s)
  | Vis op k => let '(x, s') := exec_op op s in (k x, s')
  end.

Fixpoint steps {A} (n : nat) (p : Prog A) (s : Store) : Prog A * Store :=
  match n with
  | O => (p, s)
  | S n' => let '(p', s') := step p s in steps n' p' s'
  end.

(** ** The handlers ([api.py]) *)

(** The three error bodies the handlers build, under the names the error
    taxonomy gives them.  [field] is the key of the per-field error. *)
Definition InvalidReference (field : string) : Response :=
  (400, ErrorResponse false "Invalid user ID provided" [(field, ["User not found"])]).

Definition DuplicateFormNumber : Response :=
  (400, ErrorResponse false "Form number already exists"
          [("form_number", ["This form number is already in use"])]).

Definition Unhandled (context : string) (e : Exception) : Response :=
  (400, ErrorResponse false (context ++ str_exception e)
          [("general", [str_exception e])]).

(** The keyword arguments of [WheelSpecification.objects.create]. *)
Definition wheel_spec_of (payload : WheelSpecificationCreateSchema.t) (user : User)
  : WheelSpecification.t :=
  let fields := WheelSpecificationCreateSchema.fields payload in
  {| WheelSpecification.form_number := WheelSpecificationCreateSchema.form_number payload;
     WheelSpecification.submitted_by := id user;
     WheelSpecification.submitted_date := WheelSpecificationCreateSchema.submitted_date payload;
     WheelSpecification.tread_diameter_new := WheelSpecificationFieldsSchema.tread_diameter_new fields;
     WheelSpecification.last_shop_issue_size := WheelSpecificationFieldsSchema.last_shop_issue_size fields;
     WheelSpecification.condemning_dia := WheelSpecificationFieldsSchema.condemning_dia fields;
     WheelSpecification.wheel_gauge := WheelSpecificationFieldsSchema.wheel_gauge fields;
     WheelSpecification.variation_same_axle := WheelSpecificationFieldsSchema.variation_same_axle fields;
     WheelSpecification.variation_same_bogie := WheelSpecificationFieldsSchema.variation_same_bogie fields;
     WheelSpecification.variation_same_coach := WheelSpecificationFieldsSchema.variation_same_coach fields;
     WheelSpecification.wheel_profile := WheelSpecificationFieldsSchema.wheel_profile fields;
     WheelSpecification.intermediate_wwp := WheelSpecificationFieldsSchema.intermediate_wwp fields;
     WheelSpecification.bearing_seat_diameter := WheelSpecificationFieldsSchema.bearing_seat_diameter fields;
     WheelSpecification.roller_bearing_outer_dia := WheelSpecificationFieldsSchema.roller_bearing_outer_dia fields;
     WheelSpecification.roller_bearing_bore_dia := WheelSpecificationFieldsSchema.roller_bearing_bore_dia fields;
     WheelSpecification.roller_bearing_width := WheelSpecificationFieldsSchema.roller_bearing_width fields;
     WheelSpecification.axle_box_housing_bore_dia := WheelSpecificationFieldsSchema.axle_box_housing_bore_dia fields;
     WheelSpecification.wheel_disc_width := WheelSpecificationFieldsSchema.wheel_disc_width fields;
     WheelSpecification.status := "submitted" |}.

(** POST /wheel-specifications *)
Definition create_wheel_specification (payload : WheelSpecificationCreateSchema.t)
  : Prog Response :=
  try_except
    (let* found :=
       attempt (call (User_objects_get (WheelSpecificationCreateSchema.submitted_by payload))) in
     match found with
     | inl (DoesNotExist _) | inl (ValueError _) => ret (InvalidReference "submitted_by")
     | inl e => raise e
     | inr user =>
         let* taken :=
           call (WheelSpecification_objects_exists
                   (WheelSpecificationCreateSchema.form_number payload)) in
         if (taken : bool) then ret DuplicateFormNumber
         else
           let* wheel_spec :=
             call (WheelSpecification_objects_create (wheel_spec_of payload user)) in
           ret (201,
                WheelSpecificationCreateResponseSchema true
                  "Wheel specification submitted successfully."
                  {| WheelSpecificationResponseDataSchema.form_number :=
                       WheelSpecification.form_number wheel_spec;
                     WheelSpecificationResponseDataSchema.submitted_by :=
                       Py.str (WheelSpecification.submitted_by wheel_spec);
                     WheelSpecificationResponseDataSchema.submitted_date :=
                       WheelSpecification.submitted_date wheel_spec;
                     WheelSpecificationResponseDataSchema.status :=
                       Py.title (WheelSpecification.status wheel_spec);
                     WheelSpecificationResponseDataSchema.fields := None |})
     end)
    (Unhandled "Error creating wheel specification: ").

(** The dictionary the list handler builds for one row. *)
Definition wheel_response_data (spec : WheelSpecification.t)
  : WheelSpecificationResponseDataSchema.t :=
  {| WheelSpecificationResponseDataSchema.form_number := WheelSpecification.form_number spec;
     WheelSpecificationResponseDataSchema.submitted_by := Py.str (WheelSpecification.submitted_by spec);
     WheelSpecificationResponseDataSchema.submitted_date := WheelSpecification.submitted_date spec;
     WheelSpecificationResponseDataSchema.status := Py.title (WheelSpecification.status spec);
     WheelSpecificationResponseDataSchema.fields := Some
       {| WheelSpecificationFieldsSchema.tread_diameter_new := WheelSpecification.tread_diameter_new spec;
          WheelSpecificationFieldsSchema.last_shop_issue_size := WheelSpecification.last_shop_issue_size spec;
          WheelSpecificationFieldsSchema.condemning_dia := WheelSpecification.condemning_dia spec;
          WheelSpecificationFieldsSchema.wheel_gauge := WheelSpecification.wheel_gauge spec;
          WheelSpecificationFieldsSchema.variation_same_axle := WheelSpecification.variation_same_axle spec;
          WheelSpecificationFieldsSchema.variation_same_bogie := WheelSpecification.variation_same_bogie spec;
          WheelSpecificationFieldsSchema.variation_same_coach := WheelSpecification.variation_same_coach spec;
          WheelSpecificationFieldsSchema.wheel_profile := WheelSpecification.wheel_profile spec;
          WheelSpecificationFieldsSchema.intermediate_wwp := WheelSpecification.intermediate_wwp spec;
          WheelSpecificationFieldsSchema.bearing_seat_diameter := WheelSpecification.bearing_seat_diameter spec;
          WheelSpecificationFieldsSchema.roller_bearing_outer_dia := WheelSpecification.roller_bearing_outer_dia spec;
          WheelSpecificationFieldsSchema.roller_bearing_bore_dia := WheelSpecification.roller_bearing_bore_dia spec;
          WheelSpecificationFieldsSchema.roller_bearing_width := WheelSpecification.roller_bearing_width spec;
          WheelSpecificationFieldsSchema.axle_box_housing_bore_dia := WheelSpecification.axle_box_housing_bore_dia spec;
          WheelSpecificationFieldsSchema.wheel_disc_width := WheelSpecification.wheel_disc_width spec |} |}.

(** [if param:] for an optional string parameter. *)
Definition supplied (param : option string) : option string :=
  match param with
  | Some v => if Py.truthy v then Some v else None
  | None => None
  end.

(** GET /wheel-specifications.  The pair threaded through the three [if]s
    is [(queryset, filters_applied)]; an early [return] from the second one
    is the [inl] case. *)
Definition get_wheel_specifications
    (form_number submitted_by : option string) (submitted_date : option date)
  : Prog Response :=
  try_except
    (let q0 : list WheelLookup.t * bool := ([], false) in
     let q1 :=
       match supplied form_number with
       | Some v => ((fst q0 ++ [WheelLookup.form_number__icontains v])%list, true)
       | None => q0
       end in
     let* q2 :=
       match supplied submitted_by with
       | Some pk =>
           let* found := attempt (call (User_objects_get pk)) in
           match found with
           | inr user => ret (inr ((fst q1 ++ [WheelLookup.submitted_by user])%list, true))
           | inl (DoesNotExist _) | inl (ValueError _) =>
               ret (inl (InvalidReference "submitted_by"))
           | inl e => raise e
           end
       | None => ret (inr q1)
       end in
     match q2 with
     | inl response => ret response
     | inr q2 =>
         let q3 :=
           match submitted_date with
           | Some d => ((fst q2 ++ [WheelLookup.submitted_date d])%list, true)
           | None => q2
           end in
         let* rows := call (WheelSpecification_objects_fetch (fst q3)) in
         let message :=
           if snd q3 then "Filtered wheel specification forms fetched successfully."
           else "All wheel specification forms fetched successfully." in
         ret (200, WheelSpecificationListResponseSchema true message
                     (List.map wheel_response_data rows))
     end)
    (Unhandled "Error retrieving wheel specifications: ").

(** The keyword arguments of [BogieChecksheet.objects.create]. *)
Definition bogie_checksheet_of (payload : BogieChecksheetCreateSchema.t) (user : User)
  : BogieChecksheet.t :=
  let details := BogieChecksheetCreateSchema.bogie_details payload in
  let bogie := BogieChecksheetCreateSchema.bogie_checksheet payload in
  let bmbc := BogieChecksheetCreateSchema.bmbc_checksheet payload in
  {| BogieChecksheet.form_number := BogieChecksheetCreateSchema.form_number payload;
     BogieChecksheet.inspection_by := id user;
     BogieChecksheet.inspection_date := BogieChecksheetCreateSchema.inspection_date payload;
     BogieChecksheet.bogie_no := BogieDetailsSchema.bogie_no details;
     BogieChecksheet.maker_year_built := BogieDetailsSchema.maker_year_built details;
     BogieChecksheet.incoming_div_and_date := BogieDetailsSchema.incoming_div_and_date details;
     BogieChecksheet.deficit_components := BogieDetailsSchema.deficit_components details;
     BogieChecksheet.date_of_ioh := BogieDetailsSchema.date_of_ioh details;
     BogieChecksheet.bogie_frame_condition := BogieChecksheetSchema.bogie_frame_condition bogie;
     BogieChecksheet.bolster := BogieChecksheetSchema.bolster bogie;
     BogieChecksheet.bolster_suspension_bracket := BogieChecksheetSchema.bolster_suspension_bracket bogie;
     BogieChecksheet.lower_spring_seat := BogieChecksheetSchema.lower_spring_seat bogie;
     BogieChecksheet.axle_guide := BogieChecksheetSchema.axle_guide bogie;
     BogieChecksheet.cylinder_body := BMBCChecksheetSchema.cylinder_body bmbc;
     BogieChecksheet.piston_trunnion := BMBCChecksheetSchema.piston_trunnion bmbc;
     BogieChecksheet.adjusting_tube := BMBCChecksheetSchema.adjusting_tube bmbc;
     BogieChecksheet.plunger_spring := BMBCChecksheetSchema.plunger_spring bmbc;
     BogieChecksheet.status := "submitted" |}.

(** POST /bogie-checksheet *)
Definition create_bogie_checksheet (payload : BogieChecksheetCreateSchema.t)
  : Prog Response :=
  try_except
    (let* found :=
       attempt (call (User_objects_get (BogieChecksheetCreateSchema.inspection_by payload))) in
     match found with
     | inl (DoesNotExist _) | inl (ValueError _) => ret (InvalidReference "inspection_by")
     | inl e => raise e
     | inr user =>
         let* taken :=
           call (BogieChecksheet_objects_exists
                   (BogieChecksheetCreateSchema.form_number payload)) in
         if (taken : bool) then ret DuplicateFormNumber
         else
           let* bogie_checksheet :=
             call (BogieChecksheet_objects_create (bogie_checksheet_of payload user)) in
           ret (201,
                BogieChecksheetCreateResponseSchema true
                  "Bogie checksheet submitted successfully."
                  {| BogieChecksheetResponseDataSchema.form_number :=
                       BogieChecksheet.form_number bogie_checksheet;
                     BogieChecksheetResponseDataSchema.inspection_by :=
                       Py.str (BogieChecksheet.inspection_by bogie_checksheet);
                     BogieChecksheetResponseDataSchema.inspection_date :=
                       BogieChecksheet.inspection_date bogie_checksheet;
                     BogieChecksheetResponseDataSchema.status :=
                       Py.title (BogieChecksheet.status bogie_checksheet);
                     BogieChecksheetResponseDataSchema.bogie_details := None;
                     BogieChecksheetResponseDataSchema.bogie_checksheet := None;
                     BogieChecksheetResponseDataSchema.bmbc_checksheet := None |})
     end)
    (Unhandled "Error creating bogie checksheet: ").

Definition bogie_response_data (checksheet : BogieChecksheet.t)
  : BogieChecksheetResponseDataSchema.t :=
  {| BogieChecksheetResponseDataSchema.form_number := BogieChecksheet.form_number checksheet;
     BogieChecksheetResponseDataSchema.inspection_by := Py.str (BogieChecksheet.inspection_by checksheet);
     BogieChecksheetResponseDataSchema.inspection_date := BogieChecksheet.inspection_date checksheet;
     BogieChecksheetResponseDataSchema.status := Py.title (BogieChecksheet.status checksheet);
     BogieChecksheetResponseDataSchema.bogie_details := Some
       {| BogieDetailsSchema.bogie_no := BogieChecksheet.bogie_no checksheet;
          BogieDetailsSchema.maker_year_built := BogieChecksheet.maker_year_built checksheet;
          BogieDetailsSchema.incoming_div_and_date := BogieChecksheet.incoming_div_and_date checksheet;
          BogieDetailsSchema.deficit_components := BogieChecksheet.deficit_components checksheet;
          BogieDetailsSchema.date_of_ioh := BogieChecksheet.date_of_ioh checksheet |};
     BogieChecksheetResponseDataSchema.bogie_checksheet := Some
       {| BogieChecksheetSchema.bogie_frame_condition := BogieChecksheet.bogie_frame_condition checksheet;
          BogieChecksheetSchema.bolster := BogieChecksheet.bolster checksheet;
          BogieChecksheetSchema.bolster_suspension_bracket := BogieChecksheet.bolster_suspension_bracket checksheet;
          BogieChecksheetSchema.lower_spring_seat := BogieChecksheet.lower_spring_seat checksheet;
          BogieChecksheetSchema.axle_guide := BogieChecksheet.axle_guide checksheet |};
     BogieChecksheetResponseDataSchema.bmbc_checksheet := Some
       {| BMBCChecksheetSchema.cylinder_body := BogieChecksheet.cylinder_body checksheet;
          BMBCChecksheetSchema.piston_trunnion := BogieChecksheet.piston_trunnion checksheet;
          BMBCChecksheetSchema.adjusting_tube := BogieChecksheet.adjusting_tube checksheet;
          BMBCChecksheetSchema.plunger_spring := BogieChecksheet.plunger_spring checksheet |} |}.

(** GET /bogie-checksheets *)
Definition get_bogie_checksheets
    (form_number inspection_by : option string) (inspection_date : option date)
    (bogie_no : option string)
  : Prog Response :=
  try_except
    (let q0 : list BogieLookup.t * bool := ([], false) in
     let q1 :=
       match supplied form_number with
       | Some v => ((fst q0 ++ [BogieLookup.form_number__icontains v])%list, true)
       | None => q0
       end in
     let* q2 :=
       match supplied inspection_by with
       | Some pk =>
           let* found := attempt (call (User_objects_get pk)) in
           match found with
           | inr user => ret (inr ((fst q1 ++ [BogieLookup.inspection_by user])%list, true))
           | inl (DoesNotExist _) | inl (ValueError _) =>
               ret (inl (InvalidReference "inspection_by"))
           | inl e => raise e
           end
       | None => ret (inr q1)
       end in
     match q2 with
     | inl response => ret response
     | inr q2 =>
         let q3 :=
           match inspection_date with
           | Some d => ((fst q2 ++ [BogieLookup.inspection_date d])%list, true)
           | None => q2
           end in
         let q4 :=
           match supplied bogie_no with
           | Some v => ((fst q3 ++ [BogieLookup.bogie_no__icontains v])%list, true)
           | None => q3
           end in
         let* rows := call (BogieChecksheet_objects_fetch (fst q4)) in
         let message :=
           if snd q4 then "Filtered bogie checksheet forms fetched successfully."
           else "All bogie checksheet forms fetched successfully." in
         ret (200, BogieChecksheetListResponseSchema true message
                     (List.map bogie_response_data rows))
     end)
    (Unhandled "Error retrieving bogie checksheets: ").

(** *** The surface in scope: four requests *)

Inductive Request :=
| POST_wheel_specifications (payload : WheelSpecificationCreateSchema.t)
| GET_wheel_specifications (form_number submitted_by : option string)
    (submitted_date : option date)
| POST_bogie_checksheet (payload : BogieChecksheetCreateSchema.t)
| GET_bogie_checksheets (form_number inspection_by : option string)
    (inspection_date : option date) (bogie_no : option string).

Definition handler (rq : Request) : Prog Response :=
  match rq with
  | POST_wheel_specifications payload => create_wheel_specification payload
  | GET_wheel_specifications f u d => get_wheel_specifications f u d
  | POST_bogie_checksheet payload => create_bogie_checksheet payload
  | GET_bogie_checksheets f u d b => get_bogie_checksheets f u d b
  end.

(** The stores a sequence of requests leads to. *)
Inductive reachable (s0 : Store) : Store -> Prop :=
| reachable_start : reachable s0 s0
| reachable_request s rq :
    reachable s0 s -> reachable s0 (snd (run (handler rq) s)).

(** *** Widths

    A row fits when each of its [varchar] columns is within the
    [max_length] the model declares for it. *)

Definition within (n : nat) (v : string) : bool := (String.length v <=? n)%nat.

Definition WheelSpecification_fits (r : WheelSpecification.t) : bool :=
  within 50 (WheelSpecification.form_number r)
  && within 100 (WheelSpecification.tread_diameter_new r)
  && within 100 (WheelSpecification.last_shop_issue_size r)
  && within 100 (WheelSpecification.condemning_dia r)
  && within 100 (WheelSpecification.wheel_gauge r)
  && within 50 (WheelSpecification.variation_same_axle r)
  && within 50 (WheelSpecification.variation_same_bogie r)
  && within 50 (WheelSpecification.variation_same_coach r)
  && within 100 (WheelSpecification.wheel_profile r)
  && within 100 (WheelSpecification.intermediate_wwp r)
  && within 100 (WheelSpecification.bearing_seat_diameter r)
  && within 100 (WheelSpecification.roller_bearing_outer_dia r)
  && within 100 (WheelSpecification.roller_bearing_bore_dia r)
  && within 100 (WheelSpecification.roller_bearing_width r)
  && within 100 (WheelSpecification.axle_box_housing_bore_dia r)
  && within 100 (WheelSpecification.wheel_disc_width r)
  && within 20 (WheelSpecification.status r).

Definition BogieChecksheet_fits (r : BogieChecksheet.t) : bool :=
  within 50 (BogieChecksheet.form_number r)
  && within 50 (BogieChecksheet.bogie_no r)
  && within 100 (BogieChecksheet.maker_year_built r)
  && within 200 (BogieChecksheet.incoming_div_and_date r)
  && within 50 (BogieChecksheet.bogie_frame_condition r)
  && within 50 (BogieChecksheet.bolster r)
  && within 50 (BogieChecksheet.bolster_suspension_bracket r)
  && within 50 (BogieChecksheet.lower_spring_seat r)
  && within 50 (BogieChecksheet.axle_guide r)
  && within 50 (BogieChecksheet.cylinder_body r)
  && within 50 (BogieChecksheet.piston_trunnion r)
  && within 50 (BogieChecksheet.adjusting_tube r)
  && within 50 (BogieChecksheet.plunger_spring r)
  && within 20 (BogieChecksheet.status r).

(** *** Texts

    A row can be sent when the driver accepts each of its texts. *)

Definition WheelSpecification_sendable (r : WheelSpecification.t) : bool :=
  forallb sendable (WheelSpecification_texts r).

Definition BogieChecksheet_sendable (r : BogieChecksheet.t) : bool :=
  forallb sendable (BogieChecksheet_texts r).

(** The form numbers a store holds are texts the driver sends. *)
Definition form_numbers_sendable (s : Store) : Prop :=
  Forall (fun r => sendable (WheelSpecification.form_number r) = true)
         (wheel_specifications s)
  /\ Forall (fun r => sendable (BogieChecksheet.form_number r) = true)
            (bogie_checksheets s).

(** *** Stores with one more row *)

Definition add_wheel_specification (r : WheelSpecification.t) (s : Store) : Store :=
  {| users := users s;
     wheel_specifications := r :: wheel_specifications s;
     bogie_checksheets := bogie_checksheets s |}.

Definition add_bogie_checksheet (r : BogieChecksheet.t) (s : Store) : Store :=
  {| users := users s;
     wheel_specifications := wheel_specifications s;
     bogie_checksheets := r :: bogie_checksheets s |}.

(** *** The answers of the handlers *)

(** The 201 body of each create handler. *)
Definition wheel_created (r : WheelSpecification.t) : Response :=
  (201, WheelSpecificationCreateResponseSchema true
          "Wheel specification submitted successfully."
          {| WheelSpecificationResponseDataSchema.form_number := WheelSpecification.form_number r;
             WheelSpecificationResponseDataSchema.submitted_by := Py.str (WheelSpecification.submitted_by r);
             WheelSpecificationResponseDataSchema.submitted_date := WheelSpecification.submitted_date r;
             WheelSpecificationResponseDataSchema.status := Py.title (WheelSpecification.status r);
             WheelSpecificationResponseDataSchema.fields := None |}).

Definition bogie_created (r : BogieChecksheet.t) : Response :=
  (201, BogieChecksheetCreateResponseSchema true
          "Bogie checksheet submitted successfully."
          {| BogieChecksheetResponseDataSchema.form_number := BogieChecksheet.form_number r;
             BogieChecksheetResponseDataSchema.inspection_by := Py.str (BogieChecksheet.inspection_by r);
             BogieChecksheetResponseDataSchema.inspection_date := BogieChecksheet.inspection_date r;
             BogieChecksheetResponseDataSchema.status := Py.title (BogieChecksheet.status r);
             BogieChecksheetResponseDataSchema.bogie_details := None;
             BogieChecksheetResponseDataSchema.bogie_checksheet := None;
             BogieChecksheetResponseDataSchema.bmbc_checksheet := None |}).

(** The restrictions the wheel handler has accumulated when it runs its
    query, given the user its reference resolved to. *)
Definition wheel_lookups (form_number : option string) (user : option User)
    (submitted_date : option date) : list WheelLookup.t :=
  (match supplied form_number with
   | Some v => [WheelLookup.form_number__icontains v]
   | None => []
   end
   ++ match user with
      | Some u => [WheelLookup.submitted_by u]
      | None => []
      end
   ++ match submitted_date with
      | Some d => [WheelLookup.submitted_date d]
      | None => []
      end)%list.

Definition bogie_lookups (form_number : option string) (user : option User)
    (inspection_date : option date) (bogie_no : option string) : list BogieLookup.t :=
  (match supplied form_number with
   | Some v => [BogieLookup.form_number__icontains v]
   | None => []
   end
   ++ match user with
      | Some u => [BogieLookup.inspection_by u]
      | None => []
      end
   ++ match inspection_date with
      | Some d => [BogieLookup.inspection_date d]
      | None => []
      end
   ++ match supplied bogie_no with
      | Some v => [BogieLookup.bogie_no__icontains v]
      | None => []
      end)%list.

(** The answer of a list handler once its query is built: the generic
    error when the driver refuses a text of the query, else the 200 body,
    whose message tells whether a restriction was applied. *)
Definition wheel_listing (s : Store) (qs : list WheelLookup.t) : Response :=
  match adapt (flat_map WheelLookup.texts qs) with
  | inl e => Unhandled "Error retrieving wheel specifications: " e
  | inr _ =>
      (200, WheelSpecificationListResponseSchema true
              (match qs with
               | [] => "All wheel specification forms fetched successfully."
               | _ :: _ => "Filtered wheel specification forms fetched successfully."
               end)
              (List.map wheel_response_data (WheelSpecification_select s qs)))
  end.

Definition bogie_listing (s : Store) (qs : list BogieLookup.t) : Response :=
  match adapt (flat_map BogieLookup.texts qs) with
  | inl e => Unhandled "Error retrieving bogie checksheets: " e
  | inr _ =>
      (200, BogieChecksheetListResponseSchema true
              (match qs with
               | [] => "All bogie checksheet forms fetched successfully."
               | _ :: _ => "Filtered bogie checksheet forms fetched successfully."
               end)
              (List.map bogie_response_data (BogieChecksheet_select s qs)))
  end.

(** ** The vocabulary of the specification *)

(** Case-insensitive substring containment: some stretch of [text] equals
    [part] once letter case is ignored. *)
Definition icontains (text part : string) : Prop :=
  exists before mid after,
    text = before ++ mid ++ after /\ Py.upper mid = Py.upper part.

(** The user a reference filter stands for: none when the filter is not
    supplied, the user it resolves to when it is. *)
Definition resolves (s : Store) (reference : option string) (user : option User) : Prop :=
  match reference, user with
  | None, None => True
  | Some pk, Some u => User_get s pk = inr u
  | _, _ => False
  end.

(** The conjunction of the supplied wheel-specification filters. *)
Definition wheel_matches (form_number : option string) (user : option User)
    (submitted_date : option date) (r : WheelSpecification.t) : Prop :=
  (forall v, form_number = Some v -> icontains (WheelSpecification.form_number r) v)
  /\ (forall u, user = Some u -> WheelSpecification.submitted_by r = id u)
  /\ (forall d, submitted_date = Some d -> WheelSpecification.submitted_date r = d).

(** The conjunction of the supplied bogie-checksheet filters. *)
Definition bogie_matches (form_number : option string) (user : option User)
    (inspection_date : option date) (bogie_no : option string)
    (r : BogieChecksheet.t) : Prop :=
  (forall v, form_number = Some v -> icontains (BogieChecksheet.form_number r) v)
  /\ (forall u, user = Some u -> BogieChecksheet.inspection_by r = id u)
  /\ (forall d, inspection_date = Some d -> BogieChecksheet.inspection_date r = d)
  /\ (forall v, bogie_no = Some v -> icontains (BogieChecksheet.bogie_no r) v).

(** A payload with its two groups of condition fields replaced. *)
Definition with_conditions (payload : BogieChecksheetCreateSchema.t)
    (bogie : BogieChecksheetSchema.t) (bmbc : BMBCChecksheetSchema.t)
  : BogieChecksheetCreateSchema.t :=
  {| BogieChecksheetCreateSchema.form_number := BogieChecksheetCreateSchema.form_number payload;
     BogieChecksheetCreateSchema.inspection_by := BogieChecksheetCreateSchema.inspection_by payload;
     BogieChecksheetCreateSchema.inspection_date := BogieChecksheetCreateSchema.inspection_date payload;
     BogieChecksheetCreateSchema.bogie_details := BogieChecksheetCreateSchema.bogie_details payload;
     BogieChecksheetCreateSchema.bogie_checksheet := bogie;
     BogieChecksheetCreateSchema.bmbc_checksheet := bmbc |}.

(** The nine condition values of a stored row, in the order of the model. *)
Definition conditions (r : BogieChecksheet.t) : list string :=
  [BogieChecksheet.bogie_frame_condition r; BogieChecksheet.bolster r;
   BogieChecksheet.bolster_suspension_bracket r; BogieChecksheet.lower_spring_seat r;
   BogieChecksheet.axle_guide r; BogieChecksheet.cylinder_body r;
   BogieChecksheet.piston_trunnion r; BogieChecksheet.adjusting_tube r;
   BogieChecksheet.plunger_spring r].

(** The nine condition values of a request body, in the same order. *)
Definition supplied_conditions (payload : BogieChecksheetCreateSchema.t) : list string :=
  let bogie := BogieChecksheetCreateSchema.bogie_checksheet payload in
  let bmbc := BogieChecksheetCreateSchema.bmbc_checksheet payload in
  [BogieChecksheetSchema.bogie_frame_condition bogie; BogieChecksheetSchema.bolster bogie;
   BogieChecksheetSchema.bolster_suspension_bracket bogie;
   BogieChecksheetSchema.lower_spring_seat bogie; BogieChecksheetSchema.axle_guide bogie;
   BMBCChecksheetSchema.cylinder_body bmbc; BMBCChecksheetSchema.piston_trunnion bmbc;
   BMBCChecksheetSchema.adjusting_tube bmbc; BMBCChecksheetSchema.plunger_spring bmbc].

(** What the list handler shows of a row created from a wheel body. *)
Definition wheel_echo (payload : WheelSpecificationCreateSchema.t) (user : User)
  : WheelSpecificationResponseDataSchema.t :=
  {| WheelSpecificationResponseDataSchema.form_number :=
       WheelSpecificationCreateSchema.form_number payload;
     WheelSpecificationResponseDataSchema.submitted_by := Py.str (id user);
     WheelSpecificationResponseDataSchema.submitted_date :=
       WheelSpecificationCreateSchema.submitted_date payload;
     WheelSpecificationResponseDataSchema.status := "Submitted";
     WheelSpecificationResponseDataSchema.fields :=
       Some (WheelSpecificationCreateSchema.fields payload) |}.

(** What the list handler shows of a row created from a bogie body. *)
Definition bogie_echo (payload : BogieChecksheetCreateSchema.t) (user : User)
  : BogieChecksheetResponseDataSchema.t :=
  {| BogieChecksheetResponseDataSchema.form_number :=
       BogieChecksheetCreateSchema.form_number payload;
     BogieChecksheetResponseDataSchema.inspection_by := Py.str (id user);
     BogieChecksheetResponseDataSchema.inspection_date :=
       BogieChecksheetCreateSchema.inspection_date payload;
     BogieChecksheetResponseDataSchema.status := "Submitted";
     BogieChecksheetResponseDataSchema.bogie_details :=
       Some (BogieChecksheetCreateSchema.bogie_details payload);
     BogieChecksheetResponseDataSchema.bogie_checksheet :=
       Some (BogieChecksheetCreateSchema.bogie_checksheet payload);
     BogieChecksheetResponseDataSchema.bmbc_checksheet :=
       Some (BogieChecksheetCreateSchema.bmbc_checksheet payload) |}.

(** ** Concrete data used in the examples below *)

Definition inspector : UserRow :=
  {| phone_number := "9325229203"; first_name := "Asha"; last_name := "Rao";
     is_active := true |}.

Definition one_user : Store :=
  {| users := {[ 1 := inspector ]};
     wheel_specifications := [];
     bogie_checksheets := [] |}.

Definition wheel_fields : WheelSpecificationFieldsSchema.t :=
  {| WheelSpecificationFieldsSchema.tread_diameter_new := "915 (900-1000)";
     WheelSpecificationFieldsSchema.last_shop_issue_size := "837 (800-900)";
     WheelSpecificationFieldsSchema.condemning_dia := "825 (800-900)";
     WheelSpecificationFieldsSchema.wheel_gauge := "1600 (+2,-1)";
     WheelSpecificationFieldsSchema.variation_same_axle := "0.5";
     WheelSpecificationFieldsSchema.variation_same_bogie := "5";
     WheelSpecificationFieldsSchema.variation_same_coach := "13";
     WheelSpecificationFieldsSchema.wheel_profile := "29.4 Flange Thickness";
     WheelSpecificationFieldsSchema.intermediate_wwp := "20 TO 28";
     WheelSpecificationFieldsSchema.bearing_seat_diameter := "130.043 TO 130.068";
     WheelSpecificationFieldsSchema.roller_bearing_outer_dia := "280 (+0.0/-0.035)";
     WheelSpecificationFieldsSchema.roller_bearing_bore_dia := "130 (+0.0/-0.025)";
     WheelSpecificationFieldsSchema.roller_bearing_width := "93 (+0/-0.250)";
     WheelSpecificationFieldsSchema.axle_box_housing_bore_dia := "280 (+0.030/+0.052)";
     WheelSpecificationFieldsSchema.wheel_disc_width := "127 (+4/-0)" |}.

Definition wheel_payload (form_number submitted_by : string)
  : WheelSpecificationCreateSchema.t :=
  {| WheelSpecificationCreateSchema.form_number := form_number;
     WheelSpecificationCreateSchema.submitted_by := submitted_by;
     WheelSpecificationCreateSchema.submitted_date := Date 2025 1 1;
     WheelSpecificationCreateSchema.fields := wheel_fields |}.

Definition bogie_payload (form_number inspection_by condition : string)
  : BogieChecksheetCreateSchema.t :=
  {| BogieChecksheetCreateSchema.form_number := form_number;
     BogieChecksheetCreateSchema.inspection_by := inspection_by;
     BogieChecksheetCreateSchema.inspection_date := Date 2025 7 3;
     BogieChecksheetCreateSchema.bogie_details :=
       {| BogieDetailsSchema.bogie_no := "BG1234";
          BogieDetailsSchema.maker_year_built := "RDSO/2018";
          BogieDetailsSchema.incoming_div_and_date := "NR / 2025-06-25";
          BogieDetailsSchema.deficit_components := "None";
          BogieDetailsSchema.date_of_ioh := Date 2025 7 1 |};
     BogieChecksheetCreateSchema.bogie_checksheet :=
       {| BogieChecksheetSchema.bogie_frame_condition := condition;
          BogieChecksheetSchema.bolster := "Good";
          BogieChecksheetSchema.bolster_suspension_bracket := "Cracked";
          BogieChecksheetSchema.lower_spring_seat := "Good";
          BogieChecksheetSchema.axle_guide := "Worn" |};
     BogieChecksheetCreateSchema.bmbc_checksheet :=
       {| BMBCChecksheetSchema.cylinder_body := "WORN OUT";
          BMBCChecksheetSchema.piston_trunnion := "GOOD";
          BMBCChecksheetSchema.adjusting_tube := "DAMAGED";
          BMBCChecksheetSchema.plunger_spring := "GOOD" |} |}.

(** The store after a list of requests, served one after the other. *)
Definition serve (rqs : list Request) (s : Store) : Store :=
  fold_left (fun s rq => snd (run (handler rq) s)) rqs s.

(** A store holding one wheel specification and one bogie checksheet,
    both created through the API. *)
Definition stocked : Store :=
  serve [POST_wheel_specifications (wheel_payload "WHEEL-1" "1");
         POST_bogie_checksheet (bogie_payload "BOGIE-1" "1" "Good")] one_user.

(** Fifty-one characters: one more than the narrowest text columns hold. *)
Definition wide : string := string_of_list_ascii (List.repeat "x"%char 51).

Definition wide_axle_payload : WheelSpecificationCreateSchema.t :=
  {| WheelSpecificationCreateSchema.form_number := "WHEEL-2";
     WheelSpecificationCreateSchema.submitted_by := "1";
     WheelSpecificationCreateSchema.submitted_date := Date 2025 1 1;
     WheelSpecificationCreateSchema.fields :=
       {| WheelSpecificationFieldsSchema.tread_diameter_new := "915 (900-1000)";
          WheelSpecificationFieldsSchema.last_shop_issue_size := "837 (800-900)";
          WheelSpecificationFieldsSchema.condemning_dia := "825 (800-900)";
          WheelSpecificationFieldsSchema.wheel_gauge := "1600 (+2,-1)";
          WheelSpecificationFieldsSchema.variation_same_axle := wide;
          WheelSpecificationFieldsSchema.variation_same_bogie := "5";
          WheelSpecificationFieldsSchema.variation_same_coach := "13";
          WheelSpecificationFieldsSchema.wheel_profile := "29.4 Flange Thickness";
          WheelSpecificationFieldsSchema.intermediate_wwp := "20 TO 28";
          WheelSpecificationFieldsSchema.bearing_seat_diameter := "130.043 TO 130.068";
          WheelSpecificationFieldsSchema.roller_bearing_outer_dia := "280 (+0.0/-0.035)";
          WheelSpecificationFieldsSchema.roller_bearing_bore_dia := "130 (+0.0/-0.025)";
          WheelSpecificationFieldsSchema.roller_bearing_width := "93 (+0/-0.250)";
          WheelSpecificationFieldsSchema.axle_box_housing_bore_dia := "280 (+0.030/+0.052)";
          WheelSpecificationFieldsSchema.wheel_disc_width := "127 (+4/-0)" |} |}.

(** Three wheel specifications and two bogie checksheets, created through
    the API by the one user. *)
Definition fleet : Store :=
  serve [POST_wheel_specifications (wheel_payload "WHEEL-1" "1");
         POST_wheel_specifications (wheel_payload "wheel-10" "1");
         POST_wheel_specifications (wheel_payload "AXLE-7" "1");
         POST_bogie_checksheet (bogie_payload "BOGIE-1" "1" "Good");
         POST_bogie_checksheet (bogie_payload "BOGIE-2" "1" "Fair")] one_user.

(** * More of the forms API: definitions *)

(** In each table the form numbers are pairwise distinct, which is what
    [unique=True] on [form_number] asks of the table. *)
Definition unique_form_numbers (s : Store) : Prop :=
  List.NoDup (List.map WheelSpecification.form_number (wheel_specifications s))
  /\ List.NoDup (List.map BogieChecksheet.form_number (bogie_checksheets s)).

(** Requests served at the same time: a pool of programs shares the store,
    and the schedule names, turn by turn, the program that makes its next
    database call.  A turn given to a program that is not in the pool, or
    that has ended, changes nothing. *)
Fixpoint run_pool {A} (schedule : list nat) (pool : list (Prog A)) (s : Store)
  : list (Prog A) * Store :=
  match schedule with
  | [] => (pool, s)
  | i :: rest =>
      match pool !! i with
      | Some p => let '(p', s') := step p s in run_pool rest (<[i := p']> pool) s'
      | None => run_pool rest pool s
      end
  end.

(** The two POST requests. *)
Definition is_create (rq : Request) : bool :=
  match rq with
  | POST_wheel_specifications _ | POST_bogie_checksheet _ => true
  | GET_wheel_specifications _ _ _ | GET_bogie_checksheets _ _ _ _ => false
  end.

(** The [data] array of a list answer (empty for any other answer). *)
Definition listed_wheel_specifications (r : Response)
  : list WheelSpecificationResponseDataSchema.t :=
  match snd r with
  | WheelSpecificationListResponseSchema _ _ data => data
  | _ => []
  end.

Definition listed_bogie_checksheets (r : Response)
  : list BogieChecksheetResponseDataSchema.t :=
  match snd r with
  | BogieChecksheetListResponseSchema _ _ data => data
  | _ => []
  end.

(** Two creates of WHEEL-1 and one list, to be run in turns. *)
Definition racing_pool : list (Prog Response) :=
  [create_wheel_specification (wheel_payload "WHEEL-1" "1");
   create_wheel_specification (wheel_payload "WHEEL-1" "1");
   get_wheel_specifications None None None].

(** * Helpers ([apps/common/utils/helpers.py]): definitions *)

(** ** More Python string primitives *)

Module PyStr.

(** [len(s)]. *)
Definition len (s : string) : Z := Z.of_nat (String.length s).

Fixpoint take (n : nat) (s : string) : string :=
  match n, s with
  | S n', String c r => String c (take n' r)
  | _, _ => EmptyString
  end.

Fixpoint drop (n : nat) (s : string) : string :=
  match n, s with
  | S n', String _ r => drop n' r
  | _, _ => s
  end.

(** A slice bound: a negative one counts from the end, and the result is
    brought into [0 .. len(s)]. *)
Definition bound (i : Z) (s : string) : nat :=
  Z.to_nat (Z.max 0 (Z.min (len s) (if (i <? 0)%Z then i + len s else i))).

(** [s[:stop]]. *)
Definition slice_to (s : string) (stop : Z) : string := take (bound stop s) s.

(** [s[start:]]. *)
Definition slice_from (s : string) (start : Z) : string := drop (bound start s) s.

(** [s[i]] for an index in range, as a string of one character. *)
Definition item (s : string) (i : Z) : string := take 1 (drop (bound i s) s).

Fixpoint replicate (n : nat) (s : string) : string :=
  match n with
  | O => EmptyString
  | S n' => s ++ replicate n' s
  end.

(** [s * n]: empty when [n] is not positive. *)
Definition mul (s : string) (n : Z) : string := replicate (Z.to_nat n) s.

(** The characters of [s] that pass [keep], in order: [re.sub] of the
    complementary character class by the empty string. *)
Fixpoint keep_chars (keep : ascii -> bool) (s : string) : string :=
  match s with
  | EmptyString => EmptyString
  | String c r => if keep c then String c (keep_chars keep r) else keep_chars keep r
  end.

(** [s.split(sep, 1)] for a separator of one character that occurs in [s]:
    the text before its first occurrence and the text after it; [None]
    when it does not occur. *)
Fixpoint split_once (sep : ascii) (s : string) : option (string * string) :=
  match s with
  | EmptyString => None
  | String c r =>
      if Ascii.eqb c sep then Some (EmptyString, r)
      else match split_once sep r with
           | Some (before, after) => Some (String c before, after)
           | None => None
           end
  end.

End PyStr.

(** ** The helpers *)

(** [truncate_string(text, max_length, suffix)]; the defaults of the last
    two are 100 and '...'. *)
Definition truncate_string (text : string) (max_length : Z) (suffix : string) : string :=
  if (PyStr.len text <=? max_length)%Z then text
  else PyStr.slice_to text (max_length - PyStr.len suffix) ++ suffix.

(** [mask_phone_number(phone)]. *)
Definition mask_phone_number (phone : string) : string :=
  if (PyStr.len phone <=? 4)%Z then phone
  else PyStr.mul "*" (PyStr.len phone - 4) ++ PyStr.slice_from phone (-4).

(** [mask_email(email)]. *)
Definition mask_email (email : string) : string :=
  match PyStr.split_once "@" email with
  | None => email
  | Some (local, domain) =>
      let masked_local :=
        if (PyStr.len local <=? 2)%Z then local
        else PyStr.item local 0 ++ PyStr.mul "*" (PyStr.len local - 2)
             ++ PyStr.item local (-1) in
      masked_local ++ "@" ++ domain
  end.

(** [format_phone_number(phone)]. *)
Definition format_phone_number (phone : string) : string :=
  let cleaned := PyStr.keep_chars (fun c => Py.is_digit c || Ascii.eqb c "+") phone in
  if String.prefix "+" cleaned then cleaned
  else if (PyStr.len cleaned =? 10)%Z then "+1" ++ cleaned
  else if (PyStr.len cleaned =? 11)%Z && String.prefix "1" cleaned then "+" ++ cleaned
  else cleaned.

(** [calculate_age(birth_date)], with the value of [date.today()] made a
    parameter.  [None] is a missing birth date. *)
Definition calculate_age (today : date) (birth_date : option date) : option Z :=
  match birth_date with
  | None => None
  | Some birth =>
      let age := (year today - year birth)%Z in
      if (month today <? month birth)%Z
         || ((month today =? month birth)%Z && (day today <? day birth)%Z)
      then Some (age - 1)%Z
      else Some age
  end.

(** [get_client_ip(request)]; [META] is the request's dictionary of
    headers. *)
Definition get_client_ip (META : gmap string string) : string :=
  let x_forwarded_for := META !! "HTTP_X_FORWARDED_FOR" in
  let ip :=
    match x_forwarded_for with
    | Some (String c r) =>
        (* x_forwarded_for.split(',')[0] *)
        Some (match PyStr.split_once "," (String c r) with
              | Some (first, _) => first
              | None => String c r
              end)
    | _ => META !! "REMOTE_ADDR"
    end in
  match ip with
  | Some (String c r) => String c r
  | _ => "unknown"
  end.

(** Calendar order on dates: by year, then month, then day. *)
Definition date_leb (a b : date) : bool :=
  ((year a <? year b)
   || ((year a =? year b)
       && ((month a <? month b)
           || ((month a =? month b) && (day a <=? day b)))))%Z.

(** The birthday of someone born on [birth] in the year they turn [age]. *)
Definition birthday (birth : date) (age : Z) : date :=
  Date (year birth + age) (month birth) (day birth).

(** Every character of [s] passes [p]. *)
Fixpoint all_chars (p : ascii -> bool) (s : string) : bool :=
  match s with
  | EmptyString => true
  | String c r => p c && all_chars p r
  end.

(** The characters [format_phone_number] keeps. *)
Definition phone_char (c : ascii) : bool := Py.is_digit c || Ascii.eqb c "+".

(** * Validators ([apps/common/utils/validators.py], [constants.py]) *)

(** ** Regular expressions, as far as the patterns here need them *)

Module Re.

Inductive regex :=
| Caret                                   (* ^ *)
| Dollar                                  (* $ *)
| Chr (c : ascii)                         (* a literal character *)
| Class (p : ascii -> bool)               (* a character class *)
| Opt (r : regex)                         (* r? *)
| Rep (lo hi : nat) (r : regex)           (* r{lo,hi} *)
| Seq (r1 r2 : regex).

(** A backtracking matcher.  [pos] is the number of characters already
    consumed, [s] the rest of the subject and [k] what remains to be
    matched after [r].  [$] holds at the end of the subject and just before
    a newline that ends it. *)
Fixpoint at_ (r : regex) (pos : nat) (s : list ascii)
    (k : nat -> list ascii -> bool) {struct r} : bool :=
  match r with
  | Caret => (pos =? 0)%nat && k pos s
  | Dollar =>
      match s with
      | [] => k pos s
      | [c] => Ascii.eqb c "010" && k pos s
      | _ => false
      end
  | Chr c =>
      match s with
      | x :: t => Ascii.eqb x c && k (S pos) t
      | [] => false
      end
  | Class p =>
      match s with
      | x :: t => p x && k (S pos) t
      | [] => false
      end
  | Opt r' => at_ r' pos s k || k pos s
  | Rep lo hi r' =>
      (fix rep (lo hi pos : nat) (s : list ascii) {struct hi} : bool :=
         match hi with
         | O => (lo =? 0)%nat && k pos s
         | S hi' =>
             at_ r' pos s (fun pos' t => rep (Nat.pred lo) hi' pos' t)
             || ((lo =? 0)%nat && k pos s)
         end) lo hi pos s
  | Seq r1 r2 => at_ r1 pos s (fun pos' t => at_ r2 pos' t k)
  end.

(** [re.match(r, s)] as a truth value: [r] matches at the start of [s]. *)
Definition match_ (r : regex) (s : string) : bool :=
  at_ r 0 (list_ascii_of_string s) (fun _ _ => true).

End Re.

(** [PHONE_NUMBER_REGEX = r'^\+?1?\d{9,15}$'] *)
Definition PHONE_NUMBER_REGEX : Re.regex :=
  Re.Seq Re.Caret
    (Re.Seq (Re.Opt (Re.Chr "+"))
       (Re.Seq (Re.Opt (Re.Chr "1"))
          (Re.Seq (Re.Rep 9 15 (Re.Class Py.is_digit)) Re.Dollar))).

Definition PHONE_NUMBER_MIN_LENGTH : Z := 9.
Definition PHONE_NUMBER_MAX_LENGTH : Z := 17.

(** [validate_phone_number(phone)]: [inl] is the message of the
    [ValidationError] raised, [inr tt] the plain return. *)
Definition validate_phone_number (phone : string) : string + unit :=
  if negb (Re.match_ PHONE_NUMBER_REGEX phone)
  then inl "Phone number must be in format: +1234567890 (9-15 digits with optional + prefix)"
  else inr tt.

(** ** The phone-number validator of the login and registration schemas
    ([apps/users/serializers/auth.py]): [inl] is the message of the
    [ValueError] raised, [inr] the value returned. *)
Definition serializer_validate_phone_number (v : string) : string + string :=
  if negb (Py.truthy v) then inl "Phone number is required"
  else if (PyStr.len v <? 9)%Z || (17 <? PyStr.len v)%Z
       then inl "Phone number must be between 9 and 17 characters"
       else inr v.

(** ** [slugify] and the name validators *)

Definition is_ascii (c : ascii) : bool := (N_of_ascii c <? 128)%N.

(** [str.lower()]. *)
Fixpoint lower (s : string) : string :=
  match s with
  | EmptyString => EmptyString
  | String c r => String (Py.to_lower c) (lower r)
  end.

(** White space as [str.strip()] and the pattern [\s] have it: tab to
    carriage return, the four separators before the space, and the space. *)
Definition is_whitespace (c : ascii) : bool :=
  let n := N_of_ascii c in (((9 <=? n) && (n <=? 13)) || ((28 <=? n) && (n <=? 32)))%N.

(** The pattern [\w]. *)
Definition is_word (c : ascii) : bool :=
  Py.is_lower c || Py.is_upper c || Py.is_digit c || Ascii.eqb c "_".

(** [re.sub] of the pattern [[...]+] by [repl]: every maximal run of
    characters of the class is replaced by one [repl]; [in_run] says that
    the character before belongs to a run already replaced. *)
Fixpoint sub_runs (class : ascii -> bool) (repl : string) (in_run : bool) (s : string)
  : string :=
  match s with
  | EmptyString => EmptyString
  | String c r =>
      if class c then
        if in_run then sub_runs class repl true r
        else repl ++ sub_runs class repl true r
      else String c (sub_runs class repl false r)
  end.

(** [s.lstrip(chars)], [s.rstrip(chars)] and [s.strip(chars)], the set of
    characters given as a predicate. *)
Fixpoint lstrip_chars (chars : ascii -> bool) (s : string) : string :=
  match s with
  | EmptyString => EmptyString
  | String c r => if chars c then lstrip_chars chars r else s
  end.

Fixpoint rstrip_chars (chars : ascii -> bool) (s : string) : string :=
  match s with
  | EmptyString => EmptyString
  | String c r =>
      match rstrip_chars chars r with
      | EmptyString => if chars c then EmptyString else String c EmptyString
      | kept => String c kept
      end
  end.

Definition strip_chars (chars : ascii -> bool) (s : string) : string :=
  rstrip_chars chars (lstrip_chars chars s).

(** [slugify(text)]. *)
Definition slugify (text : string) : string :=
  let text := lower text in
  let text :=
    PyStr.keep_chars (fun c => is_word c || is_whitespace c || Ascii.eqb c "-") text in
  let text := sub_runs (fun c => Ascii.eqb c "-" || is_whitespace c) "-" false text in
  strip_chars (Ascii.eqb "-") text.

(** The characters a slug is made of. *)
Definition slug_char (c : ascii) : bool :=
  Py.is_lower c || Py.is_digit c || Ascii.eqb c "_" || Ascii.eqb c "-".

(** [RegisterSerializer.validate_first_name] and [validate_last_name]: the
    stripped name, or the message of the [ValueError]. *)
Definition validate_name (field : string) (v : string) : string + string :=
  if negb (Py.truthy v) || negb (Py.truthy (strip_chars is_whitespace v))
  then inl (field ++ " is required")
  else inr (strip_chars is_whitespace v).

Definition validate_first_name : string -> string + string := validate_name "First name".
Definition validate_last_name : string -> string + string := validate_name "Last name".

(** Shapes of a string with respect to a set of characters: no two of them
    side by side (and, with [after], none in front), one in front, one at
    the end. *)
Fixpoint apart (chars : ascii -> bool) (after : bool) (s : string) : bool :=
  match s with
  | EmptyString => true
  | String c r =>
      if chars c then negb after && apart chars true r else apart chars false r
  end.

Definition starts (chars : ascii -> bool) (s : string) : bool :=
  match s with
  | EmptyString => false
  | String c _ => chars c
  end.

Fixpoint ends (chars : ascii -> bool) (s : string) : bool :=
  match s with
  | EmptyString => false
  | String c EmptyString => chars c
  | String _ r => ends chars r
  end.

(** [User.get_full_name()]. *)
Definition get_full_name (self : UserRow) : string :=
  strip_chars is_whitespace (first_name self ++ " " ++ last_name self).

(** The pattern of [validate_employee_id], [r'^[A-Z]{2,4}-?\d{3,6}$']. *)
Definition EMPLOYEE_ID_PATTERN : Re.regex :=
  Re.Seq Re.Caret
    (Re.Seq (Re.Rep 2 4 (Re.Class Py.is_upper))
       (Re.Seq (Re.Opt (Re.Chr "-"))
          (Re.Seq (Re.Rep 3 6 (Re.Class Py.is_digit)) Re.Dollar))).

(** [validate_employee_id(employee_id)]: [inl] is the message of the
    [ValidationError] raised, [inr tt] the plain return. *)
Definition validate_employee_id (employee_id : string) : string + unit :=
  if negb (Re.match_ EMPLOYEE_ID_PATTERN (Py.upper employee_id))
  then inl "Employee ID must be in format: ABC123 or ABC-123"
  else inr tt.

Definition is_letter (c : ascii) : bool := Py.is_lower c || Py.is_upper c.

(** * Proofs *)

(** ** The primitives on examples *)

Example title_submitted : Py.title "submitted" = "Submitted".
Proof. reflexivity. Qed.

Example title_words : Py.title "wORN out-x9y" = "Worn Out-X9Y".
Proof. reflexivity. Qed.

Example int_plain : Py.int "12" = Some 12.
Proof. reflexivity. Qed.

Example int_padded : Py.int " +0_12 " = Some 12.
Proof. reflexivity. Qed.

Example int_negative : Py.int "-7" = Some (-7).
Proof. reflexivity. Qed.

Example int_empty : Py.int "" = None.
Proof. reflexivity. Qed.

Example int_word : Py.int "abc" = None.
Proof. reflexivity. Qed.

Example int_bad_underscore : Py.int "1__2" = None /\ Py.int "_1" = None /\ Py.int "1_" = None.
Proof. repeat split; reflexivity. Qed.

Example str_id : Py.str 42 = "42".
Proof. reflexivity. Qed.

Example create_then_duplicate :
  let '(r1, s1) := run (create_wheel_specification (wheel_payload "WHEEL-1" "1")) one_user in
  let '(r2, s2) := run (create_wheel_specification (wheel_payload "WHEEL-1" "1")) s1 in
  fst r1 = 201 /\ r2 = DuplicateFormNumber /\ s2 = s1
  /\ List.length (wheel_specifications s1) = 1%nat.
Proof. vm_compute. repeat split; reflexivity. Qed.

Example bogie_no_match :
  let s := serve [POST_bogie_checksheet (bogie_payload "BOGIE-1" "1" "Good")] one_user in
  fst (run (get_bogie_checksheets None None None (Some "BG99")) s)
  = (200, BogieChecksheetListResponseSchema true
            "Filtered bogie checksheet forms fetched successfully." []).
Proof. vm_compute. reflexivity. Qed.

(** ** Facts about the database layer *)

Lemma User_get_raises s pk e :
  User_get s pk = inl e ->
  (exists msg, e = ValueError msg) \/ (exists msg, e = DoesNotExist msg).
Proof.
  unfold User_get.
  destruct (Py.int pk) as [n|]; [destruct (users s !! n)|]; intros H;
    inversion H; eauto.
Qed.

Lemma adapt_ok params : forallb sendable params = true -> adapt params = inr tt.
Proof. unfold adapt. now intros ->. Qed.

Lemma adapt_refused params : forallb sendable params = false -> adapt params = inl nul_refused.
Proof. unfold adapt. now intros ->. Qed.

Lemma adapt_inv params u : adapt params = inr u -> forallb sendable params = true.
Proof. unfold adapt. destruct (forallb sendable params); [reflexivity | discriminate]. Qed.

Lemma adapt_one v : adapt [v] = if sendable v then inr tt else inl nul_refused.
Proof. unfold adapt. cbn [forallb]. now rewrite andb_true_r. Qed.

Lemma varchar_within n v : within n v = true -> varchar n v = inr v.
Proof. unfold within, varchar. now intros ->. Qed.

Ltac split_fits H :=
  repeat match type of H with
         | (_ && _) = true => let H' := fresh "Hfit" in
                              apply andb_prop in H; destruct H as [H H']
         end.

Lemma WheelSpecification_columns_fits r :
  WheelSpecification_fits r = true -> WheelSpecification_columns r = inr r.
Proof.
  unfold WheelSpecification_fits. intros H. split_fits H.
  unfold WheelSpecification_columns.
  repeat (rewrite varchar_within by assumption; cbn [bind_result]).
  now destruct r.
Qed.

Lemma BogieChecksheet_columns_fits r :
  BogieChecksheet_fits r = true -> BogieChecksheet_columns r = inr r.
Proof.
  unfold BogieChecksheet_fits. intros H. split_fits H.
  unfold BogieChecksheet_columns.
  repeat (rewrite varchar_within by assumption; cbn [bind_result]).
  now destruct r.
Qed.

Ltac case_varchars :=
  repeat match goal with
         | |- context [bind_result (varchar ?n ?v) _] =>
             let E := fresh "E" in
             destruct (varchar n v) eqn:E; cbn [bind_result]; [discriminate|]
         end.

Lemma WheelSpecification_columns_status r stored :
  WheelSpecification_columns r = inr stored ->
  varchar 20 (WheelSpecification.status r) = inr (WheelSpecification.status stored).
Proof.
  unfold WheelSpecification_columns. case_varchars.
  intros [= <-]. reflexivity.
Qed.

Lemma BogieChecksheet_columns_status r stored :
  BogieChecksheet_columns r = inr stored ->
  varchar 20 (BogieChecksheet.status r) = inr (BogieChecksheet.status stored).
Proof.
  unfold BogieChecksheet_columns. case_varchars.
  intros [= <-]. reflexivity.
Qed.

Lemma WheelSpecification_insert_inv s r s' :
  WheelSpecification_insert s r = inr s' ->
  exists stored,
    WheelSpecification_columns r = inr stored /\ s' = add_wheel_specification stored s.
Proof.
  unfold WheelSpecification_insert.
  destruct (adapt _) as [e|u]; cbn [bind_result]; [discriminate|].
  destruct (WheelSpecification_columns r) as [e|stored]; cbn [bind_result];
    [discriminate|].
  destruct (WheelSpecification_exists s _); [discriminate|].
  intros [= <-]. now exists stored.
Qed.

Lemma BogieChecksheet_insert_inv s r s' :
  BogieChecksheet_insert s r = inr s' ->
  exists stored,
    BogieChecksheet_columns r = inr stored /\ s' = add_bogie_checksheet stored s.
Proof.
  unfold BogieChecksheet_insert.
  destruct (adapt _) as [e|u]; cbn [bind_result]; [discriminate|].
  destruct (BogieChecksheet_columns r) as [e|stored]; cbn [bind_result];
    [discriminate|].
  destruct (BogieChecksheet_exists s _); [discriminate|].
  intros [= <-]. now exists stored.
Qed.

Lemma WheelSpecification_insert_sendable s r s' :
  WheelSpecification_insert s r = inr s' -> WheelSpecification_sendable r = true.
Proof.
  unfold WheelSpecification_insert, WheelSpecification_sendable.
  destruct (adapt _) as [e|u] eqn:E; cbn [bind_result]; [discriminate|].
  intros _. exact (adapt_inv _ _ E).
Qed.

Lemma BogieChecksheet_insert_sendable s r s' :
  BogieChecksheet_insert s r = inr s' -> BogieChecksheet_sendable r = true.
Proof.
  unfold BogieChecksheet_insert, BogieChecksheet_sendable.
  destruct (adapt _) as [e|u] eqn:E; cbn [bind_result]; [discriminate|].
  intros _. exact (adapt_inv _ _ E).
Qed.

Lemma WheelSpecification_sendable_form_number r :
  WheelSpecification_sendable r = true -> sendable (WheelSpecification.form_number r) = true.
Proof.
  unfold WheelSpecification_sendable, WheelSpecification_texts. cbn [forallb].
  intros H. apply andb_prop in H. tauto.
Qed.

Lemma BogieChecksheet_sendable_form_number r :
  BogieChecksheet_sendable r = true -> sendable (BogieChecksheet.form_number r) = true.
Proof.
  unfold BogieChecksheet_sendable, BogieChecksheet_texts. cbn [forallb].
  intros H. apply andb_prop in H. tauto.
Qed.

(** The driver refuses the insert of a row when it refuses its form
    number. *)
Lemma WheelSpecification_insert_refused s r :
  sendable (WheelSpecification.form_number r) = false ->
  WheelSpecification_insert s r = inl nul_refused.
Proof.
  intros H. unfold WheelSpecification_insert.
  rewrite adapt_refused; [reflexivity|].
  unfold WheelSpecification_texts. cbn [forallb]. now rewrite H.
Qed.

Lemma BogieChecksheet_insert_refused s r :
  sendable (BogieChecksheet.form_number r) = false ->
  BogieChecksheet_insert s r = inl nul_refused.
Proof.
  intros H. unfold BogieChecksheet_insert.
  rewrite adapt_refused; [reflexivity|].
  unfold BogieChecksheet_texts. cbn [forallb]. now rewrite H.
Qed.

Lemma WheelSpecification_insert_fresh s r :
  WheelSpecification_sendable r = true ->
  WheelSpecification_fits r = true ->
  WheelSpecification_exists s (WheelSpecification.form_number r) = false ->
  WheelSpecification_insert s r = inr (add_wheel_specification r s).
Proof.
  intros Hsend Hfit Hfresh. unfold WheelSpecification_insert.
  rewrite (adapt_ok _ Hsend). cbn [bind_result].
  rewrite WheelSpecification_columns_fits by assumption. cbn [bind_result].
  now rewrite Hfresh.
Qed.

Lemma BogieChecksheet_insert_fresh s r :
  BogieChecksheet_sendable r = true ->
  BogieChecksheet_fits r = true ->
  BogieChecksheet_exists s (BogieChecksheet.form_number r) = false ->
  BogieChecksheet_insert s r = inr (add_bogie_checksheet r s).
Proof.
  intros Hsend Hfit Hfresh. unfold BogieChecksheet_insert.
  rewrite (adapt_ok _ Hsend). cbn [bind_result].
  rewrite BogieChecksheet_columns_fits by assumption. cbn [bind_result].
  now rewrite Hfresh.
Qed.

Lemma WheelSpecification_exists_In s v :
  WheelSpecification_exists s v = true <->
  exists r, In r (wheel_specifications s) /\ WheelSpecification.form_number r = v.
Proof.
  unfold WheelSpecification_exists. rewrite existsb_exists.
  split; intros [r [Hin Heq]]; exists r; split; trivial;
    now apply String.eqb_eq.
Qed.

Lemma BogieChecksheet_exists_In s v :
  BogieChecksheet_exists s v = true <->
  exists r, In r (bogie_checksheets s) /\ BogieChecksheet.form_number r = v.
Proof.
  unfold BogieChecksheet_exists. rewrite existsb_exists.
  split; intros [r [Hin Heq]]; exists r; split; trivial;
    now apply String.eqb_eq.
Qed.

Lemma WheelSpecification_fresh s v :
  ~ (exists r, In r (wheel_specifications s) /\ WheelSpecification.form_number r = v) ->
  WheelSpecification_exists s v = false.
Proof.
  intros H. destruct (WheelSpecification_exists s v) eqn:E; [|reflexivity].
  exfalso. apply H. now apply WheelSpecification_exists_In.
Qed.

Lemma BogieChecksheet_fresh s v :
  ~ (exists r, In r (bogie_checksheets s) /\ BogieChecksheet.form_number r = v) ->
  BogieChecksheet_exists s v = false.
Proof.
  intros H. destruct (BogieChecksheet_exists s v) eqn:E; [|reflexivity].
  exfalso. apply H. now apply BogieChecksheet_exists_In.
Qed.

(** ** What the create handlers compute *)

Lemma run_create_wheel_specification payload s :
  run (create_wheel_specification payload) s =
  match User_get s (WheelSpecificationCreateSchema.submitted_by payload) with
  | inl _ => (InvalidReference "submitted_by", s)
  | inr user =>
      if WheelSpecification_exists s (WheelSpecificationCreateSchema.form_number payload)
      then (DuplicateFormNumber, s)
      else
        match WheelSpecification_insert s (wheel_spec_of payload user) with
        | inl e => (Unhandled "Error creating wheel specification: " e, s)
        | inr s' => (wheel_created (wheel_spec_of payload user), s')
        end
  end.
Proof.
  unfold create_wheel_specification, try_except, py_bind, attempt, call.
  cbn [prog_bind run exec_op].
  destruct (User_get s _) as [e|user] eqn:Hget.
  - destruct (User_get_raises _ _ _ Hget) as [[msg ->]|[msg ->]]; reflexivity.
  - cbn [prog_bind run exec_op].
    destruct (WheelSpecification_exists s _); [reflexivity|].
    rewrite adapt_one.
    destruct (sendable (WheelSpecificationCreateSchema.form_number payload)) eqn:Hsend.
    + cbn [bind_result prog_bind run exec_op].
      destruct (WheelSpecification_insert s _); reflexivity.
    + now rewrite WheelSpecification_insert_refused.
Qed.

Lemma run_create_bogie_checksheet payload s :
  run (create_bogie_checksheet payload) s =
  match User_get s (BogieChecksheetCreateSchema.inspection_by payload) with
  | inl _ => (InvalidReference "inspection_by", s)
  | inr user =>
      if BogieChecksheet_exists s (BogieChecksheetCreateSchema.form_number payload)
      then (DuplicateFormNumber, s)
      else
        match BogieChecksheet_insert s (bogie_checksheet_of payload user) with
        | inl e => (Unhandled "Error creating bogie checksheet: " e, s)
        | inr s' => (bogie_created (bogie_checksheet_of payload user), s')
        end
  end.
Proof.
  unfold create_bogie_checksheet, try_except, py_bind, attempt, call.
  cbn [prog_bind run exec_op].
  destruct (User_get s _) as [e|user] eqn:Hget.
  - destruct (User_get_raises _ _ _ Hget) as [[msg ->]|[msg ->]]; reflexivity.
  - cbn [prog_bind run exec_op].
    destruct (BogieChecksheet_exists s _); [reflexivity|].
    rewrite adapt_one.
    destruct (sendable (BogieChecksheetCreateSchema.form_number payload)) eqn:Hsend.
    + cbn [bind_result prog_bind run exec_op].
      destruct (BogieChecksheet_insert s _); reflexivity.
    + now rewrite BogieChecksheet_insert_refused.
Qed.

(** ** Claims about the create handlers *)

(** C1. In a store that already holds a record with form number F, a create
    with form number F and a user reference that resolves answers 400 with
    the duplicate-form-number body, whatever the other fields are, and leaves
    the store as it was.  Both form types. *)
Theorem duplicate_form_number_rejected :
  (forall s payload user,
      User_get s (WheelSpecificationCreateSchema.submitted_by payload) = inr user ->
      (exists r, In r (wheel_specifications s)
                 /\ WheelSpecification.form_number r
                    = WheelSpecificationCreateSchema.form_number payload) ->
      run (create_wheel_specification payload) s
      = ((400, ErrorResponse false "Form number already exists"
                 [("form_number", ["This form number is already in use"])]), s))
  /\
  (forall s payload user,
      User_get s (BogieChecksheetCreateSchema.inspection_by payload) = inr user ->
      (exists r, In r (bogie_checksheets s)
                 /\ BogieChecksheet.form_number r
                    = BogieChecksheetCreateSchema.form_number payload) ->
      run (create_bogie_checksheet payload) s
      = ((400, ErrorResponse false "Form number already exists"
                 [("form_number", ["This form number is already in use"])]), s)).
Proof.
  split; intros s payload user Huser Htaken.
  - rewrite run_create_wheel_specification, Huser.
    apply WheelSpecification_exists_In in Htaken. now rewrite Htaken.
  - rewrite run_create_bogie_checksheet, Huser.
    apply BogieChecksheet_exists_In in Htaken. now rewrite Htaken.
Qed.

Lemma duplicate_form_number_rejected_witness :
  run (create_wheel_specification
         {| WheelSpecificationCreateSchema.form_number := "WHEEL-1";
            WheelSpecificationCreateSchema.submitted_by := " 1";
            WheelSpecificationCreateSchema.submitted_date := Date 2026 2 28;
            WheelSpecificationCreateSchema.fields := wheel_fields |}) stocked
  = ((400, ErrorResponse false "Form number already exists"
             [("form_number", ["This form number is already in use"])]), stocked)
  /\
  run (create_bogie_checksheet (bogie_payload "BOGIE-1" "1" "Poor")) stocked
  = ((400, ErrorResponse false "Form number already exists"
             [("form_number", ["This form number is already in use"])]), stocked).
Proof.
  split.
  - apply (proj1 duplicate_form_number_rejected stocked _
             {| id := 1; columns := inspector |}).
    + vm_compute. reflexivity.
    + eexists. split; [left; vm_compute; reflexivity | reflexivity].
  - apply (proj2 duplicate_form_number_rejected stocked _
             {| id := 1; columns := inspector |}).
    + vm_compute. reflexivity.
    + eexists. split; [left; vm_compute; reflexivity | reflexivity].
Defined.

(** C2. A create whose submitter or inspector reference resolves to no user
    answers 400 with the invalid-reference body, the per-field error sitting
    under the reference field, and the store after it is the store before
    it.  Both form types. *)
Theorem unresolved_reference_rejected :
  (forall s payload,
      ~ (exists user,
            User_get s (WheelSpecificationCreateSchema.submitted_by payload) = inr user) ->
      run (create_wheel_specification payload) s
      = ((400, ErrorResponse false "Invalid user ID provided"
                 [("submitted_by", ["User not found"])]), s))
  /\
  (forall s payload,
      ~ (exists user,
            User_get s (BogieChecksheetCreateSchema.inspection_by payload) = inr user) ->
      run (create_bogie_checksheet payload) s
      = ((400, ErrorResponse false "Invalid user ID provided"
                 [("inspection_by", ["User not found"])]), s)).
Proof.
  split; intros s payload Hnone.
  - rewrite run_create_wheel_specification.
    destruct (User_get s _) as [e|user]; [reflexivity|].
    exfalso. apply Hnone. now exists user.
  - rewrite run_create_bogie_checksheet.
    destruct (User_get s _) as [e|user]; [reflexivity|].
    exfalso. apply Hnone. now exists user.
Qed.

Lemma unresolved_reference_rejected_witness :
  run (create_wheel_specification (wheel_payload "WHEEL-7" "2")) stocked
  = ((400, ErrorResponse false "Invalid user ID provided"
             [("submitted_by", ["User not found"])]), stocked)
  /\
  run (create_bogie_checksheet (bogie_payload "BOGIE-7" "x1" "Good")) stocked
  = ((400, ErrorResponse false "Invalid user ID provided"
             [("inspection_by", ["User not found"])]), stocked).
Proof.
  split.
  - apply (proj1 unresolved_reference_rejected stocked (wheel_payload "WHEEL-7" "2")).
    intros [user H]. vm_compute in H. discriminate H.
  - apply (proj2 unresolved_reference_rejected stocked (bogie_payload "BOGIE-7" "x1" "Good")).
    intros [user H]. vm_compute in H. discriminate H.
Defined.

(** C6. The user reference is checked before the form number: when the
    reference resolves to no user and the form number is already stored,
    the answer is the invalid-reference body and not the
    duplicate-form-number one.  Both form types. *)
Theorem reference_checked_before_form_number :
  (forall s payload,
      ~ (exists user,
            User_get s (WheelSpecificationCreateSchema.submitted_by payload) = inr user) ->
      (exists r, In r (wheel_specifications s)
                 /\ WheelSpecification.form_number r
                    = WheelSpecificationCreateSchema.form_number payload) ->
      fst (run (create_wheel_specification payload) s) = InvalidReference "submitted_by"
      /\ fst (run (create_wheel_specification payload) s) <> DuplicateFormNumber)
  /\
  (forall s payload,
      ~ (exists user,
            User_get s (BogieChecksheetCreateSchema.inspection_by payload) = inr user) ->
      (exists r, In r (bogie_checksheets s)
                 /\ BogieChecksheet.form_number r
                    = BogieChecksheetCreateSchema.form_number payload) ->
      fst (run (create_bogie_checksheet payload) s) = InvalidReference "inspection_by"
      /\ fst (run (create_bogie_checksheet payload) s) <> DuplicateFormNumber).
Proof.
  split; intros s payload Hnone _.
  - rewrite run_create_wheel_specification.
    destruct (User_get s _) as [e|user].
    + split; [reflexivity | discriminate].
    + exfalso. apply Hnone. now exists user.
  - rewrite run_create_bogie_checksheet.
    destruct (User_get s _) as [e|user].
    + split; [reflexivity | discriminate].
    + exfalso. apply Hnone. now exists user.
Qed.

Lemma reference_checked_before_form_number_witness :
  (fst (run (create_wheel_specification (wheel_payload "WHEEL-1" "")) stocked)
   = InvalidReference "submitted_by"
   /\ fst (run (create_wheel_specification (wheel_payload "WHEEL-1" "")) stocked)
      <> DuplicateFormNumber)
  /\
  (fst (run (create_bogie_checksheet (bogie_payload "BOGIE-1" "404" "Good")) stocked)
   = InvalidReference "inspection_by"
   /\ fst (run (create_bogie_checksheet (bogie_payload "BOGIE-1" "404" "Good")) stocked)
      <> DuplicateFormNumber).
Proof.
  split.
  - apply (proj1 reference_checked_before_form_number stocked (wheel_payload "WHEEL-1" "")).
    + intros [user H]. vm_compute in H. discriminate H.
    + eexists. split; [left; vm_compute; reflexivity | reflexivity].
  - apply (proj2 reference_checked_before_form_number stocked
             (bogie_payload "BOGIE-1" "404" "Good")).
    + intros [user H]. vm_compute in H. discriminate H.
    + eexists. split; [left; vm_compute; reflexivity | reflexivity].
Defined.

(** C3, as the claim states it, fails: the reference resolves, the form
    number is new and the body passes the schema, yet the handler answers
    400 and stores nothing, because [variation_same_axle] is wider than its
    column. *)
Lemma create_wide_field_fails :
  User_get one_user (WheelSpecificationCreateSchema.submitted_by wide_axle_payload)
  = inr {| id := 1; columns := inspector |}
  /\ ~ (exists r, In r (wheel_specifications one_user)
                  /\ WheelSpecification.form_number r
                     = WheelSpecificationCreateSchema.form_number wide_axle_payload)
  /\ WheelSpecificationCreateSchema.validate wide_axle_payload = true
  /\ run (create_wheel_specification wide_axle_payload) one_user
     = ((400, ErrorResponse false
                "Error creating wheel specification: value too long for type character varying(50)"
                [("general", ["value too long for type character varying(50)"])]),
        one_user).
Proof.
  split; [vm_compute; reflexivity|].
  split; [intros [r [[] _]]|].
  split; vm_compute; reflexivity.
Qed.

(** C3 (amended). When the reference resolves, the form number is new and
    every text value holds no NUL character and is within the width of its
    column, the create stores one new row whose status is 'submitted' (the
    model default being 'saved') and answers 201 with success=true and a
    payload of the form number, the user's id as a string, the date and the
    word 'Submitted'.  Both form types. *)
Theorem create_stores_submitted :
  (forall s payload user,
      User_get s (WheelSpecificationCreateSchema.submitted_by payload) = inr user ->
      ~ (exists r, In r (wheel_specifications s)
                   /\ WheelSpecification.form_number r
                      = WheelSpecificationCreateSchema.form_number payload) ->
      WheelSpecification_sendable (wheel_spec_of payload user) = true ->
      WheelSpecification_fits (wheel_spec_of payload user) = true ->
      run (create_wheel_specification payload) s
      = ((201, WheelSpecificationCreateResponseSchema true
                 "Wheel specification submitted successfully."
                 {| WheelSpecificationResponseDataSchema.form_number :=
                      WheelSpecificationCreateSchema.form_number payload;
                    WheelSpecificationResponseDataSchema.submitted_by := Py.str (id user);
                    WheelSpecificationResponseDataSchema.submitted_date :=
                      WheelSpecificationCreateSchema.submitted_date payload;
                    WheelSpecificationResponseDataSchema.status := "Submitted";
                    WheelSpecificationResponseDataSchema.fields := None |}),
         {| users := users s;
            wheel_specifications := wheel_spec_of payload user :: wheel_specifications s;
            bogie_checksheets := bogie_checksheets s |})
      /\ WheelSpecification.status (wheel_spec_of payload user) = "submitted"
      /\ WheelSpecification.status_default = "saved")
  /\
  (forall s payload user,
      User_get s (BogieChecksheetCreateSchema.inspection_by payload) = inr user ->
      ~ (exists r, In r (bogie_checksheets s)
                   /\ BogieChecksheet.form_number r
                      = BogieChecksheetCreateSchema.form_number payload) ->
      BogieChecksheet_sendable (bogie_checksheet_of payload user) = true ->
      BogieChecksheet_fits (bogie_checksheet_of payload user) = true ->
      run (create_bogie_checksheet payload) s
      = ((201, BogieChecksheetCreateResponseSchema true
                 "Bogie checksheet submitted successfully."
                 {| BogieChecksheetResponseDataSchema.form_number :=
                      BogieChecksheetCreateSchema.form_number payload;
                    BogieChecksheetResponseDataSchema.inspection_by := Py.str (id user);
                    BogieChecksheetResponseDataSchema.inspection_date :=
                      BogieChecksheetCreateSchema.inspection_date payload;
                    BogieChecksheetResponseDataSchema.status := "Submitted";
                    BogieChecksheetResponseDataSchema.bogie_details := None;
                    BogieChecksheetResponseDataSchema.bogie_checksheet := None;
                    BogieChecksheetResponseDataSchema.bmbc_checksheet := None |}),
         {| users := users s;
            wheel_specifications := wheel_specifications s;
            bogie_checksheets := bogie_checksheet_of payload user :: bogie_checksheets s |})
      /\ BogieChecksheet.status (bogie_checksheet_of payload user) = "submitted"
      /\ BogieChecksheet.status_default = "saved").
Proof.
  split; intros s payload user Huser Hnew Hsend Hfit.
  - split; [|split; reflexivity].
    rewrite run_create_wheel_specification, Huser.
    destruct (WheelSpecification_exists s _) eqn:Htaken.
    + exfalso. apply Hnew. now apply WheelSpecification_exists_In.
    + now rewrite WheelSpecification_insert_fresh.
  - split; [|split; reflexivity].
    rewrite run_create_bogie_checksheet, Huser.
    destruct (BogieChecksheet_exists s _) eqn:Htaken.
    + exfalso. apply Hnew. now apply BogieChecksheet_exists_In.
    + now rewrite BogieChecksheet_insert_fresh.
Qed.

Lemma create_stores_submitted_witness :
  (wheel_specifications
     (snd (run (create_wheel_specification (wheel_payload "WHEEL-1" "1")) one_user))
   = [wheel_spec_of (wheel_payload "WHEEL-1" "1") {| id := 1; columns := inspector |}]
   /\ fst (fst (run (create_wheel_specification (wheel_payload "WHEEL-1" "1")) one_user))
      = 201)
  /\
  (bogie_checksheets
     (snd (run (create_bogie_checksheet (bogie_payload "BOGIE-1" "1" "Good")) one_user))
   = [bogie_checksheet_of (bogie_payload "BOGIE-1" "1" "Good")
        {| id := 1; columns := inspector |}]
   /\ fst (fst (run (create_bogie_checksheet (bogie_payload "BOGIE-1" "1" "Good")) one_user))
      = 201).
Proof.
  split.
  - destruct (proj1 create_stores_submitted one_user (wheel_payload "WHEEL-1" "1")
                {| id := 1; columns := inspector |}) as [H _].
    + vm_compute. reflexivity.
    + intros [r [[] _]].
    + vm_compute. reflexivity.
    + vm_compute. reflexivity.
    + rewrite H. split; reflexivity.
  - destruct (proj2 create_stores_submitted one_user (bogie_payload "BOGIE-1" "1" "Good")
                {| id := 1; columns := inspector |}) as [H _].
    + vm_compute. reflexivity.
    + intros [r [[] _]].
    + vm_compute. reflexivity.
    + vm_compute. reflexivity.
    + rewrite H. split; reflexivity.
Defined.

(** A text the driver refuses stops the create as well: the form number
    'W' followed by a NUL character is new and short enough, yet the
    answer is the generic error, and nothing is stored. *)
Example create_nul_form_number_fails :
  run (create_wheel_specification (wheel_payload (String "W" (String "000" "")) "1")) one_user
  = (Unhandled "Error creating wheel specification: " nul_refused, one_user)
  /\ fst (Unhandled "Error creating wheel specification: " nul_refused) = 400.
Proof. split; vm_compute; reflexivity. Qed.

(** ** The condition vocabulary *)

(** C8, as the claim states it, fails for a condition value wider than the
    column: the body passes the schema, the reference resolves and the form
    number is new, yet the create answers 400 and stores nothing. *)
Lemma create_wide_condition_fails :
  BogieChecksheetCreateSchema.validate (bogie_payload "BOGIE-2" "1" wide) = true
  /\ User_get one_user "1" = inr {| id := 1; columns := inspector |}
  /\ BogieChecksheet_exists one_user "BOGIE-2" = false
  /\ run (create_bogie_checksheet (bogie_payload "BOGIE-2" "1" wide)) one_user
     = ((400, ErrorResponse false
                "Error creating bogie checksheet: value too long for type character varying(50)"
                [("general", ["value too long for type character varying(50)"])]),
        one_user).
Proof. repeat split; vm_compute; reflexivity. Qed.

(** So does a short condition value that holds a NUL character. *)
Example create_nul_condition_fails :
  run (create_bogie_checksheet
         (bogie_payload "BOGIE-2" "1" (String "a" (String "000" "b")))) one_user
  = (Unhandled "Error creating bogie checksheet: " nul_refused, one_user)
  /\ fst (Unhandled "Error creating bogie checksheet: " nul_refused) = 400.
Proof. split; vm_compute; reflexivity. Qed.

(** C8 (amended). Whatever strings a bogie-checksheet body carries in its
    nine condition fields, inside or outside the documented vocabulary, the
    schema accepts the body exactly when it accepts it with any other
    condition values; and when the reference resolves, the form number is
    new and the text values hold no NUL character and are within the widths
    of their columns (fifty characters for a condition), the create answers
    201 and the stored row carries the nine strings unchanged. *)
Theorem condition_vocabulary_not_enforced :
  (forall payload bogie bmbc,
      BogieChecksheetCreateSchema.validate (with_conditions payload bogie bmbc)
      = BogieChecksheetCreateSchema.validate payload)
  /\
  (forall s payload user,
      User_get s (BogieChecksheetCreateSchema.inspection_by payload) = inr user ->
      BogieChecksheet_exists s (BogieChecksheetCreateSchema.form_number payload) = false ->
      BogieChecksheet_sendable (bogie_checksheet_of payload user) = true ->
      BogieChecksheet_fits (bogie_checksheet_of payload user) = true ->
      exists row,
        fst (fst (run (create_bogie_checksheet payload) s)) = 201
        /\ bogie_checksheets (snd (run (create_bogie_checksheet payload) s))
           = row :: bogie_checksheets s
        /\ conditions row = supplied_conditions payload).
Proof.
  split; [reflexivity|].
  intros s payload user Huser Hnew Hsend Hfit.
  exists (bogie_checksheet_of payload user).
  rewrite run_create_bogie_checksheet, Huser, Hnew.
  rewrite BogieChecksheet_insert_fresh by assumption.
  repeat split.
Qed.

Lemma condition_vocabulary_not_enforced_witness :
  ~ In "Banana" BogieChecksheet.condition_choices
  /\ exists row,
       fst (fst (run (create_bogie_checksheet (bogie_payload "BOGIE-3" "1" "Banana"))
                   stocked)) = 201
       /\ bogie_checksheets
            (snd (run (create_bogie_checksheet (bogie_payload "BOGIE-3" "1" "Banana"))
                    stocked))
          = row :: bogie_checksheets stocked
       /\ conditions row = supplied_conditions (bogie_payload "BOGIE-3" "1" "Banana").
Proof.
  split.
  - cbn. intros [H|[H|[H|[H|[]]]]]; discriminate H.
  - apply (proj2 condition_vocabulary_not_enforced stocked
             (bogie_payload "BOGIE-3" "1" "Banana")
             {| id := 1; columns := inspector |});
      vm_compute; reflexivity.
Defined.

(** ** What the list handlers compute *)

Lemma run_get_wheel_specifications form_number submitted_by submitted_date s :
  run (get_wheel_specifications form_number submitted_by submitted_date) s =
  match supplied submitted_by with
  | Some pk =>
      match User_get s pk with
      | inl _ => (InvalidReference "submitted_by", s)
      | inr user => (wheel_listing s (wheel_lookups form_number (Some user) submitted_date), s)
      end
  | None => (wheel_listing s (wheel_lookups form_number None submitted_date), s)
  end.
Proof.
  unfold get_wheel_specifications, wheel_lookups, wheel_listing,
    try_except, py_bind, attempt, call.
  destruct (supplied submitted_by) as [pk|].
  - cbn [prog_bind run exec_op].
    destruct (User_get s pk) as [e|user] eqn:Hget.
    + destruct (User_get_raises _ _ _ Hget) as [[msg ->]|[msg ->]]; reflexivity.
    + destruct (supplied form_number), submitted_date;
        cbn; destruct (adapt _); reflexivity.
  - destruct (supplied form_number), submitted_date;
      cbn; destruct (adapt _); reflexivity.
Qed.

Lemma run_get_bogie_checksheets form_number inspection_by inspection_date bogie_no s :
  run (get_bogie_checksheets form_number inspection_by inspection_date bogie_no) s =
  match supplied inspection_by with
  | Some pk =>
      match User_get s pk with
      | inl _ => (InvalidReference "inspection_by", s)
      | inr user =>
          (bogie_listing s (bogie_lookups form_number (Some user) inspection_date bogie_no), s)
      end
  | None => (bogie_listing s (bogie_lookups form_number None inspection_date bogie_no), s)
  end.
Proof.
  unfold get_bogie_checksheets, bogie_lookups, bogie_listing,
    try_except, py_bind, attempt, call.
  destruct (supplied inspection_by) as [pk|].
  - cbn [prog_bind run exec_op].
    destruct (User_get s pk) as [e|user] eqn:Hget.
    + destruct (User_get_raises _ _ _ Hget) as [[msg ->]|[msg ->]]; reflexivity.
    + destruct (supplied form_number), inspection_date, (supplied bogie_no);
        cbn; destruct (adapt _); reflexivity.
  - destruct (supplied form_number), inspection_date, (supplied bogie_no);
      cbn; destruct (adapt _); reflexivity.
Qed.

(** ** The filters of the handlers against the filters of the specification *)

Lemma append_cons c a b : String c a ++ b = String c (a ++ b).
Proof. reflexivity. Qed.

Lemma append_empty a : "" ++ a = a.
Proof. reflexivity. Qed.

Lemma prefix_append part text :
  String.prefix part text = true <-> exists rest, text = part ++ rest.
Proof.
  revert text. induction part as [|a part IH]; intros text.
  - split; [intros _; now exists text | intros _; now destruct text].
  - destruct text as [|b text]; cbn.
    + split; [discriminate | intros [rest H]; discriminate H].
    + destruct (ascii_dec a b) as [->|Hne].
      * rewrite IH. split; intros [rest H]; exists rest.
        -- now rewrite H.
        -- rewrite append_cons in H. now injection H.
      * split; [discriminate|].
        intros [rest H]. rewrite append_cons in H. injection H as Hab _. congruence.
Qed.

Lemma contains_append text part :
  Py.contains text part = true <-> exists before after, text = before ++ part ++ after.
Proof.
  induction text as [|c text IH]; cbn [Py.contains].
  - rewrite orb_false_r, prefix_append. split.
    + intros [rest H]. now exists "", rest.
    + intros [before [after H]]. destruct before; [now exists after | discriminate H].
  - rewrite orb_true_iff, prefix_append, IH. split.
    + intros [[rest H] | [before [after H]]].
      * now exists "", rest.
      * exists (String c before), after. now rewrite append_cons, H.
    + intros [before [after H]]. destruct before as [|c' before].
      * left. now exists after.
      * right. rewrite append_cons in H. injection H as _ H. now exists before, after.
Qed.

Lemma upper_append a b : Py.upper (a ++ b) = Py.upper a ++ Py.upper b.
Proof.
  induction a as [|c a IH]; [reflexivity|].
  rewrite append_cons. cbn [Py.upper]. now rewrite append_cons, IH.
Qed.

Lemma upper_split text x y :
  Py.upper text = x ++ y ->
  exists a b, text = a ++ b /\ Py.upper a = x /\ Py.upper b = y.
Proof.
  revert text. induction x as [|c x IH]; intros text H.
  - now exists "", text.
  - destruct text as [|c' text]; [discriminate H|].
    rewrite append_cons in H. cbn [Py.upper] in H. injection H as Hc H.
    destruct (IH _ H) as [a [b [-> [<- <-]]]].
    exists (String c' a), b. rewrite append_cons. cbn [Py.upper]. now rewrite Hc.
Qed.

Lemma contains_upper_icontains text part :
  Py.contains (Py.upper text) (Py.upper part) = true <-> icontains text part.
Proof.
  rewrite contains_append. unfold icontains. split.
  - intros [x [y H]].
    destruct (upper_split _ _ _ H) as [before [rest [-> [_ Hrest]]]].
    destruct (upper_split _ _ _ Hrest) as [mid [after [-> [Hmid _]]]].
    now exists before, mid, after.
  - intros [before [mid [after [-> Hmid]]]].
    exists (Py.upper before), (Py.upper after).
    now rewrite !upper_append, Hmid.
Qed.

Lemma icontains_empty text : icontains text "".
Proof. now exists "", "", text. Qed.

Lemma icontains_self text : icontains text text.
Proof.
  exists "", text, "". split; [|reflexivity].
  rewrite append_empty.
  induction text as [|c text IH]; [reflexivity | now rewrite append_cons, <- IH].
Qed.

Lemma date_eqb_eq a b : date_eqb a b = true <-> a = b.
Proof.
  destruct a as [y m d], b as [y' m' d']. unfold date_eqb. cbn.
  rewrite !andb_true_iff, !Z.eqb_eq. split.
  - now intros [[-> ->] ->].
  - now intros [= -> -> ->].
Qed.

Lemma User_get_supplied s pk u : User_get s pk = inr u -> supplied (Some pk) = Some pk.
Proof. destruct pk; [discriminate | reflexivity]. Qed.

Lemma iff_and (A B C D : Prop) : (A <-> B) -> (C <-> D) -> (A /\ C <-> B /\ D).
Proof. tauto. Qed.

Lemma supplied_filter_icontains text param :
  match supplied param with
  | Some v => Py.contains (Py.upper text) (Py.upper v)
  | None => true
  end = true
  <-> (forall v, param = Some v -> icontains text v).
Proof.
  destruct param as [[|c w]|]; cbn [supplied Py.truthy].
  - split; [intros _ v [= <-]; apply icontains_empty | reflexivity].
  - rewrite contains_upper_icontains. split.
    + now intros H v [= <-].
    + intros H. now apply H.
  - split; [intros _ v H; discriminate H | reflexivity].
Qed.

Lemma wheel_lookups_matches form_number user submitted_date r :
  forallb (WheelLookup.holds r) (wheel_lookups form_number user submitted_date) = true
  <-> wheel_matches form_number user submitted_date r.
Proof.
  unfold wheel_lookups, wheel_matches.
  rewrite !forallb_app, !andb_true_iff.
  rewrite <- (supplied_filter_icontains (WheelSpecification.form_number r) form_number).
  apply iff_and; [|apply iff_and].
  - destruct (supplied form_number); cbn; [now rewrite andb_true_r | reflexivity].
  - destruct user as [u|]; cbn.
    + rewrite andb_true_r, Z.eqb_eq. split; [now intros H u' [= <-] | auto].
    + split; [intros _ u H; discriminate H | reflexivity].
  - destruct submitted_date as [d|]; cbn.
    + rewrite andb_true_r, date_eqb_eq. split; [now intros H d' [= <-] | auto].
    + split; [intros _ d H; discriminate H | reflexivity].
Qed.

Lemma bogie_lookups_matches form_number user inspection_date bogie_no r :
  forallb (BogieLookup.holds r) (bogie_lookups form_number user inspection_date bogie_no)
  = true
  <-> bogie_matches form_number user inspection_date bogie_no r.
Proof.
  unfold bogie_lookups, bogie_matches.
  rewrite !forallb_app, !andb_true_iff.
  rewrite <- (supplied_filter_icontains (BogieChecksheet.form_number r) form_number).
  rewrite <- (supplied_filter_icontains (BogieChecksheet.bogie_no r) bogie_no).
  apply iff_and; [|apply iff_and; [|apply iff_and]].
  - destruct (supplied form_number); cbn; [now rewrite andb_true_r | reflexivity].
  - destruct user as [u|]; cbn.
    + rewrite andb_true_r, Z.eqb_eq. split; [now intros H u' [= <-] | auto].
    + split; [intros _ u H; discriminate H | reflexivity].
  - destruct inspection_date as [d|]; cbn.
    + rewrite andb_true_r, date_eqb_eq. split; [now intros H d' [= <-] | auto].
    + split; [intros _ d H; discriminate H | reflexivity].
  - destruct (supplied bogie_no); cbn; [now rewrite andb_true_r | reflexivity].
Qed.

Lemma select_all_wheel s : WheelSpecification_select s [] = wheel_specifications s.
Proof.
  unfold WheelSpecification_select. cbn.
  induction (wheel_specifications s) as [|r l IH]; cbn; [reflexivity | now rewrite IH].
Qed.

Lemma select_all_bogie s : BogieChecksheet_select s [] = bogie_checksheets s.
Proof.
  unfold BogieChecksheet_select. cbn.
  induction (bogie_checksheets s) as [|r l IH]; cbn; [reflexivity | now rewrite IH].
Qed.

Lemma not_icontains text part :
  Py.contains (Py.upper text) (Py.upper part) = false -> ~ icontains text part.
Proof.
  intros H Hc. apply contains_upper_icontains in Hc. congruence.
Qed.

(** A supplied reference that resolves to no user ends the list handlers
    with the invalid-reference answer. *)
Lemma list_unresolved_reference s pk :
  pk <> "" ->
  ~ (exists user, User_get s pk = inr user) ->
  (forall form_number submitted_date,
      run (get_wheel_specifications form_number (Some pk) submitted_date) s
      = (InvalidReference "submitted_by", s))
  /\ (forall form_number inspection_date bogie_no,
         run (get_bogie_checksheets form_number (Some pk) inspection_date bogie_no) s
         = (InvalidReference "inspection_by", s)).
Proof.
  intros Hne Hnone.
  assert (Hsup : supplied (Some pk) = Some pk) by (destruct pk; [contradiction | reflexivity]).
  split; intros.
  - rewrite run_get_wheel_specifications, Hsup.
    destruct (User_get s pk) as [e|user]; [reflexivity|].
    exfalso. apply Hnone. now exists user.
  - rewrite run_get_bogie_checksheets, Hsup.
    destruct (User_get s pk) as [e|user]; [reflexivity|].
    exfalso. apply Hnone. now exists user.
Qed.

(** ** Claims about the list handlers *)

(** The texts of the query a list handler builds are its supplied text
    filters. *)
Lemma wheel_lookups_texts form_number user submitted_date :
  flat_map WheelLookup.texts (wheel_lookups form_number user submitted_date)
  = match supplied form_number with Some v => [v] | None => [] end.
Proof.
  unfold wheel_lookups.
  destruct (supplied form_number), user, submitted_date; reflexivity.
Qed.

Lemma bogie_lookups_texts form_number user inspection_date bogie_no :
  flat_map BogieLookup.texts (bogie_lookups form_number user inspection_date bogie_no)
  = (match supplied form_number with Some v => [v] | None => [] end
     ++ match supplied bogie_no with Some v => [v] | None => [] end)%list.
Proof.
  unfold bogie_lookups.
  destruct (supplied form_number), user, inspection_date, (supplied bogie_no); reflexivity.
Qed.

Lemma supplied_sendable param :
  (forall v, param = Some v -> sendable v = true) ->
  forallb sendable (match supplied param with Some v => [v] | None => [] end) = true.
Proof.
  intros H. destruct param as [[|c r]|]; cbn [supplied Py.truthy forallb]; trivial.
  now rewrite (H _ eq_refl).
Qed.

Lemma wheel_listing_sent s qs :
  forallb sendable (flat_map WheelLookup.texts qs) = true ->
  wheel_listing s qs
  = (200, WheelSpecificationListResponseSchema true
            (match qs with
             | [] => "All wheel specification forms fetched successfully."
             | _ :: _ => "Filtered wheel specification forms fetched successfully."
             end)
            (List.map wheel_response_data (WheelSpecification_select s qs))).
Proof. intros H. unfold wheel_listing. now rewrite (adapt_ok _ H). Qed.

Lemma bogie_listing_sent s qs :
  forallb sendable (flat_map BogieLookup.texts qs) = true ->
  bogie_listing s qs
  = (200, BogieChecksheetListResponseSchema true
            (match qs with
             | [] => "All bogie checksheet forms fetched successfully."
             | _ :: _ => "Filtered bogie checksheet forms fetched successfully."
             end)
            (List.map bogie_response_data (BogieChecksheet_select s qs))).
Proof. intros H. unfold bogie_listing. now rewrite (adapt_ok _ H). Qed.

(** C4, as the claim states it, fails for two kinds of filter: a user
    reference that resolves to no user, and a text with a NUL character.
    Either is answered with 400 and no records, whatever the store holds. *)
Lemma list_filter_can_fail :
  ~ (exists user, User_get fleet "999" = inr user)
  /\ run (get_wheel_specifications None (Some "999") None) fleet
     = ((400, ErrorResponse false "Invalid user ID provided"
                [("submitted_by", ["User not found"])]), fleet)
  /\ run (get_bogie_checksheets (Some (String "B" (String "000" ""))) None None None) fleet
     = (Unhandled "Error retrieving bogie checksheets: " nul_refused, fleet)
  /\ fst (Unhandled "Error retrieving bogie checksheets: " nul_refused) = 400.
Proof.
  split; [intros [user H]; vm_compute in H; discriminate H|].
  repeat split; vm_compute; reflexivity.
Qed.

(** C4 (amended). Whatever the store and whichever filters are supplied,
    an empty one counting as not supplied: when the user reference, if
    supplied, resolves to a user and the text filters hold no NUL
    character, the list handler answers 200 with the renderings of exactly
    the rows that satisfy every supplied filter: case-insensitive
    containment for the form number (and the bogie number), equality for
    the date, equality with the resolved user for the reference.  With no
    filter, the rows are the whole table.  Both form types. *)
Theorem list_returns_matching_records :
  (forall s form_number submitted_by submitted_date user,
      resolves s (supplied submitted_by) user ->
      (forall v, form_number = Some v -> sendable v = true) ->
      exists message rows,
        run (get_wheel_specifications form_number submitted_by submitted_date) s
        = ((200, WheelSpecificationListResponseSchema true message
                   (List.map wheel_response_data rows)), s)
        /\ (forall r, In r rows <->
                      In r (wheel_specifications s)
                      /\ wheel_matches form_number user submitted_date r)
        /\ (form_number = None -> submitted_by = None -> submitted_date = None ->
            rows = wheel_specifications s))
  /\
  (forall s form_number inspection_by inspection_date bogie_no user,
      resolves s (supplied inspection_by) user ->
      (forall v, form_number = Some v -> sendable v = true) ->
      (forall v, bogie_no = Some v -> sendable v = true) ->
      exists message rows,
        run (get_bogie_checksheets form_number inspection_by inspection_date bogie_no) s
        = ((200, BogieChecksheetListResponseSchema true message
                   (List.map bogie_response_data rows)), s)
        /\ (forall r, In r rows <->
                      In r (bogie_checksheets s)
                      /\ bogie_matches form_number user inspection_date bogie_no r)
        /\ (form_number = None -> inspection_by = None -> inspection_date = None ->
            bogie_no = None -> rows = bogie_checksheets s)).
Proof.
  split.
  - intros s form_number submitted_by submitted_date user Hres Hform.
    rewrite run_get_wheel_specifications.
    exists (match wheel_lookups form_number user submitted_date with
            | [] => "All wheel specification forms fetched successfully."
            | _ :: _ => "Filtered wheel specification forms fetched successfully."
            end),
      (WheelSpecification_select s (wheel_lookups form_number user submitted_date)).
    split; [|split].
    + rewrite <- wheel_listing_sent
        by (rewrite wheel_lookups_texts; now apply supplied_sendable).
      destruct (supplied submitted_by) as [pk|], user as [u|]; cbn in Hres;
        try contradiction.
      * now rewrite Hres.
      * reflexivity.
    + intros r. unfold WheelSpecification_select.
      now rewrite filter_In, wheel_lookups_matches.
    + intros -> -> ->. destruct user; [contradiction|]. apply select_all_wheel.
  - intros s form_number inspection_by inspection_date bogie_no user Hres Hform Hbogie.
    rewrite run_get_bogie_checksheets.
    exists (match bogie_lookups form_number user inspection_date bogie_no with
            | [] => "All bogie checksheet forms fetched successfully."
            | _ :: _ => "Filtered bogie checksheet forms fetched successfully."
            end),
      (BogieChecksheet_select s (bogie_lookups form_number user inspection_date bogie_no)).
    split; [|split].
    + rewrite <- bogie_listing_sent
        by (rewrite bogie_lookups_texts, forallb_app;
            now rewrite !supplied_sendable).
      destruct (supplied inspection_by) as [pk|], user as [u|]; cbn in Hres;
        try contradiction.
      * now rewrite Hres.
      * reflexivity.
    + intros r. unfold BogieChecksheet_select.
      now rewrite filter_In, bogie_lookups_matches.
    + intros -> -> -> ->. destruct user; [contradiction|]. apply select_all_bogie.
Qed.

Lemma list_returns_matching_records_witness :
  (exists message rows,
      run (get_wheel_specifications (Some "Wheel") (Some "1") (Some (Date 2025 1 1))) fleet
      = ((200, WheelSpecificationListResponseSchema true message
                 (List.map wheel_response_data rows)), fleet)
      /\ (forall r, In r rows <->
                    In r (wheel_specifications fleet)
                    /\ wheel_matches (Some "Wheel")
                         (Some {| id := 1; columns := inspector |})
                         (Some (Date 2025 1 1)) r)
      /\ (Some "Wheel" = None -> Some "1" = None -> Some (Date 2025 1 1) = None ->
          rows = wheel_specifications fleet))
  /\
  (exists message rows,
      run (get_bogie_checksheets None (Some "") None (Some "bg12")) fleet
      = ((200, BogieChecksheetListResponseSchema true message
                 (List.map bogie_response_data rows)), fleet)
      /\ (forall r, In r rows <->
                    In r (bogie_checksheets fleet)
                    /\ bogie_matches None None None (Some "bg12") r)
      /\ (@None string = None -> Some "" = None -> @None date = None ->
          Some "bg12" = None -> rows = bogie_checksheets fleet)).
Proof.
  split.
  - apply (proj1 list_returns_matching_records fleet (Some "Wheel") (Some "1")
             (Some (Date 2025 1 1)) (Some {| id := 1; columns := inspector |})).
    + vm_compute. reflexivity.
    + intros v [= <-]. reflexivity.
  - apply (proj2 list_returns_matching_records fleet None (Some "") None (Some "bg12") None).
    + exact I.
    + intros v H. discriminate H.
    + intros v [= <-]. reflexivity.
Defined.

Example list_fleet_by_form_number :
  fst (run (get_wheel_specifications (Some "Wheel") None None) fleet)
  = (200, WheelSpecificationListResponseSchema true
            "Filtered wheel specification forms fetched successfully."
            [wheel_response_data
               (wheel_spec_of (wheel_payload "wheel-10" "1") {| id := 1; columns := inspector |});
             wheel_response_data
               (wheel_spec_of (wheel_payload "WHEEL-1" "1") {| id := 1; columns := inspector |})]).
Proof. vm_compute. reflexivity. Qed.

(** C10. An empty string given for a filter parameter is the parameter left
    out: the handler is the same program either way; with nothing else
    supplied it answers with the 'All ...' message and the whole table; and
    an empty user reference, which resolves to no user, does not lead to the
    invalid-reference answer.  Both form types. *)
Theorem empty_filter_is_omitted :
  (forall submitted_by submitted_date,
      get_wheel_specifications (Some "") submitted_by submitted_date
      = get_wheel_specifications None submitted_by submitted_date)
  /\ (forall form_number submitted_date,
         get_wheel_specifications form_number (Some "") submitted_date
         = get_wheel_specifications form_number None submitted_date)
  /\ (forall inspection_by inspection_date bogie_no,
         get_bogie_checksheets (Some "") inspection_by inspection_date bogie_no
         = get_bogie_checksheets None inspection_by inspection_date bogie_no)
  /\ (forall form_number inspection_date bogie_no,
         get_bogie_checksheets form_number (Some "") inspection_date bogie_no
         = get_bogie_checksheets form_number None inspection_date bogie_no)
  /\ (forall form_number inspection_by inspection_date,
         get_bogie_checksheets form_number inspection_by inspection_date (Some "")
         = get_bogie_checksheets form_number inspection_by inspection_date None)
  /\ (forall s,
         User_get s "" = inl (ValueError "Field 'id' expected a number but got ''.")
         /\ run (get_wheel_specifications (Some "") (Some "") None) s
            = ((200, WheelSpecificationListResponseSchema true
                       "All wheel specification forms fetched successfully."
                       (List.map wheel_response_data (wheel_specifications s))), s)
         /\ run (get_bogie_checksheets (Some "") (Some "") None (Some "")) s
            = ((200, BogieChecksheetListResponseSchema true
                       "All bogie checksheet forms fetched successfully."
                       (List.map bogie_response_data (bogie_checksheets s))), s)).
Proof.
  do 5 (split; [reflexivity|]).
  intros s. split; [reflexivity|]. split.
  - rewrite run_get_wheel_specifications. cbn [supplied Py.truthy].
    unfold wheel_listing, wheel_lookups. cbn [supplied Py.truthy app].
    now rewrite select_all_wheel.
  - rewrite run_get_bogie_checksheets. cbn [supplied Py.truthy].
    unfold bogie_listing, bogie_lookups. cbn [supplied Py.truthy app].
    now rewrite select_all_bogie.
Qed.

Lemma empty_filter_is_omitted_witness :
  run (get_wheel_specifications (Some "") (Some "") None) fleet
  = ((200, WheelSpecificationListResponseSchema true
             "All wheel specification forms fetched successfully."
             (List.map wheel_response_data (wheel_specifications fleet))), fleet)
  /\ List.length (wheel_specifications fleet) = 3%nat.
Proof.
  split.
  - destruct empty_filter_is_omitted as (_ & _ & _ & _ & _ & H).
    exact (proj1 (proj2 (H fleet))).
  - vm_compute. reflexivity.
Defined.

(** ** Create, then list by the form number *)

Lemma filter_none {A} (f : A -> bool) l :
  (forall x, In x l -> f x = false) -> List.filter f l = [].
Proof.
  induction l as [|x l IH]; intros H; cbn; [reflexivity|].
  rewrite (H x) by now left. apply IH. intros y Hy. apply H. now right.
Qed.

Lemma wheel_response_data_echo payload user :
  wheel_response_data (wheel_spec_of payload user) = wheel_echo payload user.
Proof. destruct payload as [f u d []]. reflexivity. Qed.

Lemma bogie_response_data_echo payload user :
  bogie_response_data (bogie_checksheet_of payload user) = bogie_echo payload user.
Proof. destruct payload as [f u d [] [] []]. reflexivity. Qed.

(** C5, as the claim states it, fails: with WHEEL-10 already stored, creating
    WHEEL-1 and listing by that form number gives two records, not one. *)
Lemma round_trip_lists_two_records :
  let s := serve [POST_wheel_specifications (wheel_payload "WHEEL-10" "1")] one_user in
  let s1 := snd (run (create_wheel_specification (wheel_payload "WHEEL-1" "1")) s) in
  User_get s "1" = inr {| id := 1; columns := inspector |}
  /\ WheelSpecification_exists s "WHEEL-1" = false
  /\ fst (run (create_wheel_specification (wheel_payload "WHEEL-1" "1")) s)
     = wheel_created (wheel_spec_of (wheel_payload "WHEEL-1" "1")
                        {| id := 1; columns := inspector |})
  /\ fst (run (get_wheel_specifications (Some "WHEEL-1") None None) s1)
     = (200, WheelSpecificationListResponseSchema true
               "Filtered wheel specification forms fetched successfully."
               [wheel_echo (wheel_payload "WHEEL-1" "1") {| id := 1; columns := inspector |};
                wheel_echo (wheel_payload "WHEEL-10" "1") {| id := 1; columns := inspector |}]).
Proof. repeat split; vm_compute; reflexivity. Qed.

(** The user reference comes back as the id of the user it resolved to,
    not as it was written. *)
Example round_trip_rewrites_reference :
  let s1 := snd (run (create_wheel_specification (wheel_payload "WHEEL-1" " 01")) one_user) in
  fst (run (get_wheel_specifications (Some "WHEEL-1") None None) s1)
  = (200, WheelSpecificationListResponseSchema true
            "Filtered wheel specification forms fetched successfully."
            [wheel_echo (wheel_payload "WHEEL-1" "1") {| id := 1; columns := inspector |}]).
Proof. vm_compute. reflexivity. Qed.

(** C5 (amended). For a create whose reference resolves, whose form number
    is new and whose text values hold no NUL character and are within the
    widths of their columns,
    listing by that form number afterwards answers 200 with a list that
    holds the created record: the form number, the date and every value of
    the nested groups as they were sent, the user as the id of the resolved
    user, the status as 'Submitted'.  It is the only record in the list when
    no form number stored before contains the new one, letter case ignored
    (the empty form number is contained in every other).  Both form types. *)
Theorem create_then_list_round_trip :
  (forall s payload user,
      User_get s (WheelSpecificationCreateSchema.submitted_by payload) = inr user ->
      ~ (exists r, In r (wheel_specifications s)
                   /\ WheelSpecification.form_number r
                      = WheelSpecificationCreateSchema.form_number payload) ->
      WheelSpecification_sendable (wheel_spec_of payload user) = true ->
      WheelSpecification_fits (wheel_spec_of payload user) = true ->
      exists message data,
        run (get_wheel_specifications
               (Some (WheelSpecificationCreateSchema.form_number payload)) None None)
            (snd (run (create_wheel_specification payload) s))
        = ((200, WheelSpecificationListResponseSchema true message data),
           snd (run (create_wheel_specification payload) s))
        /\ In (wheel_echo payload user) data
        /\ ((forall r, In r (wheel_specifications s) ->
                       ~ icontains (WheelSpecification.form_number r)
                           (WheelSpecificationCreateSchema.form_number payload)) ->
            data = [wheel_echo payload user]))
  /\
  (forall s payload user,
      User_get s (BogieChecksheetCreateSchema.inspection_by payload) = inr user ->
      ~ (exists r, In r (bogie_checksheets s)
                   /\ BogieChecksheet.form_number r
                      = BogieChecksheetCreateSchema.form_number payload) ->
      BogieChecksheet_sendable (bogie_checksheet_of payload user) = true ->
      BogieChecksheet_fits (bogie_checksheet_of payload user) = true ->
      exists message data,
        run (get_bogie_checksheets
               (Some (BogieChecksheetCreateSchema.form_number payload)) None None None)
            (snd (run (create_bogie_checksheet payload) s))
        = ((200, BogieChecksheetListResponseSchema true message data),
           snd (run (create_bogie_checksheet payload) s))
        /\ In (bogie_echo payload user) data
        /\ ((forall r, In r (bogie_checksheets s) ->
                       ~ icontains (BogieChecksheet.form_number r)
                           (BogieChecksheetCreateSchema.form_number payload)) ->
            data = [bogie_echo payload user])).
Proof.
  split; intros s payload user Huser Hnew Hsend Hfit.
  - rewrite run_create_wheel_specification, Huser, (WheelSpecification_fresh _ _ Hnew).
    rewrite WheelSpecification_insert_fresh
      by (trivial; now apply WheelSpecification_fresh).
    cbn [snd]. rewrite run_get_wheel_specifications. cbn [supplied].
    set (qs := wheel_lookups _ None None).
    assert (Hrow : forallb (WheelLookup.holds (wheel_spec_of payload user)) qs = true).
    { apply wheel_lookups_matches. repeat split; try discriminate.
      intros v [= <-]. apply icontains_self. }
    rewrite wheel_listing_sent
      by (unfold qs; rewrite wheel_lookups_texts; apply supplied_sendable;
          intros v [= <-]; exact (WheelSpecification_sendable_form_number _ Hsend)).
    eexists _, _. split; [reflexivity|].
    unfold WheelSpecification_select. cbn [wheel_specifications add_wheel_specification
                                             List.filter].
    rewrite Hrow. cbn [List.map]. rewrite wheel_response_data_echo.
    split; [now left|].
    intros Hothers. rewrite filter_none; [reflexivity|].
    intros r Hin. destruct (forallb (WheelLookup.holds r) qs) eqn:E; [|reflexivity].
    exfalso. apply wheel_lookups_matches in E. destruct E as [E _].
    now apply (Hothers r Hin), E.
  - rewrite run_create_bogie_checksheet, Huser, (BogieChecksheet_fresh _ _ Hnew).
    rewrite BogieChecksheet_insert_fresh
      by (trivial; now apply BogieChecksheet_fresh).
    cbn [snd]. rewrite run_get_bogie_checksheets. cbn [supplied].
    set (qs := bogie_lookups _ None None None).
    assert (Hrow : forallb (BogieLookup.holds (bogie_checksheet_of payload user)) qs = true).
    { apply bogie_lookups_matches. repeat split; try discriminate.
      intros v [= <-]. apply icontains_self. }
    rewrite bogie_listing_sent
      by (unfold qs; rewrite bogie_lookups_texts, app_nil_r; apply supplied_sendable;
          intros v [= <-]; exact (BogieChecksheet_sendable_form_number _ Hsend)).
    eexists _, _. split; [reflexivity|].
    unfold BogieChecksheet_select. cbn [bogie_checksheets add_bogie_checksheet
                                          List.filter].
    rewrite Hrow. cbn [List.map]. rewrite bogie_response_data_echo.
    split; [now left|].
    intros Hothers. rewrite filter_none; [reflexivity|].
    intros r Hin. destruct (forallb (BogieLookup.holds r) qs) eqn:E; [|reflexivity].
    exfalso. apply bogie_lookups_matches in E. destruct E as [E _].
    now apply (Hothers r Hin), E.
Qed.

Lemma create_then_list_round_trip_witness :
  (exists message data,
      run (get_wheel_specifications (Some "WHEEL-2") None None)
          (snd (run (create_wheel_specification (wheel_payload "WHEEL-2" "1")) stocked))
      = ((200, WheelSpecificationListResponseSchema true message data),
         snd (run (create_wheel_specification (wheel_payload "WHEEL-2" "1")) stocked))
      /\ data = [wheel_echo (wheel_payload "WHEEL-2" "1") {| id := 1; columns := inspector |}])
  /\
  (exists message data,
      run (get_bogie_checksheets (Some "BOGIE-2") None None None)
          (snd (run (create_bogie_checksheet (bogie_payload "BOGIE-2" "1" "Fair")) stocked))
      = ((200, BogieChecksheetListResponseSchema true message data),
         snd (run (create_bogie_checksheet (bogie_payload "BOGIE-2" "1" "Fair")) stocked))
      /\ data = [bogie_echo (bogie_payload "BOGIE-2" "1" "Fair")
                   {| id := 1; columns := inspector |}]).
Proof.
  split.
  - destruct (proj1 create_then_list_round_trip stocked (wheel_payload "WHEEL-2" "1")
                {| id := 1; columns := inspector |})
      as (message & data & Hrun & _ & Honly).
    + vm_compute. reflexivity.
    + intros [r [[<-|[]] H]]. vm_compute in H. discriminate H.
    + vm_compute. reflexivity.
    + vm_compute. reflexivity.
    + exists message, data. split; [exact Hrun|]. apply Honly.
      intros r [<-|[]]. apply not_icontains. vm_compute. reflexivity.
  - destruct (proj2 create_then_list_round_trip stocked (bogie_payload "BOGIE-2" "1" "Fair")
                {| id := 1; columns := inspector |})
      as (message & data & Hrun & _ & Honly).
    + vm_compute. reflexivity.
    + intros [r [[<-|[]] H]]. vm_compute in H. discriminate H.
    + vm_compute. reflexivity.
    + vm_compute. reflexivity.
    + exists message, data. split; [exact Hrun|]. apply Honly.
      intros r [<-|[]]. apply not_icontains. vm_compute. reflexivity.
Defined.

(** ** A create that loses the race for its form number *)

(** C7, as the claim states it, fails.  A create is stopped after its two
    reads (user found, form number free); a rival create with the same
    form number then runs to its end and gets 201; the first resumes, the
    unique index rejects its insert, and its answer is the generic error
    carrying the text of the exception, not the duplicate-form-number
    body. *)
Lemma racing_create_gets_generic_error :
  let '(paused, s1) :=
    steps 2 (create_wheel_specification (wheel_payload "WHEEL-1" "1")) one_user in
  let '(rival, s2) :=
    run (create_wheel_specification (wheel_payload "WHEEL-1" "1")) s1 in
  WheelSpecification_exists s1 "WHEEL-1" = false
  /\ fst rival = 201
  /\ WheelSpecification_insert s2
       (wheel_spec_of (wheel_payload "WHEEL-1" "1") {| id := 1; columns := inspector |})
     = inl (unique_violation "wheel_specifications_form_number_key")
  /\ fst (run paused s2)
     = Unhandled "Error creating wheel specification: "
         (unique_violation "wheel_specifications_form_number_key")
  /\ fst (run paused s2) <> DuplicateFormNumber.
Proof.
  vm_compute. repeat split; try reflexivity. discriminate.
Qed.

(** C7 (amended). A create has read its user and found its form number
    free on the store [s]; by the time it inserts, the store is [s'] and
    the insert is rejected by the unique index.  The handler then answers
    400 with the generic error: the message is the handler's prefix followed
    by the text of the exception, and the same text sits under 'general'.
    The store stays [s'].  Both form types. *)
Theorem insert_rejection_is_unhandled :
  (forall s s' payload user msg,
      User_get s (WheelSpecificationCreateSchema.submitted_by payload) = inr user ->
      WheelSpecification_exists s (WheelSpecificationCreateSchema.form_number payload)
      = false ->
      WheelSpecification_insert s' (wheel_spec_of payload user)
      = inl (IntegrityError msg) ->
      run (fst (steps 2 (create_wheel_specification payload) s)) s'
      = ((400, ErrorResponse false ("Error creating wheel specification: " ++ msg)
                 [("general", [msg])]), s'))
  /\
  (forall s s' payload user msg,
      User_get s (BogieChecksheetCreateSchema.inspection_by payload) = inr user ->
      BogieChecksheet_exists s (BogieChecksheetCreateSchema.form_number payload)
      = false ->
      BogieChecksheet_insert s' (bogie_checksheet_of payload user)
      = inl (IntegrityError msg) ->
      run (fst (steps 2 (create_bogie_checksheet payload) s)) s'
      = ((400, ErrorResponse false ("Error creating bogie checksheet: " ++ msg)
                 [("general", [msg])]), s')).
Proof.
  split; intros s s' payload user msg Huser Hfree Hinsert.
  - assert (Hsend : sendable (WheelSpecificationCreateSchema.form_number payload) = true).
    { destruct (sendable _) eqn:E; [reflexivity|].
      rewrite (WheelSpecification_insert_refused s' (wheel_spec_of payload user) E)
        in Hinsert.
      discriminate Hinsert. }
    unfold create_wheel_specification, try_except, py_bind, attempt, call.
    cbn [steps step prog_bind exec_op fst]. rewrite Huser.
    cbn [steps step prog_bind exec_op fst]. rewrite Hfree, adapt_one, Hsend.
    cbn [bind_result steps step prog_bind exec_op fst run]. now rewrite Hinsert.
  - assert (Hsend : sendable (BogieChecksheetCreateSchema.form_number payload) = true).
    { destruct (sendable _) eqn:E; [reflexivity|].
      rewrite (BogieChecksheet_insert_refused s' (bogie_checksheet_of payload user) E)
        in Hinsert.
      discriminate Hinsert. }
    unfold create_bogie_checksheet, try_except, py_bind, attempt, call.
    cbn [steps step prog_bind exec_op fst]. rewrite Huser.
    cbn [steps step prog_bind exec_op fst]. rewrite Hfree, adapt_one, Hsend.
    cbn [bind_result steps step prog_bind exec_op fst run]. now rewrite Hinsert.
Qed.

Lemma insert_rejection_is_unhandled_witness :
  let s' := snd (run (create_wheel_specification (wheel_payload "WHEEL-1" "1")) one_user) in
  let t' := snd (run (create_bogie_checksheet (bogie_payload "BOGIE-1" "1" "Good")) one_user) in
  run (fst (steps 2 (create_wheel_specification (wheel_payload "WHEEL-1" "1")) one_user)) s'
  = ((400, ErrorResponse false
             ("Error creating wheel specification: "
              ++ ("duplicate key value violates unique constraint "
                  ++ dquote ++ "wheel_specifications_form_number_key" ++ dquote))
             [("general", ["duplicate key value violates unique constraint "
                           ++ dquote ++ "wheel_specifications_form_number_key" ++ dquote])]),
     s')
  /\
  run (fst (steps 2 (create_bogie_checksheet (bogie_payload "BOGIE-1" "1" "Good")) one_user)) t'
  = ((400, ErrorResponse false
             ("Error creating bogie checksheet: "
              ++ ("duplicate key value violates unique constraint "
                  ++ dquote ++ "bogie_checksheets_form_number_key" ++ dquote))
             [("general", ["duplicate key value violates unique constraint "
                           ++ dquote ++ "bogie_checksheets_form_number_key" ++ dquote])]),
     t').
Proof.
  split.
  - apply (proj1 insert_rejection_is_unhandled one_user _ (wheel_payload "WHEEL-1" "1")
             {| id := 1; columns := inspector |}); vm_compute; reflexivity.
  - apply (proj2 insert_rejection_is_unhandled one_user _ (bogie_payload "BOGIE-1" "1" "Good")
             {| id := 1; columns := inspector |}); vm_compute; reflexivity.
Defined.

(** ** The status of stored records *)

Lemma varchar_submitted v : varchar 20 "submitted" = inr v -> v = "submitted".
Proof. cbn. now intros [= <-]. Qed.

(** What one request does to the store: nothing, or one new row, whose
    status is 'submitted'. *)
Lemma handler_effect rq s :
  snd (run (handler rq) s) = s
  \/ (exists r, snd (run (handler rq) s) = add_wheel_specification r s
                /\ WheelSpecification.status r = "submitted")
  \/ (exists r, snd (run (handler rq) s) = add_bogie_checksheet r s
                /\ BogieChecksheet.status r = "submitted").
Proof.
  destruct rq as [payload|f u d|payload|f u d b]; cbn [handler].
  - rewrite run_create_wheel_specification.
    destruct (User_get s _) as [e|user]; [now left|].
    destruct (WheelSpecification_exists s _); [now left|].
    destruct (WheelSpecification_insert s _) as [e|s'] eqn:Hins; [now left|].
    right; left. apply WheelSpecification_insert_inv in Hins.
    destruct Hins as [stored [Hcols ->]]. exists stored. split; [reflexivity|].
    apply WheelSpecification_columns_status in Hcols.
    now apply varchar_submitted in Hcols.
  - rewrite run_get_wheel_specifications. left.
    destruct (supplied u) as [pk|]; [destruct (User_get s pk)|]; reflexivity.
  - rewrite run_create_bogie_checksheet.
    destruct (User_get s _) as [e|user]; [now left|].
    destruct (BogieChecksheet_exists s _); [now left|].
    destruct (BogieChecksheet_insert s _) as [e|s'] eqn:Hins; [now left|].
    right; right. apply BogieChecksheet_insert_inv in Hins.
    destruct Hins as [stored [Hcols ->]]. exists stored. split; [reflexivity|].
    apply BogieChecksheet_columns_status in Hcols.
    now apply varchar_submitted in Hcols.
  - rewrite run_get_bogie_checksheets. left.
    destruct (supplied u) as [pk|]; [destruct (User_get s pk)|]; reflexivity.
Qed.

Lemma reachable_serve rqs s0 s : reachable s0 s -> reachable s0 (serve rqs s).
Proof.
  revert s. induction rqs as [|rq rqs IH]; intros s H; [exact H|].
  apply IH. now apply reachable_request.
Qed.

(** C9. Starting from empty tables, in every store the four requests can
    lead to, every wheel specification and every bogie checksheet has the
    status 'submitted', so none is reviewed, approved or rejected; and a
    further request leaves the users and every stored row as they are,
    adding rows in front at most. *)
Theorem status_stays_submitted s0 s :
  wheel_specifications s0 = [] ->
  bogie_checksheets s0 = [] ->
  reachable s0 s ->
  (forall r, In r (wheel_specifications s) -> WheelSpecification.status r = "submitted")
  /\ (forall r, In r (bogie_checksheets s) -> BogieChecksheet.status r = "submitted")
  /\ (forall rq,
         users (snd (run (handler rq) s)) = users s
         /\ (exists added,
                wheel_specifications (snd (run (handler rq) s))
                = (added ++ wheel_specifications s)%list)
         /\ (exists added,
                bogie_checksheets (snd (run (handler rq) s))
                = (added ++ bogie_checksheets s)%list)).
Proof.
  intros Hw Hb Hreach. split; [|split].
  - induction Hreach as [|s rq Hreach IH]; [rewrite Hw; intros r []|].
    destruct (handler_effect rq s) as [-> | [[r' [-> Hst]] | [r' [-> Hst]]]];
      cbn; trivial.
    intros r [<-|Hin]; auto.
  - induction Hreach as [|s rq Hreach IH]; [rewrite Hb; intros r []|].
    destruct (handler_effect rq s) as [-> | [[r' [-> Hst]] | [r' [-> Hst]]]];
      cbn; trivial.
    intros r [<-|Hin]; auto.
  - intros rq.
    destruct (handler_effect rq s) as [-> | [[r' [-> Hst]] | [r' [-> Hst]]]]; cbn.
    + split; [reflexivity|]. split; now exists [].
    + split; [reflexivity|]. split; [now exists [r'] | now exists []].
    + split; [reflexivity|]. split; [now exists [] | now exists [r']].
Qed.

Lemma status_stays_submitted_witness :
  (forall r, In r (wheel_specifications fleet) -> WheelSpecification.status r = "submitted")
  /\ (forall r, In r (bogie_checksheets fleet) -> BogieChecksheet.status r = "submitted")
  /\ List.length (wheel_specifications fleet) = 3%nat
  /\ List.length (bogie_checksheets fleet) = 2%nat.
Proof.
  destruct (status_stays_submitted one_user fleet) as (Hw & Hb & _).
  - reflexivity.
  - reflexivity.
  - apply reachable_serve, reachable_start.
  - split; [exact Hw|]. split; [exact Hb|]. split; vm_compute; reflexivity.
Defined.

(** * More of the forms API: proofs *)

(** ** Form numbers stay unique *)

Lemma WheelSpecification_insert_new s r s' :
  WheelSpecification_insert s r = inr s' ->
  exists stored,
    s' = add_wheel_specification stored s
    /\ WheelSpecification_exists s (WheelSpecification.form_number stored) = false
    /\ varchar 50 (WheelSpecification.form_number r)
       = inr (WheelSpecification.form_number stored).
Proof.
  unfold WheelSpecification_insert.
  destruct (adapt _) as [e|u]; cbn [bind_result]; [discriminate|].
  destruct (WheelSpecification_columns r) as [e|stored] eqn:Hcols; cbn [bind_result];
    [discriminate|].
  destruct (WheelSpecification_exists s _) eqn:Hnew; [discriminate|].
  intros [= <-]. exists stored. repeat split; trivial.
  revert Hcols. unfold WheelSpecification_columns.
  destruct (varchar 50 _) as [e|v]; cbn [bind_result]; [discriminate|].
  case_varchars. now intros [= <-].
Qed.

Lemma BogieChecksheet_insert_new s r s' :
  BogieChecksheet_insert s r = inr s' ->
  exists stored,
    s' = add_bogie_checksheet stored s
    /\ BogieChecksheet_exists s (BogieChecksheet.form_number stored) = false
    /\ varchar 50 (BogieChecksheet.form_number r)
       = inr (BogieChecksheet.form_number stored).
Proof.
  unfold BogieChecksheet_insert.
  destruct (adapt _) as [e|u]; cbn [bind_result]; [discriminate|].
  destruct (BogieChecksheet_columns r) as [e|stored] eqn:Hcols; cbn [bind_result];
    [discriminate|].
  destruct (BogieChecksheet_exists s _) eqn:Hnew; [discriminate|].
  intros [= <-]. exists stored. repeat split; trivial.
  revert Hcols. unfold BogieChecksheet_columns.
  destruct (varchar 50 _) as [e|v]; cbn [bind_result]; [discriminate|].
  case_varchars. now intros [= <-].
Qed.

Lemma WheelSpecification_exists_false s v :
  WheelSpecification_exists s v = false ->
  ~ In v (List.map WheelSpecification.form_number (wheel_specifications s)).
Proof.
  intros Hnew Hin. apply in_map_iff in Hin. destruct Hin as [r [Heq Hin]].
  assert (H : WheelSpecification_exists s v = true)
    by (apply WheelSpecification_exists_In; eauto).
  congruence.
Qed.

Lemma BogieChecksheet_exists_false s v :
  BogieChecksheet_exists s v = false ->
  ~ In v (List.map BogieChecksheet.form_number (bogie_checksheets s)).
Proof.
  intros Hnew Hin. apply in_map_iff in Hin. destruct Hin as [r [Heq Hin]].
  assert (H : BogieChecksheet_exists s v = true)
    by (apply BogieChecksheet_exists_In; eauto).
  congruence.
Qed.

(** Every single database call keeps the form numbers distinct. *)
Lemma exec_op_unique {X} (op : DbOp X) s :
  unique_form_numbers s -> unique_form_numbers (snd (exec_op op s)).
Proof.
  intros [Hw Hb]. destruct op; cbn [exec_op snd]; try (split; assumption).
  - destruct (WheelSpecification_insert s r) as [e|s'] eqn:Hins; [split; assumption|].
    apply WheelSpecification_insert_new in Hins.
    destruct Hins as (stored & -> & Hnew & _). split; [|exact Hb].
    cbn. constructor; [now apply WheelSpecification_exists_false | exact Hw].
  - destruct (BogieChecksheet_insert s r) as [e|s'] eqn:Hins; [split; assumption|].
    apply BogieChecksheet_insert_new in Hins.
    destruct Hins as (stored & -> & Hnew & _). split; [exact Hw|].
    cbn. constructor; [now apply BogieChecksheet_exists_false | exact Hb].
Qed.

(** *** Refused texts and the look-up of a form number

    No operation stores a form number the driver refuses, so on the stores
    the operations build the [exists] call answers as if the driver were
    asked before the look-up. *)

Lemma has_nul_substring n v :
  has_nul (String.substring 0 n v) = true -> has_nul v = true.
Proof.
  revert v. induction n as [|n IH]; intros [|c r]; cbn; try discriminate.
  destruct (Ascii.eqb c "000"); [reflexivity|]. cbn. apply IH.
Qed.

Lemma varchar_sendable n v v' :
  varchar n v = inr v' -> sendable v = true -> sendable v' = true.
Proof.
  unfold varchar, sendable.
  destruct (String.length v <=? n)%nat; [now intros [= <-]|].
  destruct (all_spaces _); [|discriminate].
  intros [= <-] H. destruct (has_nul (String.substring 0 n v)) eqn:E; [|reflexivity].
  apply has_nul_substring in E. now rewrite E in H.
Qed.

Lemma exec_op_sendable {X} (op : DbOp X) s :
  form_numbers_sendable s -> form_numbers_sendable (snd (exec_op op s)).
Proof.
  intros [Hw Hb]. destruct op; cbn [exec_op snd]; try (split; assumption).
  - destruct (WheelSpecification_insert s r) as [e|s'] eqn:Hins; [split; assumption|].
    pose proof (WheelSpecification_insert_sendable _ _ _ Hins) as Hsend.
    apply WheelSpecification_sendable_form_number in Hsend.
    apply WheelSpecification_insert_new in Hins.
    destruct Hins as (stored & -> & _ & Hfn). split; [|exact Hb].
    cbn. constructor; [exact (varchar_sendable _ _ _ Hfn Hsend) | exact Hw].
  - destruct (BogieChecksheet_insert s r) as [e|s'] eqn:Hins; [split; assumption|].
    pose proof (BogieChecksheet_insert_sendable _ _ _ Hins) as Hsend.
    apply BogieChecksheet_sendable_form_number in Hsend.
    apply BogieChecksheet_insert_new in Hins.
    destruct Hins as (stored & -> & _ & Hfn). split; [exact Hw|].
    cbn. constructor; [exact (varchar_sendable _ _ _ Hfn Hsend) | exact Hb].
Qed.

Lemma run_sendable {A} (p : Prog A) s :
  form_numbers_sendable s -> form_numbers_sendable (snd (run p s)).
Proof.
  revert s. induction p as [a|X op k IH]; intros s H; cbn [run]; [exact H|].
  pose proof (exec_op_sendable op s H) as H'.
  destruct (exec_op op s) as [x s']. now apply IH.
Qed.

Lemma reachable_sendable s0 s :
  form_numbers_sendable s0 -> reachable s0 s -> form_numbers_sendable s.
Proof.
  intros H0 Hreach. induction Hreach as [|s rq _ IH]; [exact H0|].
  now apply run_sendable.
Qed.

Lemma exists_refused s v :
  form_numbers_sendable s ->
  exec_op (WheelSpecification_objects_exists v) s
  = (let+ _ := adapt [v] in inr (WheelSpecification_exists s v), s)
  /\ exec_op (BogieChecksheet_objects_exists v) s
     = (let+ _ := adapt [v] in inr (BogieChecksheet_exists s v), s).
Proof.
  intros [Hw Hb]. cbn [exec_op]. rewrite adapt_one. split.
  - destruct (WheelSpecification_exists s v) eqn:E; [|reflexivity].
    apply WheelSpecification_exists_In in E. destruct E as (r & Hin & <-).
    rewrite List.Forall_forall in Hw. now rewrite (Hw r Hin).
  - destruct (BogieChecksheet_exists s v) eqn:E; [|reflexivity].
    apply BogieChecksheet_exists_In in E. destruct E as (r & Hin & <-).
    rewrite List.Forall_forall in Hb. now rewrite (Hb r Hin).
Qed.

Lemma step_unique {A} (p : Prog A) s :
  unique_form_numbers s -> unique_form_numbers (snd (step p s)).
Proof.
  intros H. destruct p as [a|X op k]; cbn [step]; [exact H|].
  pose proof (exec_op_unique op s H) as H'.
  destruct (exec_op op s) as [x s']. exact H'.
Qed.

Lemma run_unique {A} (p : Prog A) s :
  unique_form_numbers s -> unique_form_numbers (snd (run p s)).
Proof.
  revert s. induction p as [a|X op k IH]; intros s H; cbn [run]; [exact H|].
  pose proof (exec_op_unique op s H) as H'.
  destruct (exec_op op s) as [x s']. now apply IH.
Qed.

(** X1. Requests served one after the other keep the form numbers of each
    table pairwise distinct: from a store where they are distinct (empty
    tables, say), every store the four requests lead to has them
    distinct. *)
Theorem form_numbers_stay_unique s0 s :
  unique_form_numbers s0 -> reachable s0 s -> unique_form_numbers s.
Proof.
  intros H0 Hreach. induction Hreach as [|s rq Hreach IH]; [exact H0|].
  now apply run_unique.
Qed.

Lemma form_numbers_stay_unique_witness :
  unique_form_numbers fleet
  /\ List.map WheelSpecification.form_number (wheel_specifications fleet)
     = ["AXLE-7"; "wheel-10"; "WHEEL-1"].
Proof.
  split.
  - apply (form_numbers_stay_unique one_user fleet).
    + split; constructor.
    + apply reachable_serve, reachable_start.
  - vm_compute. reflexivity.
Defined.

(** X2. The same holds when requests run at the same time: whatever the
    programs in the pool and whatever the order in which they make their
    database calls, form numbers that were distinct stay distinct. *)
Theorem form_numbers_unique_under_interleaving
    (schedule : list nat) (pool : list (Prog Response)) s :
  unique_form_numbers s ->
  unique_form_numbers (snd (run_pool schedule pool s)).
Proof.
  revert pool s. induction schedule as [|i rest IH]; intros pool s H; [exact H|].
  cbn [run_pool]. destruct (pool !! i) as [p|]; [|now apply IH].
  pose proof (step_unique p s H) as H'.
  destruct (step p s) as [p' s']. now apply IH.
Qed.

Lemma form_numbers_unique_under_interleaving_witness :
  unique_form_numbers (snd (run_pool [0; 1; 0; 1; 2; 1; 0]%nat racing_pool one_user))
  /\ List.map WheelSpecification.form_number
       (wheel_specifications (snd (run_pool [0; 1; 0; 1; 2; 1; 0]%nat racing_pool one_user)))
     = ["WHEEL-1"].
Proof.
  split.
  - apply (form_numbers_unique_under_interleaving [0; 1; 0; 1; 2; 1; 0]%nat
             racing_pool one_user).
    split; constructor.
  - vm_compute. reflexivity.
Defined.

(** ** What a create does to the store *)

(** X3. A create answers 201 and puts exactly one new row in front of its
    table, or answers 400 and leaves the store as it was; there is no other
    outcome.  Both form types. *)
Theorem create_adds_one_row_or_nothing :
  (forall s payload,
      (fst (fst (run (create_wheel_specification payload) s)) = 201
       /\ exists row,
            snd (run (create_wheel_specification payload) s) = add_wheel_specification row s)
      \/ (fst (fst (run (create_wheel_specification payload) s)) = 400
          /\ snd (run (create_wheel_specification payload) s) = s))
  /\
  (forall s payload,
      (fst (fst (run (create_bogie_checksheet payload) s)) = 201
       /\ exists row,
            snd (run (create_bogie_checksheet payload) s) = add_bogie_checksheet row s)
      \/ (fst (fst (run (create_bogie_checksheet payload) s)) = 400
          /\ snd (run (create_bogie_checksheet payload) s) = s)).
Proof.
  split; intros s payload.
  - rewrite run_create_wheel_specification.
    destruct (User_get s _) as [e|user]; [now right|].
    destruct (WheelSpecification_exists s _); [now right|].
    destruct (WheelSpecification_insert s _) as [e|s'] eqn:Hins; [now right|].
    left. split; [reflexivity|].
    apply WheelSpecification_insert_inv in Hins. destruct Hins as [stored [_ ->]].
    now exists stored.
  - rewrite run_create_bogie_checksheet.
    destruct (User_get s _) as [e|user]; [now right|].
    destruct (BogieChecksheet_exists s _); [now right|].
    destruct (BogieChecksheet_insert s _) as [e|s'] eqn:Hins; [now right|].
    left. split; [reflexivity|].
    apply BogieChecksheet_insert_inv in Hins. destruct Hins as [stored [_ ->]].
    now exists stored.
Qed.

Lemma get_leaves_store rq s : is_create rq = false -> snd (run (handler rq) s) = s.
Proof.
  destruct rq as [payload|f u d|payload|f u d b]; cbn [is_create handler];
    try discriminate; intros _.
  - rewrite run_get_wheel_specifications.
    destruct (supplied u) as [pk|]; [destruct (User_get s pk)|]; reflexivity.
  - rewrite run_get_bogie_checksheets.
    destruct (supplied u) as [pk|]; [destruct (User_get s pk)|]; reflexivity.
Qed.

(** X4. The list requests are reads: the store a sequence of requests
    leads to is the store its creates alone lead to. *)
Theorem lists_can_be_dropped rqs s :
  serve rqs s = serve (List.filter is_create rqs) s.
Proof.
  revert s. induction rqs as [|rq rqs IH]; intros s; [reflexivity|].
  cbn [List.filter]. destruct (is_create rq) eqn:Hrq.
  - cbn [serve fold_left]. apply IH.
  - cbn [serve fold_left]. rewrite get_leaves_store by assumption. apply IH.
Qed.

Lemma users_after_request rq s : users (snd (run (handler rq) s)) = users s.
Proof.
  destruct (handler_effect rq s) as [-> | [[r [-> _]] | [r [-> _]]]]; reflexivity.
Qed.

Lemma User_get_users s s' pk : users s' = users s -> User_get s' pk = User_get s pk.
Proof. unfold User_get. now intros ->. Qed.

Lemma varchar_short n v v' :
  (String.length v <=? n)%nat = true -> varchar n v = inr v' -> v' = v.
Proof. unfold varchar. intros ->. now intros [= <-]. Qed.

(** X5. Once a create with a form number of at most fifty characters has
    answered 201, any further create with that form number and a reference
    that resolves answers with the duplicate-form-number body and stores
    nothing, whatever else it carries.  Both form types. *)
Theorem repeated_create_is_duplicate :
  (forall s payload again user,
      WheelSpecificationCreateSchema.validate payload = true ->
      fst (fst (run (create_wheel_specification payload) s)) = 201 ->
      WheelSpecificationCreateSchema.form_number again
      = WheelSpecificationCreateSchema.form_number payload ->
      User_get s (WheelSpecificationCreateSchema.submitted_by again) = inr user ->
      run (create_wheel_specification again)
          (snd (run (create_wheel_specification payload) s))
      = (DuplicateFormNumber, snd (run (create_wheel_specification payload) s)))
  /\
  (forall s payload again user,
      BogieChecksheetCreateSchema.validate payload = true ->
      fst (fst (run (create_bogie_checksheet payload) s)) = 201 ->
      BogieChecksheetCreateSchema.form_number again
      = BogieChecksheetCreateSchema.form_number payload ->
      User_get s (BogieChecksheetCreateSchema.inspection_by again) = inr user ->
      run (create_bogie_checksheet again)
          (snd (run (create_bogie_checksheet payload) s))
      = (DuplicateFormNumber, snd (run (create_bogie_checksheet payload) s))).
Proof.
  split; intros s payload again user Hvalid Hok Hsame Huser.
  - revert Hok. rewrite run_create_wheel_specification.
    destruct (User_get s (WheelSpecificationCreateSchema.submitted_by payload))
      as [e|first]; [discriminate|].
    destruct (WheelSpecification_exists s _); [discriminate|].
    destruct (WheelSpecification_insert s _) as [e|s'] eqn:Hins; [discriminate|].
    intros _. cbn [snd].
    apply WheelSpecification_insert_new in Hins.
    destruct Hins as (stored & -> & _ & Hfn).
    apply varchar_short in Hfn; [|exact Hvalid].
    rewrite run_create_wheel_specification.
    rewrite (User_get_users s (add_wheel_specification stored s)) by reflexivity.
    rewrite Huser.
    assert (Htaken : WheelSpecification_exists (add_wheel_specification stored s)
                       (WheelSpecificationCreateSchema.form_number again) = true).
    { apply WheelSpecification_exists_In. exists stored. split; [now left|].
      now rewrite Hfn, Hsame. }
    now rewrite Htaken.
  - revert Hok. rewrite run_create_bogie_checksheet.
    destruct (User_get s (BogieChecksheetCreateSchema.inspection_by payload))
      as [e|first]; [discriminate|].
    destruct (BogieChecksheet_exists s _); [discriminate|].
    destruct (BogieChecksheet_insert s _) as [e|s'] eqn:Hins; [discriminate|].
    intros _. cbn [snd].
    apply BogieChecksheet_insert_new in Hins.
    destruct Hins as (stored & -> & _ & Hfn).
    apply varchar_short in Hfn;
      [|unfold BogieChecksheetCreateSchema.validate in Hvalid;
        now repeat (apply andb_prop in Hvalid; destruct Hvalid as [Hvalid _])].
    rewrite run_create_bogie_checksheet.
    rewrite (User_get_users s (add_bogie_checksheet stored s)) by reflexivity.
    rewrite Huser.
    assert (Htaken : BogieChecksheet_exists (add_bogie_checksheet stored s)
                       (BogieChecksheetCreateSchema.form_number again) = true).
    { apply BogieChecksheet_exists_In. exists stored. split; [now left|].
      now rewrite Hfn, Hsame. }
    now rewrite Htaken.
Qed.

Lemma repeated_create_is_duplicate_witness :
  run (create_wheel_specification wide_axle_payload)
      (snd (run (create_wheel_specification (wheel_payload "WHEEL-2" "1")) one_user))
  = (DuplicateFormNumber,
     snd (run (create_wheel_specification (wheel_payload "WHEEL-2" "1")) one_user))
  /\
  run (create_bogie_checksheet (bogie_payload "BOGIE-1" " 1 " wide))
      (snd (run (create_bogie_checksheet (bogie_payload "BOGIE-1" "1" "Good")) one_user))
  = (DuplicateFormNumber,
     snd (run (create_bogie_checksheet (bogie_payload "BOGIE-1" "1" "Good")) one_user)).
Proof.
  split.
  - apply (proj1 repeated_create_is_duplicate one_user (wheel_payload "WHEEL-2" "1")
             wide_axle_payload {| id := 1; columns := inspector |});
      vm_compute; reflexivity.
  - apply (proj2 repeated_create_is_duplicate one_user (bogie_payload "BOGIE-1" "1" "Good")
             (bogie_payload "BOGIE-1" " 1 " wide) {| id := 1; columns := inspector |});
      vm_compute; reflexivity.
Defined.

(** ** More about the list handlers *)

Lemma upper_empty v : Py.upper v = "" -> v = "".
Proof. destruct v; [reflexivity | discriminate]. Qed.

Lemma supplied_upper v v' :
  Py.upper v = Py.upper v' ->
  (supplied (Some v) = None /\ supplied (Some v') = None)
  \/ (supplied (Some v) = Some v /\ supplied (Some v') = Some v').
Proof.
  intros H. destruct v as [|c v].
  - symmetry in H. apply upper_empty in H. subst. now left.
  - destruct v' as [|c' v']; [discriminate H|]. now right.
Qed.

(** Upper-casing neither adds nor removes a NUL character. *)
Lemma has_nul_upper v : has_nul (Py.upper v) = has_nul v.
Proof.
  induction v as [|c v IH]; [reflexivity|]. cbn [Py.upper has_nul]. rewrite IH.
  f_equal. destruct c as [[] [] [] [] [] [] [] []]; reflexivity.
Qed.

Lemma sendable_upper v v' : Py.upper v = Py.upper v' -> sendable v = sendable v'.
Proof.
  intros H. unfold sendable. now rewrite <- (has_nul_upper v), H, has_nul_upper.
Qed.

Lemma wheel_listing_ext s qs qs' :
  (qs = [] <-> qs' = []) ->
  forallb sendable (flat_map WheelLookup.texts qs)
  = forallb sendable (flat_map WheelLookup.texts qs') ->
  (forall r, forallb (WheelLookup.holds r) qs = forallb (WheelLookup.holds r) qs') ->
  wheel_listing s qs = wheel_listing s qs'.
Proof.
  intros Hnil Hsend Hsame. unfold wheel_listing, adapt, WheelSpecification_select.
  rewrite Hsend, (filter_ext _ _ Hsame). clear Hsend.
  destruct (forallb sendable (flat_map WheelLookup.texts qs')); [|reflexivity].
  destruct qs, qs'; try reflexivity.
  - destruct Hnil as [Hnil _]. discriminate (Hnil eq_refl).
  - destruct Hnil as [_ Hnil]. discriminate (Hnil eq_refl).
Qed.

Lemma bogie_listing_ext s qs qs' :
  (qs = [] <-> qs' = []) ->
  forallb sendable (flat_map BogieLookup.texts qs)
  = forallb sendable (flat_map BogieLookup.texts qs') ->
  (forall r, forallb (BogieLookup.holds r) qs = forallb (BogieLookup.holds r) qs') ->
  bogie_listing s qs = bogie_listing s qs'.
Proof.
  intros Hnil Hsend Hsame. unfold bogie_listing, adapt, BogieChecksheet_select.
  rewrite Hsend, (filter_ext _ _ Hsame). clear Hsend.
  destruct (forallb sendable (flat_map BogieLookup.texts qs')); [|reflexivity].
  destruct qs, qs'; try reflexivity.
  - destruct Hnil as [Hnil _]. discriminate (Hnil eq_refl).
  - destruct Hnil as [_ Hnil]. discriminate (Hnil eq_refl).
Qed.

Lemma wheel_lookups_case v v' user submitted_date s :
  Py.upper v = Py.upper v' ->
  wheel_listing s (wheel_lookups (Some v) user submitted_date)
  = wheel_listing s (wheel_lookups (Some v') user submitted_date).
Proof.
  intros H. unfold wheel_lookups.
  destruct (supplied_upper _ _ H) as [[-> ->] | [-> ->]]; [reflexivity|].
  apply wheel_listing_ext.
  - split; discriminate.
  - cbn [app flat_map WheelLookup.texts forallb]. now rewrite (sendable_upper _ _ H).
  - intros r. cbn [app forallb WheelLookup.holds]. now rewrite H.
Qed.

Lemma bogie_lookups_case v v' w w' user inspection_date s :
  Py.upper v = Py.upper v' ->
  Py.upper w = Py.upper w' ->
  bogie_listing s (bogie_lookups (Some v) user inspection_date (Some w))
  = bogie_listing s (bogie_lookups (Some v') user inspection_date (Some w')).
Proof.
  intros Hv Hw. unfold bogie_lookups.
  destruct (supplied_upper _ _ Hv) as [[-> ->] | [-> ->]];
    destruct (supplied_upper _ _ Hw) as [[-> ->] | [-> ->]];
    try reflexivity;
    (apply bogie_listing_ext;
     [ destruct user, inspection_date; split; discriminate
     | rewrite !flat_map_app, !forallb_app;
       cbn [app flat_map BogieLookup.texts forallb];
       now rewrite ?(sendable_upper _ _ Hv), ?(sendable_upper _ _ Hw)
     | intros r; rewrite !forallb_app; cbn [forallb BogieLookup.holds];
       now rewrite ?Hv, ?Hw ]).
Qed.

(** X6. The text filters do not see letter case: two form-number filters
    (and, for bogie checksheets, two bogie-number filters) that differ in
    the case of their letters only get the same answer, on every store and
    with any other filters. *)
Theorem text_filters_ignore_case :
  (forall s v v' submitted_by submitted_date,
      Py.upper v = Py.upper v' ->
      run (get_wheel_specifications (Some v) submitted_by submitted_date) s
      = run (get_wheel_specifications (Some v') submitted_by submitted_date) s)
  /\
  (forall s v v' w w' inspection_by inspection_date,
      Py.upper v = Py.upper v' ->
      Py.upper w = Py.upper w' ->
      run (get_bogie_checksheets (Some v) inspection_by inspection_date (Some w)) s
      = run (get_bogie_checksheets (Some v') inspection_by inspection_date (Some w')) s).
Proof.
  split.
  - intros s v v' submitted_by submitted_date H.
    rewrite !run_get_wheel_specifications.
    destruct (supplied submitted_by) as [pk|];
      [destruct (User_get s pk) as [e|user]; [reflexivity|]|];
      now rewrite (wheel_lookups_case v v').
  - intros s v v' w w' inspection_by inspection_date Hv Hw.
    rewrite !run_get_bogie_checksheets.
    destruct (supplied inspection_by) as [pk|];
      [destruct (User_get s pk) as [e|user]; [reflexivity|]|];
      now rewrite (bogie_lookups_case v v' w w').
Qed.

Lemma text_filters_ignore_case_witness :
  run (get_wheel_specifications (Some "wheel-1") None None) fleet
  = run (get_wheel_specifications (Some "WhEEL-1") None None) fleet
  /\ List.length (listed_wheel_specifications
                    (fst (run (get_wheel_specifications (Some "wheel-1") None None) fleet)))
     = 2%nat
  /\ run (get_bogie_checksheets (Some "bogie") None None (Some "bg12")) fleet
     = run (get_bogie_checksheets (Some "BOGIE") None None (Some "BG12")) fleet.
Proof.
  split; [|split].
  - apply (proj1 text_filters_ignore_case fleet "wheel-1" "WhEEL-1" None None).
    reflexivity.
  - vm_compute. reflexivity.
  - apply (proj2 text_filters_ignore_case fleet "bogie" "BOGIE" "bg12" "BG12" None None);
      reflexivity.
Defined.

Lemma select_add_wheel r s qs :
  WheelSpecification_select (add_wheel_specification r s) qs
  = ((if forallb (WheelLookup.holds r) qs then [r] else [])
     ++ WheelSpecification_select s qs)%list.
Proof.
  unfold WheelSpecification_select. cbn [wheel_specifications add_wheel_specification
                                          List.filter].
  now destruct (forallb _ qs).
Qed.

Lemma select_add_bogie r s qs :
  BogieChecksheet_select (add_bogie_checksheet r s) qs
  = ((if forallb (BogieLookup.holds r) qs then [r] else [])
     ++ BogieChecksheet_select s qs)%list.
Proof.
  unfold BogieChecksheet_select. cbn [bogie_checksheets add_bogie_checksheet
                                        List.filter].
  now destruct (forallb _ qs).
Qed.

(** The status code of a listing depends on the query alone. *)
Lemma wheel_listing_status s s' qs : fst (wheel_listing s qs) = fst (wheel_listing s' qs).
Proof. unfold wheel_listing. now destruct (adapt _). Qed.

Lemma bogie_listing_status s s' qs : fst (bogie_listing s qs) = fst (bogie_listing s' qs).
Proof. unfold bogie_listing. now destruct (adapt _). Qed.

Lemma wheel_listing_grows rq s qs :
  exists added,
    listed_wheel_specifications (wheel_listing (snd (run (handler rq) s)) qs)
    = (added ++ listed_wheel_specifications (wheel_listing s qs))%list.
Proof.
  destruct (handler_effect rq s) as [-> | [[r [-> _]] | [r [-> _]]]].
  - now exists [].
  - unfold wheel_listing. destruct (adapt _); [now exists []|].
    cbn [listed_wheel_specifications snd].
    rewrite select_add_wheel, map_app. eauto.
  - now exists [].
Qed.

Lemma bogie_listing_grows rq s qs :
  exists added,
    listed_bogie_checksheets (bogie_listing (snd (run (handler rq) s)) qs)
    = (added ++ listed_bogie_checksheets (bogie_listing s qs))%list.
Proof.
  destruct (handler_effect rq s) as [-> | [[r [-> _]] | [r [-> _]]]].
  - now exists [].
  - now exists [].
  - unfold bogie_listing. destruct (adapt _); [now exists []|].
    cbn [listed_bogie_checksheets snd].
    rewrite select_add_bogie, map_app. eauto.
Qed.

(** X7. What a listing shows, it keeps showing: after any further request,
    the same list request gets the same status code, and its records are
    the records it got before, in the same order, with new ones in front at
    most.  Both form types. *)
Theorem listings_only_grow :
  (forall s rq form_number submitted_by submitted_date,
      fst (fst (run (get_wheel_specifications form_number submitted_by submitted_date)
                  (snd (run (handler rq) s))))
      = fst (fst (run (get_wheel_specifications form_number submitted_by submitted_date) s))
      /\ exists added,
           listed_wheel_specifications
             (fst (run (get_wheel_specifications form_number submitted_by submitted_date)
                     (snd (run (handler rq) s))))
           = (added
              ++ listed_wheel_specifications
                   (fst (run (get_wheel_specifications form_number submitted_by
                                submitted_date) s)))%list)
  /\
  (forall s rq form_number inspection_by inspection_date bogie_no,
      fst (fst (run (get_bogie_checksheets form_number inspection_by inspection_date bogie_no)
                  (snd (run (handler rq) s))))
      = fst (fst (run (get_bogie_checksheets form_number inspection_by inspection_date
                         bogie_no) s))
      /\ exists added,
           listed_bogie_checksheets
             (fst (run (get_bogie_checksheets form_number inspection_by inspection_date
                          bogie_no)
                     (snd (run (handler rq) s))))
           = (added
              ++ listed_bogie_checksheets
                   (fst (run (get_bogie_checksheets form_number inspection_by inspection_date
                                bogie_no) s)))%list).
Proof.
  split.
  - intros s rq form_number submitted_by submitted_date.
    rewrite !run_get_wheel_specifications.
    destruct (supplied submitted_by) as [pk|].
    + rewrite (User_get_users s _ pk (users_after_request rq s)).
      destruct (User_get s pk) as [e|user].
      * split; [reflexivity | now exists []].
      * split; [apply wheel_listing_status | apply wheel_listing_grows].
    + split; [apply wheel_listing_status | apply wheel_listing_grows].
  - intros s rq form_number inspection_by inspection_date bogie_no.
    rewrite !run_get_bogie_checksheets.
    destruct (supplied inspection_by) as [pk|].
    + rewrite (User_get_users s _ pk (users_after_request rq s)).
      destruct (User_get s pk) as [e|user].
      * split; [reflexivity | now exists []].
      * split; [apply bogie_listing_status | apply bogie_listing_grows].
    + split; [apply bogie_listing_status | apply bogie_listing_grows].
Qed.

(** ** The user id a response carries resolves to the user *)

Lemma parse_digits_acc d acc :
  Py.parse_digits (Z.pos acc) true (list_ascii_of_string (NilEmpty.string_of_uint d))
  = Some (Z.pos (Pos.of_uint_acc d acc)).
Proof.
  revert acc. induction d; intros acc; cbn [NilEmpty.string_of_uint list_ascii_of_string];
    try reflexivity;
    cbn [Py.parse_digits Pos.of_uint_acc];
    match goal with
    | |- context [Py.is_digit ?c] => change (Py.is_digit c) with true; cbv iota
    end;
    rewrite <- IHd; f_equal; unfold Py.digit_value; cbn; lia.
Qed.

Lemma parse_digits_zero d b :
  d <> Decimal.Nil \/ b = true ->
  Py.parse_digits 0 b (list_ascii_of_string (NilEmpty.string_of_uint d))
  = Some (Z.of_N (Pos.of_uint d)).
Proof.
  revert b. induction d; intros b Hb;
    cbn [NilEmpty.string_of_uint list_ascii_of_string].
  - destruct Hb as [Hb | ->]; [contradiction | reflexivity].
  - cbn [Py.parse_digits Pos.of_uint].
    change (Py.is_digit "0") with true. cbv iota.
    change (10 * 0 + Py.digit_value "0") with 0. apply IHd. now right.
  - apply (parse_digits_acc d 1).
  - apply (parse_digits_acc d 2).
  - apply (parse_digits_acc d 3).
  - apply (parse_digits_acc d 4).
  - apply (parse_digits_acc d 5).
  - apply (parse_digits_acc d 6).
  - apply (parse_digits_acc d 7).
  - apply (parse_digits_acc d 8).
  - apply (parse_digits_acc d 9).
Qed.

Lemma digits_not_space d :
  Forall (fun c => Py.is_space c = false)
         (list_ascii_of_string (NilEmpty.string_of_uint d)).
Proof.
  induction d; cbn [NilEmpty.string_of_uint list_ascii_of_string];
    constructor; trivial.
Qed.

Lemma lstrip_no_space l :
  Forall (fun c => Py.is_space c = false) l -> Py.lstrip l = l.
Proof. intros H. destruct H as [|c l Hc _]; cbn; [reflexivity | now rewrite Hc]. Qed.

Lemma strip_no_space l :
  Forall (fun c => Py.is_space c = false) l -> Py.strip l = l.
Proof.
  intros H. unfold Py.strip. rewrite (lstrip_no_space l H).
  rewrite lstrip_no_space by now apply Forall_rev.
  apply rev_involutive.
Qed.

Lemma int_of_digits p :
  Py.int (NilEmpty.string_of_uint (Pos.to_uint p)) = Some (Z.pos p).
Proof.
  unfold Py.int. rewrite strip_no_space by apply digits_not_space.
  pose proof (parse_digits_zero (Pos.to_uint p) false
                (or_introl (DecimalPos.Unsigned.to_uint_nonnil p))) as H.
  rewrite DecimalPos.Unsigned.of_to in H. cbn [Z.of_N] in H.
  destruct (Pos.to_uint p) eqn:E;
    cbn [NilEmpty.string_of_uint list_ascii_of_string] in *;
    [discriminate H | exact H ..].
Qed.

(** [int(str(n))] is [n]. *)
Lemma int_str n : Py.int (Py.str n) = Some n.
Proof.
  destruct n as [|p|p]; [reflexivity| |]; unfold Py.str; cbn [Z.to_int NilZero.string_of_int].
  - unfold NilZero.string_of_uint.
    pose proof (DecimalPos.Unsigned.to_uint_nonnil p) as Hnil.
    pose proof (int_of_digits p) as H.
    destruct (Pos.to_uint p); [contradiction | exact H ..].
  - unfold NilZero.string_of_uint.
    pose proof (DecimalPos.Unsigned.to_uint_nonnil p) as Hnil.
    assert (H : Py.int (String "-" (NilEmpty.string_of_uint (Pos.to_uint p)))
                = Some (Z.neg p)).
    { unfold Py.int. cbn [list_ascii_of_string].
      rewrite strip_no_space
        by (constructor; [reflexivity | apply digits_not_space]).
      change (Ascii.eqb "-" "-") with true. cbv iota.
      rewrite (parse_digits_zero (Pos.to_uint p) false (or_introl Hnil)).
      now rewrite DecimalPos.Unsigned.of_to. }
    destruct (Pos.to_uint p); [contradiction | exact H ..].
Qed.

Lemma User_get_inv s pk user :
  User_get s pk = inr user -> users s !! id user = Some (columns user).
Proof.
  unfold User_get. destruct (Py.int pk) as [n|]; [|discriminate].
  destruct (users s !! n) as [row|] eqn:E; [|discriminate].
  now intros [= <-].
Qed.

Lemma User_get_str s pk user :
  User_get s pk = inr user -> User_get s (Py.str (id user)) = inr user.
Proof.
  intros H. apply User_get_inv in H. unfold User_get.
  rewrite int_str, H. now destruct user.
Qed.

(** X8. The user id a create echoes works as a filter: after a create that
    answered 201 (reference resolved, form number new, text values without
    a NUL character and within the widths), listing by the echoed id
    answers 200 with a list that holds the created record.  Both form
    types. *)
Theorem echoed_user_id_lists_the_record :
  (forall s payload user,
      User_get s (WheelSpecificationCreateSchema.submitted_by payload) = inr user ->
      WheelSpecification_exists s (WheelSpecificationCreateSchema.form_number payload)
      = false ->
      WheelSpecification_sendable (wheel_spec_of payload user) = true ->
      WheelSpecification_fits (wheel_spec_of payload user) = true ->
      fst (run (create_wheel_specification payload) s)
      = wheel_created (wheel_spec_of payload user)
      /\ exists message data,
           fst (run (get_wheel_specifications None (Some (Py.str (id user))) None)
                  (snd (run (create_wheel_specification payload) s)))
           = (200, WheelSpecificationListResponseSchema true message data)
           /\ In (wheel_echo payload user) data)
  /\
  (forall s payload user,
      User_get s (BogieChecksheetCreateSchema.inspection_by payload) = inr user ->
      BogieChecksheet_exists s (BogieChecksheetCreateSchema.form_number payload)
      = false ->
      BogieChecksheet_sendable (bogie_checksheet_of payload user) = true ->
      BogieChecksheet_fits (bogie_checksheet_of payload user) = true ->
      fst (run (create_bogie_checksheet payload) s)
      = bogie_created (bogie_checksheet_of payload user)
      /\ exists message data,
           fst (run (get_bogie_checksheets None (Some (Py.str (id user))) None None)
                  (snd (run (create_bogie_checksheet payload) s)))
           = (200, BogieChecksheetListResponseSchema true message data)
           /\ In (bogie_echo payload user) data).
Proof.
  split; intros s payload user Huser Hnew Hsend Hfit.
  - rewrite run_create_wheel_specification, Huser, Hnew.
    rewrite WheelSpecification_insert_fresh by assumption.
    split; [reflexivity|]. cbn [snd].
    rewrite run_get_wheel_specifications.
    pose proof (User_get_str _ _ _ Huser) as Hecho.
    rewrite (User_get_supplied _ _ _ Hecho).
    rewrite (User_get_users s (add_wheel_specification _ s)) by reflexivity.
    rewrite Hecho, wheel_listing_sent by reflexivity.
    eexists _, _. split; [reflexivity|].
    rewrite select_add_wheel. cbn [wheel_lookups supplied app forallb WheelLookup.holds
                                     wheel_spec_of WheelSpecification.submitted_by].
    rewrite Z.eqb_refl. cbn [andb app List.map].
    rewrite wheel_response_data_echo. now left.
  - rewrite run_create_bogie_checksheet, Huser, Hnew.
    rewrite BogieChecksheet_insert_fresh by assumption.
    split; [reflexivity|]. cbn [snd].
    rewrite run_get_bogie_checksheets.
    pose proof (User_get_str _ _ _ Huser) as Hecho.
    rewrite (User_get_supplied _ _ _ Hecho).
    rewrite (User_get_users s (add_bogie_checksheet _ s)) by reflexivity.
    rewrite Hecho, bogie_listing_sent by reflexivity.
    eexists _, _. split; [reflexivity|].
    rewrite select_add_bogie. cbn [bogie_lookups supplied app forallb BogieLookup.holds
                                     bogie_checksheet_of BogieChecksheet.inspection_by].
    rewrite Z.eqb_refl. cbn [andb app List.map].
    rewrite bogie_response_data_echo. now left.
Qed.

Lemma echoed_user_id_lists_the_record_witness :
  exists message data,
    fst (run (get_wheel_specifications None (Some "1") None)
           (snd (run (create_wheel_specification (wheel_payload "WHEEL-9" " +01 ")) fleet)))
    = (200, WheelSpecificationListResponseSchema true message data)
    /\ In (wheel_echo (wheel_payload "WHEEL-9" " +01 ") {| id := 1; columns := inspector |})
          data.
Proof.
  apply (proj1 echoed_user_id_lists_the_record fleet (wheel_payload "WHEEL-9" " +01 ")
           {| id := 1; columns := inspector |});
    vm_compute; reflexivity.
Defined.

(** * Helpers: proofs *)

Lemma length_append a b :
  String.length (a ++ b) = (String.length a + String.length b)%nat.
Proof.
  induction a as [|c a IH]; [reflexivity|].
  rewrite append_cons. cbn [String.length]. now rewrite IH.
Qed.

Lemma len_append a b : PyStr.len (a ++ b) = PyStr.len a + PyStr.len b.
Proof. unfold PyStr.len. rewrite length_append. lia. Qed.

Lemma len_nonneg s : 0 <= PyStr.len s.
Proof. unfold PyStr.len. lia. Qed.

Lemma length_take n s : String.length (PyStr.take n s) = Nat.min n (String.length s).
Proof.
  revert s. induction n as [|n IH]; intros [|c r]; cbn; auto.
Qed.

Lemma length_drop n s : String.length (PyStr.drop n s) = (String.length s - n)%nat.
Proof.
  revert s. induction n as [|n IH]; intros [|c r]; cbn; auto.
Qed.

Lemma take_drop n s : PyStr.take n s ++ PyStr.drop n s = s.
Proof.
  revert s. induction n as [|n IH]; intros [|c r]; cbn [PyStr.take PyStr.drop]; trivial.
  rewrite append_cons. now rewrite IH.
Qed.

Lemma length_replicate n s :
  String.length (PyStr.replicate n s) = (n * String.length s)%nat.
Proof.
  induction n as [|n IH]; [reflexivity|].
  cbn [PyStr.replicate]. rewrite length_append, IH. lia.
Qed.

Lemma drop_append a b : PyStr.drop (String.length a) (a ++ b) = b.
Proof.
  induction a as [|c a IH]; [now destruct b|].
  rewrite append_cons. cbn [String.length PyStr.drop]. exact IH.
Qed.

Lemma take_append a b : PyStr.take (String.length a) (a ++ b) = a.
Proof.
  induction a as [|c a IH]; [now destruct b|].
  rewrite append_cons. cbn [String.length PyStr.take]. now rewrite IH.
Qed.

Lemma take_all s : PyStr.take (String.length s) s = s.
Proof. induction s as [|c s IH]; cbn; [reflexivity | now rewrite IH]. Qed.

(** ** [truncate_string] *)

Lemma len_slice_to s stop :
  PyStr.len (PyStr.slice_to s stop)
  = Z.max 0 (Z.min (PyStr.len s) (if (stop <? 0)%Z then stop + PyStr.len s else stop)).
Proof.
  unfold PyStr.slice_to, PyStr.bound, PyStr.len. rewrite length_take.
  destruct (stop <? 0)%Z; lia.
Qed.

(** X9. When the suffix is no longer than [max_length], the result of
    [truncate_string] is never longer than [max_length]; a text that was too
    long comes back with exactly [max_length] characters, the suffix last;
    and truncating the result again changes nothing. *)
Theorem truncate_string_fits text max_length suffix :
  PyStr.len suffix <= max_length ->
  PyStr.len (truncate_string text max_length suffix) <= max_length
  /\ (max_length < PyStr.len text ->
      PyStr.len (truncate_string text max_length suffix) = max_length
      /\ exists kept rest,
           text = kept ++ rest
           /\ truncate_string text max_length suffix = kept ++ suffix)
  /\ truncate_string (truncate_string text max_length suffix) max_length suffix
     = truncate_string text max_length suffix.
Proof.
  intros Hsuffix.
  assert (Hlen : PyStr.len (truncate_string text max_length suffix) <= max_length).
  { unfold truncate_string. destruct (PyStr.len text <=? max_length)%Z eqn:E.
    - now apply Z.leb_le.
    - apply Z.leb_gt in E. rewrite len_append, len_slice_to.
      pose proof (len_nonneg suffix).
      destruct (max_length - PyStr.len suffix <? 0)%Z eqn:E'; lia. }
  split; [exact Hlen|]. split.
  - intros Hlong. unfold truncate_string.
    destruct (PyStr.len text <=? max_length)%Z eqn:E; [apply Z.leb_le in E; lia|].
    split.
    + rewrite len_append, len_slice_to. pose proof (len_nonneg suffix).
      destruct (max_length - PyStr.len suffix <? 0)%Z eqn:E'; lia.
    + exists (PyStr.slice_to text (max_length - PyStr.len suffix)),
        (PyStr.drop (PyStr.bound (max_length - PyStr.len suffix) text) text).
      split; [|reflexivity]. unfold PyStr.slice_to. now rewrite take_drop.
  - unfold truncate_string at 1.
    apply Z.leb_le in Hlen. now rewrite Hlen.
Qed.

Lemma truncate_string_fits_witness :
  truncate_string "Bolster suspension bracket" 10 "..." = "Bolster..."
  /\ PyStr.len (truncate_string "Bolster suspension bracket" 10 "...") <= 10.
Proof.
  split; [reflexivity|].
  apply (truncate_string_fits "Bolster suspension bracket" 10 "..."). vm_compute.
  discriminate.
Defined.

(** Without that hypothesis the bound fails: the stop of the slice is
    negative and counts from the end. *)
Example truncate_string_short_max :
  truncate_string "abcdefgh" 2 "..." = "abcdefg...".
Proof. reflexivity. Qed.

(** ** [mask_phone_number] *)

Lemma length_stars n : String.length (PyStr.replicate n "*") = n.
Proof. rewrite length_replicate. cbn. lia. Qed.

Lemma bound_last4 s :
  4 < PyStr.len s -> PyStr.bound (-4) s = (String.length s - 4)%nat.
Proof. unfold PyStr.bound, PyStr.len. cbn. lia. Qed.

Lemma mask_phone_number_long phone :
  4 < PyStr.len phone ->
  mask_phone_number phone
  = PyStr.replicate (String.length phone - 4) "*" ++ PyStr.slice_from phone (-4).
Proof.
  intros H. unfold mask_phone_number.
  destruct (PyStr.len phone <=? 4)%Z eqn:E; [apply Z.leb_le in E; lia|].
  unfold PyStr.mul, PyStr.len. f_equal. f_equal. lia.
Qed.

Lemma len_mask_phone_number phone :
  PyStr.len (mask_phone_number phone) = PyStr.len phone.
Proof.
  destruct (Z_le_gt_dec (PyStr.len phone) 4) as [H|H].
  - unfold mask_phone_number. apply Z.leb_le in H. now rewrite H.
  - rewrite mask_phone_number_long by lia.
    unfold PyStr.len in *. rewrite length_append, length_stars.
    unfold PyStr.slice_from. rewrite length_drop, bound_last4 by (unfold PyStr.len; lia).
    lia.
Qed.

Lemma last4_mask_phone_number phone :
  PyStr.slice_from (mask_phone_number phone) (-4) = PyStr.slice_from phone (-4).
Proof.
  destruct (Z_le_gt_dec (PyStr.len phone) 4) as [H|H].
  - unfold mask_phone_number. apply Z.leb_le in H. now rewrite H.
  - unfold PyStr.slice_from at 1.
    rewrite bound_last4 by (rewrite len_mask_phone_number; lia).
    pose proof (len_mask_phone_number phone) as Hlen. unfold PyStr.len in Hlen.
    apply Nat2Z.inj in Hlen. rewrite Hlen.
    rewrite mask_phone_number_long by lia.
    rewrite <- (length_stars (String.length phone - 4)) at 1.
    apply drop_append.
Qed.

(** X10. [mask_phone_number] keeps the length of the number and its last
    four characters, and shows nothing else: two numbers of the same length
    with the same last four characters get the same mask.  Masking twice is
    masking once. *)
Theorem mask_phone_number_shows_last_four :
  (forall phone,
      PyStr.len (mask_phone_number phone) = PyStr.len phone
      /\ PyStr.slice_from (mask_phone_number phone) (-4) = PyStr.slice_from phone (-4)
      /\ mask_phone_number (mask_phone_number phone) = mask_phone_number phone)
  /\ (forall phone other,
         PyStr.len phone = PyStr.len other ->
         PyStr.slice_from phone (-4) = PyStr.slice_from other (-4) ->
         mask_phone_number phone = mask_phone_number other).
Proof.
  assert (Hsame : forall phone other,
             PyStr.len phone = PyStr.len other ->
             PyStr.slice_from phone (-4) = PyStr.slice_from other (-4) ->
             mask_phone_number phone = mask_phone_number other).
  { intros phone other Hlen Hlast.
    destruct (Z_le_gt_dec (PyStr.len phone) 4) as [H|H].
    - assert (Hp : forall s, PyStr.len s <= 4 -> PyStr.slice_from s (-4) = s).
      { intros s Hs. unfold PyStr.slice_from, PyStr.bound.
        replace (Z.to_nat _) with 0%nat by (cbn; lia). now destruct s. }
      rewrite !Hp in Hlast by lia. now subst.
    - rewrite !mask_phone_number_long by lia. rewrite Hlast.
      unfold PyStr.len in Hlen. apply Nat2Z.inj in Hlen. now rewrite Hlen. }
  split; [|exact Hsame].
  intros phone. split; [apply len_mask_phone_number|].
  split; [apply last4_mask_phone_number|].
  apply Hsame; [apply len_mask_phone_number | apply last4_mask_phone_number].
Qed.

Lemma mask_phone_number_shows_last_four_witness :
  mask_phone_number "+919325229203" = "*********9203"
  /\ mask_phone_number "+919325229203" = mask_phone_number "0000000009203".
Proof.
  split; [reflexivity|].
  apply (proj2 mask_phone_number_shows_last_four "+919325229203" "0000000009203");
    reflexivity.
Defined.

(** ** [calculate_age] *)

Ltac case_compare :=
  repeat match goal with
         | |- context [(?a <? ?b)%Z] => destruct (Z.ltb_spec a b)
         | |- context [(?a =? ?b)%Z] => destruct (Z.eqb_spec a b)
         | |- context [(?a <=? ?b)%Z] => destruct (Z.leb_spec a b)
         | H : context [(?a <? ?b)%Z] |- _ => destruct (Z.ltb_spec a b)
         | H : context [(?a =? ?b)%Z] |- _ => destruct (Z.eqb_spec a b)
         | H : context [(?a <=? ?b)%Z] |- _ => destruct (Z.leb_spec a b)
         end;
  cbn in *; try discriminate; try reflexivity; try lia.

(** X11. The age [calculate_age] gives is the number of birthdays passed:
    the birthday of that age is not after today and the next one is; so the
    age is not negative when the birth date is not after today.  A missing
    birth date gives no age. *)
Theorem calculate_age_counts_birthdays today :
  calculate_age today None = None
  /\ forall birth,
       exists age,
         calculate_age today (Some birth) = Some age
         /\ date_leb (birthday birth age) today = true
         /\ date_leb (birthday birth (age + 1)) today = false
         /\ (date_leb birth today = true -> 0 <= age).
Proof.
  split; [reflexivity|]. intros birth.
  destruct today as [ty tm td], birth as [bY bm bd].
  unfold calculate_age, date_leb, birthday. cbn [year month day].
  destruct ((tm <? bm)%Z || (tm =? bm)%Z && (td <? bd)%Z) eqn:E;
    (eexists; split; [reflexivity|]);
    (split; [|split; [|intros H]]); case_compare.
Qed.

Lemma calculate_age_counts_birthdays_witness :
  calculate_age (Date 2025 2 28) (Some (Date 2000 2 29)) = Some 24
  /\ exists age,
       calculate_age (Date 2025 3 1) (Some (Date 2000 2 29)) = Some age
       /\ date_leb (birthday (Date 2000 2 29) age) (Date 2025 3 1) = true
       /\ date_leb (birthday (Date 2000 2 29) (age + 1)) (Date 2025 3 1) = false
       /\ (date_leb (Date 2000 2 29) (Date 2025 3 1) = true -> 0 <= age).
Proof.
  split; [reflexivity|].
  exact (proj2 (calculate_age_counts_birthdays (Date 2025 3 1)) (Date 2000 2 29)).
Defined.

(** ** [mask_email] *)

Lemma split_once_Some sep s before after :
  PyStr.split_once sep s = Some (before, after) ->
  s = before ++ String sep after /\ PyStr.split_once sep before = None.
Proof.
  revert before. induction s as [|c s IH]; intros before; cbn [PyStr.split_once];
    [discriminate|].
  destruct (Ascii.eqb_spec c sep) as [->|Hne].
  - intros [= <- <-]. now split.
  - destruct (PyStr.split_once sep s) as [[b a]|]; [|discriminate].
    intros [= <- <-]. destruct (IH b eq_refl) as [-> Hb]. split.
    + now rewrite append_cons.
    + cbn [PyStr.split_once]. destruct (Ascii.eqb_spec c sep); [contradiction|].
      now rewrite Hb.
Qed.

Lemma split_once_append sep before after :
  PyStr.split_once sep before = None ->
  PyStr.split_once sep (before ++ String sep after) = Some (before, after).
Proof.
  induction before as [|c b IH]; intros H.
  - rewrite append_empty. cbn. now rewrite Ascii.eqb_refl.
  - rewrite append_cons. cbn [PyStr.split_once] in *.
    destruct (Ascii.eqb c sep); [discriminate|].
    destruct (PyStr.split_once sep b) as [[? ?]|]; [discriminate|].
    now rewrite IH.
Qed.

Lemma split_once_append_None sep a b :
  PyStr.split_once sep a = None -> PyStr.split_once sep b = None ->
  PyStr.split_once sep (a ++ b) = None.
Proof.
  induction a as [|c a IH]; intros Ha Hb; [now rewrite append_empty|].
  rewrite append_cons. cbn [PyStr.split_once] in *.
  destruct (Ascii.eqb c sep); [discriminate|].
  destruct (PyStr.split_once sep a) as [[? ?]|]; [discriminate|].
  now rewrite IH.
Qed.

Lemma split_once_stars n : PyStr.split_once "@" (PyStr.replicate n "*") = None.
Proof.
  induction n as [|n IH]; [reflexivity|].
  cbn [PyStr.replicate]. rewrite append_cons, append_empty. cbn [PyStr.split_once].
  change (Ascii.eqb "*" "@") with false. cbv iota. now rewrite IH.
Qed.

Lemma split_once_cons_None sep a s :
  PyStr.split_once sep (String a s) = None ->
  Ascii.eqb a sep = false /\ PyStr.split_once sep s = None.
Proof.
  intros H.
  change (PyStr.split_once sep (String a s))
    with (if Ascii.eqb a sep then Some (EmptyString, s)
          else match PyStr.split_once sep s with
               | Some (before, after) => Some (String a before, after)
               | None => None
               end) in H.
  destruct (Ascii.eqb a sep); [discriminate|].
  destruct (PyStr.split_once sep s) as [[? ?]|]; [discriminate|]. now split.
Qed.

Lemma bound_first s : PyStr.bound 0 s = 0%nat.
Proof.
  unfold PyStr.bound. change (0 <? 0)%Z with false. cbv iota.
  pose proof (len_nonneg s). lia.
Qed.

Lemma bound_last c s :
  PyStr.bound (-1) (String c s) = Nat.pred (String.length (String c s)).
Proof.
  unfold PyStr.bound, PyStr.len. change (-1 <? 0)%Z with true. cbv iota.
  cbn [String.length Nat.pred]. lia.
Qed.

(** The local part as [mask_email] shows it. *)
Lemma masked_local_shape local :
  PyStr.split_once "@" local = None ->
  exists masked,
    (if (PyStr.len local <=? 2)%Z then local
     else PyStr.item local 0 ++ PyStr.mul "*" (PyStr.len local - 2)
          ++ PyStr.item local (-1)) = masked
    /\ PyStr.len masked = PyStr.len local
    /\ PyStr.split_once "@" masked = None
    /\ (if (PyStr.len masked <=? 2)%Z then masked
        else PyStr.item masked 0 ++ PyStr.mul "*" (PyStr.len masked - 2)
             ++ PyStr.item masked (-1)) = masked.
Proof.
  intros Hno. destruct (PyStr.len local <=? 2)%Z eqn:E.
  - exists local. now rewrite E.
  - apply Z.leb_gt in E.
    assert (Hfirst : exists a rest, local = String a rest).
    { destruct local; [unfold PyStr.len in E; cbn in E; lia | eauto]. }
    destruct Hfirst as (a & rest & ->).
    set (n := (String.length rest - 1)%nat).
    assert (Hn : PyStr.len (String a rest) - 2 = Z.of_nat n)
      by (unfold PyStr.len in *; cbn [String.length] in *; lia).
    assert (Hlast : exists b, PyStr.drop (String.length rest) (String a rest) = String b "").
    { clear. revert a. induction rest as [|c r IH]; intros a; [now exists a|].
      cbn [String.length PyStr.drop]. apply IH. }
    destruct Hlast as [b Hb].
    assert (Hitem0 : forall r, PyStr.item (String a r) 0 = String a "").
    { intros r. unfold PyStr.item. now rewrite bound_first. }
    assert (Hitem1 : PyStr.item (String a rest) (-1) = String b "").
    { unfold PyStr.item. rewrite bound_last. cbn [String.length Nat.pred].
      now rewrite Hb. }
    rewrite Hitem0, Hitem1. unfold PyStr.mul. rewrite Hn, Nat2Z.id.
    exists (String a "" ++ PyStr.replicate n "*" ++ String b "").
    assert (Hlen : PyStr.len (String a "" ++ PyStr.replicate n "*" ++ String b "")
                   = PyStr.len (String a rest)).
    { unfold PyStr.len in *. rewrite !length_append, length_stars. cbn [String.length] in *.
      lia. }
    assert (Hb_no : Ascii.eqb b "@" = false).
    { assert (H : PyStr.split_once "@" (String b "") = None).
      { rewrite <- Hb. clear -Hno. revert a Hno.
        induction rest as [|c r IH]; intros a Hno; [exact Hno|].
        cbn [String.length PyStr.drop]. apply IH.
        now apply split_once_cons_None in Hno. }
      now apply split_once_cons_None in H. }
    assert (Ha_no : Ascii.eqb a "@" = false)
      by now apply split_once_cons_None in Hno.
    split; [reflexivity|]. split; [exact Hlen|]. split.
    + rewrite append_cons, append_empty. cbn [PyStr.split_once]. rewrite Ha_no.
      rewrite split_once_append_None; [reflexivity | apply split_once_stars |].
      cbn. now rewrite Hb_no.
    + rewrite Hlen. apply Z.leb_gt in E. rewrite E.
      rewrite append_cons, append_empty. rewrite Hitem0.
      assert (Hl : PyStr.item (String a (PyStr.replicate n "*" ++ String b "")) (-1)
                   = String b "").
      { unfold PyStr.item. rewrite bound_last. cbn [String.length Nat.pred].
        rewrite length_append, length_stars. cbn [String.length].
        replace (n + 1)%nat with (S n) by lia. cbn [PyStr.drop].
        rewrite <- (length_stars n) at 1. now rewrite drop_append. }
      rewrite Hl. unfold PyStr.mul, PyStr.len. cbn [String.length].
      replace (Z.to_nat _) with n by (subst n; lia).
      now rewrite append_cons, append_empty.
Qed.

(** X12. [mask_email] leaves an address without '@' alone.  Otherwise it
    keeps the length of the local part and everything from the first '@'
    on, and the first '@' of the result is where it was.  Masking twice is
    masking once. *)
Theorem mask_email_keeps_domain :
  (forall email, PyStr.split_once "@" email = None -> mask_email email = email)
  /\ (forall email local domain,
         PyStr.split_once "@" email = Some (local, domain) ->
         exists masked,
           mask_email email = masked ++ "@" ++ domain
           /\ PyStr.len masked = PyStr.len local
           /\ PyStr.split_once "@" (mask_email email) = Some (masked, domain))
  /\ (forall email, mask_email (mask_email email) = mask_email email).
Proof.
  assert (Hno : forall email, PyStr.split_once "@" email = None -> mask_email email = email).
  { intros email H. unfold mask_email. now rewrite H. }
  split; [exact Hno|]. split.
  - intros email local domain H. unfold mask_email. rewrite H. cbv zeta.
    destruct (split_once_Some _ _ _ _ H) as [_ Hlocal].
    destruct (masked_local_shape local Hlocal) as (masked & -> & Hlen & Hmask & _).
    exists masked. split; [reflexivity|]. split; [exact Hlen|].
    now apply split_once_append.
  - intros email. destruct (PyStr.split_once "@" email) as [[local domain]|] eqn:H.
    + destruct (split_once_Some _ _ _ _ H) as [_ Hlocal].
      destruct (masked_local_shape local Hlocal) as (masked & Hm & Hlen & Hmask & Hagain).
      assert (Hfirst : mask_email email = masked ++ String "@" domain).
      { unfold mask_email. rewrite H. cbv zeta. now rewrite Hm. }
      rewrite Hfirst. unfold mask_email.
      rewrite (split_once_append "@" masked domain Hmask). cbv zeta.
      now rewrite Hagain.
    + rewrite (Hno email H). exact (Hno email H).
Qed.

Lemma mask_email_keeps_domain_witness :
  mask_email "asha.rao@rail.example" = "a******o@rail.example"
  /\ exists masked,
       mask_email "asha.rao@rail.example" = masked ++ "@" ++ "rail.example"
       /\ PyStr.len masked = PyStr.len "asha.rao"
       /\ PyStr.split_once "@" (mask_email "asha.rao@rail.example")
          = Some (masked, "rail.example").
Proof.
  split; [reflexivity|].
  apply (proj1 (proj2 mask_email_keeps_domain) "asha.rao@rail.example"
           "asha.rao" "rail.example").
  reflexivity.
Defined.

(** ** [format_phone_number] *)

Lemma keep_chars_all p s : all_chars p (PyStr.keep_chars p s) = true.
Proof.
  induction s as [|c s IH]; [reflexivity|]. cbn [PyStr.keep_chars].
  destruct (p c) eqn:E; [|exact IH]. cbn [all_chars]. now rewrite E.
Qed.

Lemma keep_chars_same p s : all_chars p s = true -> PyStr.keep_chars p s = s.
Proof.
  induction s as [|c s IH]; [reflexivity|]. cbn [all_chars PyStr.keep_chars].
  intros H. apply andb_prop in H. destruct H as [-> H]. now rewrite IH.
Qed.

Lemma all_chars_append p a b :
  all_chars p (a ++ b) = all_chars p a && all_chars p b.
Proof.
  induction a as [|c a IH]; [now rewrite append_empty|].
  rewrite append_cons. cbn [all_chars]. now rewrite IH, andb_assoc.
Qed.

Lemma prefix_plus s : String.prefix "+" ("+" ++ s) = true.
Proof. rewrite append_cons, append_empty. cbn. now destruct s. Qed.

Lemma format_phone_number_fixed cleaned :
  all_chars phone_char cleaned = true ->
  String.prefix "+" cleaned = true
  \/ (String.prefix "+" cleaned = false
      /\ (PyStr.len cleaned =? 10)%Z = false
      /\ (PyStr.len cleaned =? 11)%Z && String.prefix "1" cleaned = false) ->
  format_phone_number cleaned = cleaned.
Proof.
  intros Hall Hcase. unfold format_phone_number.
  change (fun c => Py.is_digit c || Ascii.eqb c "+") with phone_char.
  rewrite (keep_chars_same _ _ Hall).
  destruct Hcase as [-> | (-> & -> & ->)]; reflexivity.
Qed.

(** X13. [format_phone_number] gives a string of digits and '+' signs
    only, and formatting its result again changes nothing. *)
Theorem format_phone_number_settles phone :
  all_chars phone_char (format_phone_number phone) = true
  /\ format_phone_number (format_phone_number phone) = format_phone_number phone.
Proof.
  pose proof (keep_chars_all phone_char phone) as Hall.
  assert (Hdef : format_phone_number phone
                 = let cleaned := PyStr.keep_chars phone_char phone in
                   if String.prefix "+" cleaned then cleaned
                   else if (PyStr.len cleaned =? 10)%Z then "+1" ++ cleaned
                   else if (PyStr.len cleaned =? 11)%Z && String.prefix "1" cleaned
                        then "+" ++ cleaned
                        else cleaned) by reflexivity.
  rewrite Hdef. clear Hdef. cbv zeta.
  set (cleaned := PyStr.keep_chars phone_char phone) in *.
  destruct (String.prefix "+" cleaned) eqn:Hplus.
  - split; [exact Hall|]. apply format_phone_number_fixed; auto.
  - destruct (PyStr.len cleaned =? 10)%Z eqn:Hten.
    + assert (H : all_chars phone_char ("+1" ++ cleaned) = true)
        by (rewrite all_chars_append, Hall; reflexivity).
      split; [exact H|]. apply format_phone_number_fixed; [exact H | now left].
    + destruct ((PyStr.len cleaned =? 11)%Z && String.prefix "1" cleaned) eqn:Heleven.
      * assert (H : all_chars phone_char ("+" ++ cleaned) = true)
          by (rewrite all_chars_append, Hall; reflexivity).
        split; [exact H|]. apply format_phone_number_fixed; [exact H|].
        left. apply prefix_plus.
      * split; [exact Hall|]. apply format_phone_number_fixed; [exact Hall|].
        right. auto.
Qed.

Example format_phone_number_examples :
  format_phone_number "(932) 522-9203" = "+19325229203"
  /\ format_phone_number "1 932 522 9203" = "+19325229203"
  /\ format_phone_number "+91 93252 29203" = "+919325229203"
  /\ format_phone_number "93252" = "93252".
Proof. repeat split; reflexivity. Qed.

(** ** [get_client_ip] *)

(** X14. [get_client_ip] never gives an empty string.  When the
    forwarded-for header is there and not empty it alone decides the
    answer, which then holds no comma: the remote address and every other
    header are ignored. *)
Theorem get_client_ip_never_empty :
  (forall META, get_client_ip META <> "")
  /\ (forall META forwarded,
         META !! "HTTP_X_FORWARDED_FOR" = Some forwarded ->
         forwarded <> "" ->
         get_client_ip META = get_client_ip {[ "HTTP_X_FORWARDED_FOR" := forwarded ]}
         /\ PyStr.split_once "," (get_client_ip META) = None).
Proof.
  split.
  - intros META. unfold get_client_ip.
    destruct (META !! "HTTP_X_FORWARDED_FOR") as [[|c r]|].
    + destruct (META !! "REMOTE_ADDR") as [[|c r]|]; discriminate.
    + destruct (PyStr.split_once "," (String c r)) as [[[|c' first] rest]|]; discriminate.
    + destruct (META !! "REMOTE_ADDR") as [[|c r]|]; discriminate.
  - intros META forwarded H Hne. unfold get_client_ip.
    rewrite H, lookup_singleton_eq.
    destruct forwarded as [|c r]; [contradiction|]. split; [reflexivity|].
    destruct (PyStr.split_once "," (String c r)) as [[first rest]|] eqn:E.
    + apply split_once_Some in E. destruct E as [_ E].
      destruct first; [reflexivity | exact E].
    + exact E.
Qed.

Lemma get_client_ip_never_empty_witness :
  get_client_ip {[ "HTTP_X_FORWARDED_FOR" := "203.0.113.7, 10.0.0.1";
                   "REMOTE_ADDR" := "10.0.0.1" ]} = "203.0.113.7"
  /\ get_client_ip {[ "HTTP_X_FORWARDED_FOR" := ",10.0.0.1";
                      "REMOTE_ADDR" := "10.0.0.1" ]} = "unknown"
  /\ PyStr.split_once ","
       (get_client_ip {[ "HTTP_X_FORWARDED_FOR" := "203.0.113.7, 10.0.0.1";
                         "REMOTE_ADDR" := "10.0.0.1" ]}) = None.
Proof.
  split; [vm_compute; reflexivity|]. split; [vm_compute; reflexivity|].
  apply (proj2 get_client_ip_never_empty
           {[ "HTTP_X_FORWARDED_FOR" := "203.0.113.7, 10.0.0.1";
              "REMOTE_ADDR" := "10.0.0.1" ]}
           "203.0.113.7, 10.0.0.1").
  - vm_compute. reflexivity.
  - discriminate.
Defined.

(** * Validators: proofs *)

(** What a bounded repetition of a character class matches: some number
    of characters of the class, within the bounds, and then the rest. *)
Lemma rep_class p lo hi pos s k :
  Re.at_ (Re.Rep lo hi (Re.Class p)) pos s k = true
  <-> exists n,
        (lo <= n <= hi)%nat /\ (n <= List.length s)%nat
        /\ forallb p (firstn n s) = true
        /\ k (pos + n)%nat (skipn n s) = true.
Proof.
  cbn [Re.at_]. revert lo pos s. induction hi as [|hi IH]; intros lo pos s.
  - rewrite andb_true_iff, Nat.eqb_eq. split.
    + intros [-> Hk]. exists 0%nat. rewrite Nat.add_0_r. cbn. repeat split; trivial; lia.
    + intros (n & Hn & _ & _ & Hk). assert (n = 0)%nat as -> by lia.
      rewrite Nat.add_0_r in Hk. cbn in Hk. split; [lia | exact Hk].
  - rewrite orb_true_iff, andb_true_iff, Nat.eqb_eq. split.
    + intros [H | [-> Hk]].
      * destruct s as [|x t]; [discriminate|].
        apply andb_prop in H. destruct H as [Hx H].
        apply IH in H. destruct H as (n & Hn & Hlen & Hall & Hk).
        exists (S n). cbn [firstn skipn forallb List.length]. rewrite Hx, Hall.
        replace (pos + S n)%nat with (S pos + n)%nat by lia.
        repeat split; trivial; lia.
      * exists 0%nat. rewrite Nat.add_0_r. cbn. repeat split; trivial; lia.
    + intros (n & Hn & Hlen & Hall & Hk). destruct n as [|n].
      * right. rewrite Nat.add_0_r in Hk. cbn in Hk. split; [lia | exact Hk].
      * left. destruct s as [|x t]; [cbn in Hlen; lia|].
        cbn [firstn forallb skipn List.length] in *.
        apply andb_prop in Hall. destruct Hall as [Hx Hall]. rewrite Hx. cbn [andb].
        apply IH. exists n.
        replace (S pos + n)%nat with (pos + S n)%nat by lia.
        repeat split; trivial; lia.
Qed.

Lemma at_caret r s k : Re.at_ (Re.Seq Re.Caret r) 0 s k = Re.at_ r 0 s k.
Proof. reflexivity. Qed.

Lemma at_opt_chr c r pos s k :
  Re.at_ (Re.Seq (Re.Opt (Re.Chr c)) r) pos s k = true
  <-> (exists t, s = c :: t /\ Re.at_ r (S pos) t k = true)
      \/ Re.at_ r pos s k = true.
Proof.
  change (Re.at_ (Re.Seq (Re.Opt (Re.Chr c)) r) pos s k)
    with (match s with
          | x :: t => Ascii.eqb x c && Re.at_ r (S pos) t k
          | [] => false
          end || Re.at_ r pos s k).
  rewrite orb_true_iff. apply or_iff_compat_r.
  destruct s as [|x t].
  - split; [discriminate | intros [t [H _]]; discriminate H].
  - rewrite andb_true_iff, Ascii.eqb_eq. split.
    + intros [-> H]. now exists t.
    + intros [t' [[= -> ->] H]]. now split.
Qed.

Lemma at_rep_dollar p lo hi pos s :
  Re.at_ (Re.Seq (Re.Rep lo hi (Re.Class p)) Re.Dollar) pos s (fun _ _ => true) = true
  <-> exists digits newline,
        s = (digits ++ newline)%list
        /\ (lo <= List.length digits <= hi)%nat
        /\ forallb p digits = true
        /\ (newline = [] \/ newline = ["010"%char]).
Proof.
  change (Re.at_ (Re.Seq (Re.Rep lo hi (Re.Class p)) Re.Dollar) pos s (fun _ _ => true))
    with (Re.at_ (Re.Rep lo hi (Re.Class p)) pos s
            (fun pos' t => Re.at_ Re.Dollar pos' t (fun _ _ => true))).
  rewrite rep_class. split.
  - intros (n & Hn & Hlen & Hall & Hk).
    exists (firstn n s), (skipn n s). rewrite firstn_skipn, length_firstn.
    repeat split; trivial; try lia.
    cbn [Re.at_] in Hk. destruct (skipn n s) as [|c [|c' r]]; [now left | | discriminate].
    right. rewrite andb_true_r in Hk. apply Ascii.eqb_eq in Hk. now subst.
  - intros (digits & newline & -> & Hn & Hall & Hnl).
    exists (List.length digits).
    rewrite firstn_app, Nat.sub_diag, firstn_all, skipn_app, Nat.sub_diag, skipn_all.
    cbn [firstn skipn]. rewrite app_nil_r, length_app. cbn [app].
    repeat split; trivial; try lia.
    destruct Hnl as [-> | ->]; reflexivity.
Qed.

(** The strings [PHONE_NUMBER_REGEX] matches. *)
Lemma phone_number_regex_matches phone :
  Re.match_ PHONE_NUMBER_REGEX phone = true
  <-> exists plus one digits newline,
        list_ascii_of_string phone = (plus ++ one ++ digits ++ newline)%list
        /\ (plus = [] \/ plus = ["+"%char])
        /\ (one = [] \/ one = ["1"%char])
        /\ (9 <= List.length digits <= 15)%nat
        /\ forallb Py.is_digit digits = true
        /\ (newline = [] \/ newline = ["010"%char]).
Proof.
  unfold Re.match_, PHONE_NUMBER_REGEX.
  rewrite at_caret, at_opt_chr. setoid_rewrite at_opt_chr.
  setoid_rewrite at_rep_dollar. split.
  - intros [(t & Ht & [(u & Hu & H) | H]) | [(u & Hu & H) | H]];
      destruct H as (digits & newline & Hs & Hn & Hall & Hnl).
    + exists ["+"%char], ["1"%char], digits, newline.
      rewrite Ht, Hu, Hs. cbn [app]. auto 10.
    + exists ["+"%char], [], digits, newline.
      rewrite Ht, Hs. cbn [app]. auto 10.
    + exists [], ["1"%char], digits, newline.
      rewrite Hu, Hs. cbn [app]. auto 10.
    + exists [], [], digits, newline.
      rewrite Hs. cbn [app]. auto 10.
  - intros (plus & one & digits & newline & -> & Hplus & Hone & Hn & Hall & Hnl).
    destruct Hplus as [-> | ->], Hone as [-> | ->]; cbn [app].
    + right. right. eauto 10.
    + right. left. eexists. split; [reflexivity|]. eauto 10.
    + left. eexists. split; [reflexivity|]. right. eauto 10.
    + left. eexists. split; [reflexivity|]. left. eexists. split; [reflexivity|]. eauto 10.
Qed.

Lemma string_of_list_ascii_app a b :
  string_of_list_ascii (a ++ b)%list = string_of_list_ascii a ++ string_of_list_ascii b.
Proof.
  induction a as [|c a IH]; [now rewrite append_empty|].
  cbn [app string_of_list_ascii]. now rewrite append_cons, IH.
Qed.

Lemma list_ascii_of_string_append a b :
  list_ascii_of_string (a ++ b) = (list_ascii_of_string a ++ list_ascii_of_string b)%list.
Proof.
  induction a as [|c a IH]; [now rewrite append_empty|].
  rewrite append_cons. cbn [list_ascii_of_string app]. now rewrite IH.
Qed.

Lemma length_string_of_list_ascii l :
  String.length (string_of_list_ascii l) = List.length l.
Proof. induction l as [|c l IH]; cbn; [reflexivity | now rewrite IH]. Qed.

Lemma length_list_ascii_of_string s :
  List.length (list_ascii_of_string s) = String.length s.
Proof. induction s as [|c s IH]; cbn; [reflexivity | now rewrite IH]. Qed.

Lemma all_chars_string_of_list_ascii p l :
  all_chars p (string_of_list_ascii l) = forallb p l.
Proof. induction l as [|c l IH]; cbn; [reflexivity | now rewrite IH]. Qed.

Lemma forallb_list_ascii_of_string p s :
  forallb p (list_ascii_of_string s) = all_chars p s.
Proof. induction s as [|c s IH]; cbn; [reflexivity | now rewrite IH]. Qed.

Lemma forallb_weaken {A} (p q : A -> bool) l :
  (forall x, p x = true -> q x = true) -> forallb p l = true -> forallb q l = true.
Proof.
  intros Hpq. induction l as [|x l IH]; cbn; [reflexivity|].
  intros H. apply andb_prop in H. destruct H as [Hx H]. now rewrite (Hpq x Hx), IH.
Qed.

Lemma digit_is_phone_char c : Py.is_digit c = true -> phone_char c = true.
Proof. unfold phone_char. now intros ->. Qed.

(** X15. A phone number [validate_phone_number] accepts is, up to one
    newline at its very end, a string of digits and '+' of between
    PHONE_NUMBER_MIN_LENGTH (9) and PHONE_NUMBER_MAX_LENGTH (17) characters,
    and without that newline the phone-number validator of the login and
    registration schemas accepts it as well. *)
Theorem validate_phone_number_accepts phone :
  validate_phone_number phone = inr tt ->
  exists body newline,
    phone = body ++ newline
    /\ (newline = "" \/ newline = String "010" "")
    /\ PHONE_NUMBER_MIN_LENGTH <= PyStr.len body <= PHONE_NUMBER_MAX_LENGTH
    /\ all_chars phone_char body = true
    /\ serializer_validate_phone_number body = inr body.
Proof.
  unfold validate_phone_number.
  destruct (Re.match_ PHONE_NUMBER_REGEX phone) eqn:Hmatch; [intros _ | discriminate].
  apply phone_number_regex_matches in Hmatch.
  destruct Hmatch as (plus & one & digits & newline & Hs & Hplus & Hone & Hn & Hall & Hnl).
  exists (string_of_list_ascii (plus ++ one ++ digits)%list), (string_of_list_ascii newline).
  assert (Hlen : 9 <= PyStr.len (string_of_list_ascii (plus ++ one ++ digits)%list) <= 17).
  { unfold PyStr.len. rewrite length_string_of_list_ascii, !length_app.
    destruct Hplus as [-> | ->], Hone as [-> | ->]; cbn [List.length]; lia. }
  split; [|split; [|split; [exact Hlen|split]]].
  - rewrite <- string_of_list_ascii_app, <- !app_assoc, <- Hs.
    now rewrite string_of_list_ascii_of_string.
  - destruct Hnl as [-> | ->]; auto.
  - rewrite all_chars_string_of_list_ascii, !forallb_app.
    rewrite (forallb_weaken _ _ _ digit_is_phone_char Hall).
    destruct Hplus as [-> | ->], Hone as [-> | ->]; reflexivity.
  - unfold serializer_validate_phone_number.
    destruct (string_of_list_ascii (plus ++ one ++ digits)%list) as [|c r] eqn:E;
      [unfold PyStr.len in Hlen; cbn in Hlen; lia|].
    cbn [Py.truthy negb].
    destruct (Z.ltb_spec (PyStr.len (String c r)) 9); [lia|].
    destruct (Z.ltb_spec 17 (PyStr.len (String c r))); [lia|]. reflexivity.
Qed.

Lemma validate_phone_number_accepts_witness :
  exists body newline,
    "+919325229203" = body ++ newline
    /\ (newline = "" \/ newline = String "010" "")
    /\ PHONE_NUMBER_MIN_LENGTH <= PyStr.len body <= PHONE_NUMBER_MAX_LENGTH
    /\ all_chars phone_char body = true
    /\ serializer_validate_phone_number body = inr body.
Proof.
  apply (validate_phone_number_accepts "+919325229203"). vm_compute. reflexivity.
Defined.

(** The pattern's [$] lets one newline through, and its [1?] a sixteenth
    digit. *)
Example validate_phone_number_edges :
  validate_phone_number (String "9" (String "3" (String "2" (String "5" (String "2"
     (String "2" (String "9" (String "2" (String "0" (String "010" "")))))))))) = inr tt
  /\ validate_phone_number "1234567890123456" = inr tt
  /\ validate_phone_number "2234567890123456" <> inr tt
  /\ validate_phone_number "93252-29203" <> inr tt.
Proof. vm_compute. repeat split; discriminate. Qed.

Lemma prefix_plus_digits s :
  all_chars Py.is_digit s = true -> String.prefix "+" s = false.
Proof.
  destruct s as [|c r]; [reflexivity|]. cbn [all_chars String.prefix].
  intros H. apply andb_prop in H. destruct H as [Hc _].
  destruct (ascii_dec "+" c) as [<-|]; [discriminate Hc | reflexivity].
Qed.

(** X16. A number that, once everything but digits and '+' is removed, is
    ten digits, or eleven digits of which the first is 1, is formatted by
    [format_phone_number] into a number that [validate_phone_number]
    accepts. *)
Theorem formatted_phone_number_is_valid phone :
  all_chars Py.is_digit (PyStr.keep_chars phone_char phone) = true ->
  PyStr.len (PyStr.keep_chars phone_char phone) = 10
  \/ (PyStr.len (PyStr.keep_chars phone_char phone) = 11
      /\ String.prefix "1" (PyStr.keep_chars phone_char phone) = true) ->
  validate_phone_number (format_phone_number phone) = inr tt.
Proof.
  intros Hdigits Hlen.
  assert (Hdef : format_phone_number phone
                 = let cleaned := PyStr.keep_chars phone_char phone in
                   if String.prefix "+" cleaned then cleaned
                   else if (PyStr.len cleaned =? 10)%Z then "+1" ++ cleaned
                   else if (PyStr.len cleaned =? 11)%Z && String.prefix "1" cleaned
                        then "+" ++ cleaned
                        else cleaned) by reflexivity.
  rewrite Hdef. clear Hdef. cbv zeta.
  set (cleaned := PyStr.keep_chars phone_char phone) in *.
  rewrite (prefix_plus_digits _ Hdigits).
  unfold validate_phone_number.
  assert (Hmatch : forall s, Re.match_ PHONE_NUMBER_REGEX s = true ->
                             (if negb (Re.match_ PHONE_NUMBER_REGEX s)
                              then inl "Phone number must be in format: +1234567890 (9-15 digits with optional + prefix)"
                              else inr tt) = (inr tt : string + unit))
    by (intros s ->; reflexivity).
  destruct Hlen as [Hten | [Heleven Hone]].
  - rewrite Hten. cbn [Z.eqb Pos.eqb]. apply Hmatch.
    apply phone_number_regex_matches.
    exists ["+"%char], ["1"%char], (list_ascii_of_string cleaned), [].
    rewrite list_ascii_of_string_append, app_nil_r, forallb_list_ascii_of_string,
      length_list_ascii_of_string.
    unfold PyStr.len in Hten. repeat split; auto; lia.
  - rewrite Heleven, Hone. cbn [Z.eqb Pos.eqb andb]. apply Hmatch.
    apply phone_number_regex_matches.
    destruct cleaned as [|c rest] eqn:E; [discriminate Hone|].
    cbn [String.prefix] in Hone.
    destruct (ascii_dec "1" c) as [<-|]; [|discriminate Hone].
    cbn [all_chars] in Hdigits. apply andb_prop in Hdigits. destruct Hdigits as [_ Hrest].
    exists ["+"%char], ["1"%char], (list_ascii_of_string rest), [].
    rewrite list_ascii_of_string_append, app_nil_r, forallb_list_ascii_of_string,
      length_list_ascii_of_string.
    unfold PyStr.len in Heleven. cbn [String.length] in Heleven.
    repeat split; auto; lia.
Qed.

Lemma formatted_phone_number_is_valid_witness :
  format_phone_number "(932) 522-9203" = "+19325229203"
  /\ validate_phone_number (format_phone_number "(932) 522-9203") = inr tt
  /\ validate_phone_number (format_phone_number "1 932 522 9203") = inr tt.
Proof.
  split; [reflexivity|]. split.
  - apply (formatted_phone_number_is_valid "(932) 522-9203").
    + vm_compute. reflexivity.
    + left. vm_compute. reflexivity.
  - apply (formatted_phone_number_is_valid "1 932 522 9203").
    + vm_compute. reflexivity.
    + right. split; vm_compute; reflexivity.
Defined.

(** ** [slugify] and the name validators *)

Lemma all_chars_lower q s :
  all_chars q (lower s) = all_chars (fun c => q (Py.to_lower c)) s.
Proof. induction s as [|c s IH]; cbn; [reflexivity | now rewrite IH]. Qed.

Lemma all_chars_true q s : (forall c, q c = true) -> all_chars q s = true.
Proof. intros H. induction s as [|c s IH]; cbn; [reflexivity | now rewrite H, IH]. Qed.

Lemma all_chars_weaken (p q : ascii -> bool) s :
  (forall c, p c = true -> q c = true) -> all_chars p s = true -> all_chars q s = true.
Proof.
  intros Hpq. induction s as [|c s IH]; cbn; [reflexivity|].
  intros H. apply andb_prop in H. destruct H as [Hc H]. now rewrite (Hpq c Hc), IH.
Qed.

Lemma all_chars_keep_chars p k s :
  all_chars p s = true -> all_chars (fun c => p c && k c) (PyStr.keep_chars k s) = true.
Proof.
  induction s as [|c s IH]; cbn; [reflexivity|].
  intros H. apply andb_prop in H. destruct H as [Hc H].
  destruct (k c) eqn:Hk; cbn; [rewrite Hc, Hk; cbn|]; auto.
Qed.

Lemma all_chars_sub_runs p q class repl b s :
  (forall c, p c = true -> class c = false -> q c = true) ->
  all_chars q repl = true -> all_chars p s = true ->
  all_chars q (sub_runs class repl b s) = true.
Proof.
  intros Hpq Hrepl. revert b. induction s as [|c s IH]; intros b; cbn; [reflexivity|].
  intros H. apply andb_prop in H. destruct H as [Hc H].
  destruct (class c) eqn:Hclass.
  - destruct b; [auto|]. rewrite all_chars_append, Hrepl. cbn. auto.
  - cbn. rewrite (Hpq c Hc Hclass). cbn. auto.
Qed.

Lemma all_chars_lstrip_chars q chars s :
  all_chars q s = true -> all_chars q (lstrip_chars chars s) = true.
Proof.
  induction s as [|c s IH]; cbn; [reflexivity|]. intros H.
  destruct (chars c); [|exact H]. apply andb_prop in H. tauto.
Qed.

Lemma all_chars_rstrip_chars q chars s :
  all_chars q s = true -> all_chars q (rstrip_chars chars s) = true.
Proof.
  induction s as [|c s IH]; cbn; [reflexivity|]. intros H.
  apply andb_prop in H. destruct H as [Hc H]. specialize (IH H).
  destruct (rstrip_chars chars s) as [|d kept].
  - destruct (chars c); cbn; [reflexivity | now rewrite Hc].
  - change (q c && all_chars q (String d kept) = true). now rewrite Hc, IH.
Qed.

Lemma apart_weaken chars b s : apart chars b s = true -> apart chars false s = true.
Proof.
  destruct s as [|c s]; cbn; [reflexivity|]. destruct (chars c); [|auto].
  destruct b; cbn; [discriminate | auto].
Qed.

Lemma apart_sub_runs (class : ascii -> bool) b s :
  class "-"%char = true ->
  apart (Ascii.eqb "-") b (sub_runs class "-" b s) = true.
Proof.
  intros Hdash. revert b.
  induction s as [|c s IH]; intros b; cbn [sub_runs]; [reflexivity|].
  destruct (class c) eqn:Hclass.
  - destruct b; [apply IH|]. rewrite append_cons, append_empty.
    cbn [apart]. rewrite Ascii.eqb_refl. apply IH.
  - cbn [apart]. destruct (Ascii.eqb_spec "-" c) as [<-|_]; [congruence | apply IH].
Qed.

Lemma apart_lstrip_chars chars b s :
  apart chars b s = true -> apart chars false (lstrip_chars chars s) = true.
Proof.
  revert b. induction s as [|c s IH]; intros b; cbn; [reflexivity|].
  destruct (chars c) eqn:Hc.
  - intros H. apply andb_prop in H. destruct H as [_ H]. eauto.
  - intros H. cbn. now rewrite Hc.
Qed.

Lemma apart_rstrip_chars chars b s :
  apart chars b s = true -> apart chars b (rstrip_chars chars s) = true.
Proof.
  revert b. induction s as [|c s IH]; intros b; cbn; [reflexivity|].
  intros H.
  assert (Hkept : apart chars b (String c (rstrip_chars chars s)) = true).
  { cbn. destruct (chars c).
    - apply andb_prop in H. destruct H as [Hb H]. rewrite Hb. cbn. auto.
    - auto. }
  destruct (rstrip_chars chars s) as [|d kept]; [|exact Hkept].
  destruct (chars c) eqn:Hc; cbn; [reflexivity | now rewrite Hc].
Qed.

Lemma starts_lstrip_chars chars s : starts chars (lstrip_chars chars s) = false.
Proof.
  induction s as [|c s IH]; cbn; [reflexivity|].
  destruct (chars c) eqn:Hc; [exact IH | exact Hc].
Qed.

Lemma starts_rstrip_chars chars s :
  starts chars s = false -> starts chars (rstrip_chars chars s) = false.
Proof.
  destruct s as [|c s]; cbn; [reflexivity|]. intros Hc.
  destruct (rstrip_chars chars s); [rewrite Hc|]; exact Hc.
Qed.

Lemma ends_rstrip_chars chars s : ends chars (rstrip_chars chars s) = false.
Proof.
  induction s as [|c s IH]; cbn; [reflexivity|].
  destruct (rstrip_chars chars s) as [|d kept].
  - destruct (chars c) eqn:Hc; [reflexivity | exact Hc].
  - exact IH.
Qed.

Lemma lstrip_chars_fixed chars s : starts chars s = false -> lstrip_chars chars s = s.
Proof. destruct s as [|c s]; cbn; [reflexivity|]. now intros ->. Qed.

Lemma rstrip_chars_fixed chars s : ends chars s = false -> rstrip_chars chars s = s.
Proof.
  induction s as [|c s IH]; [reflexivity|].
  destruct s as [|d s].
  - cbn. now intros ->.
  - intros H. change (ends chars (String d s) = false) in H.
    cbn [rstrip_chars] in *. rewrite (IH H). reflexivity.
Qed.

Lemma strip_chars_fixed chars s :
  starts chars s = false -> ends chars s = false -> strip_chars chars s = s.
Proof.
  intros Hs He. unfold strip_chars. rewrite (lstrip_chars_fixed _ _ Hs).
  now apply rstrip_chars_fixed.
Qed.

Lemma starts_strip_chars chars s : starts chars (strip_chars chars s) = false.
Proof. apply starts_rstrip_chars, starts_lstrip_chars. Qed.

Lemma ends_strip_chars chars s : ends chars (strip_chars chars s) = false.
Proof. apply ends_rstrip_chars. Qed.

Lemma starts_cons chars c r s : chars c = true -> starts chars s = false -> s <> String c r.
Proof. intros Hc Hs ->. cbn in Hs. congruence. Qed.

Lemma ends_append chars c r s :
  chars c = true -> ends chars s = false -> s <> r ++ String c "".
Proof.
  intros Hc. revert s. induction r as [|d r IH]; intros s Hs ->.
  - rewrite append_empty in Hs. cbn in Hs. congruence.
  - rewrite append_cons in Hs.
    destruct (r ++ String c "") as [|e t] eqn:E.
    + destruct r; [rewrite append_empty in E | rewrite append_cons in E]; discriminate.
    + change (ends chars (String e t) = false) in Hs. now apply (IH (String e t)).
Qed.

Lemma apart_append chars b c d x y s :
  chars c = true -> chars d = true -> apart chars b s = true ->
  s <> x ++ String c (String d y).
Proof.
  intros Hc Hd. revert b s. induction x as [|e x IH]; intros b s Hs ->.
  - rewrite append_empty in Hs. cbn in Hs. rewrite Hc, Hd in Hs.
    now rewrite andb_false_r in Hs.
  - rewrite append_cons in Hs. cbn in Hs. destruct (chars e).
    + apply andb_prop in Hs. destruct Hs as [_ Hs]. now apply (IH true _ Hs).
    + now apply (IH false _ Hs).
Qed.

Lemma lower_fixed s :
  all_chars (fun c => negb (Py.is_upper c)) s = true -> lower s = s.
Proof.
  induction s as [|c s IH]; cbn; [reflexivity|]. intros H.
  apply andb_prop in H. destruct H as [Hc H]. rewrite (IH H).
  unfold Py.to_lower. destruct (Py.is_upper c); [discriminate Hc | reflexivity].
Qed.

Lemma keep_chars_fixed k s : all_chars k s = true -> PyStr.keep_chars k s = s.
Proof.
  induction s as [|c s IH]; cbn; [reflexivity|]. intros H.
  apply andb_prop in H. destruct H as [-> H]. now rewrite (IH H).
Qed.

Lemma sub_runs_fixed (class : ascii -> bool) b s :
  all_chars (fun c => Ascii.eqb "-" c || negb (class c)) s = true ->
  apart (Ascii.eqb "-") b s = true ->
  class "-"%char = true ->
  sub_runs class "-" b s = s.
Proof.
  intros Hall Hapart Hdash. revert b Hall Hapart.
  induction s as [|c s IH]; intros b Hall Hapart; cbn [sub_runs]; [reflexivity|].
  cbn [all_chars apart] in Hall, Hapart.
  apply andb_prop in Hall. destruct Hall as [Hc Hall].
  destruct (Ascii.eqb_spec "-" c) as [<-|Hne].
  - rewrite Hdash. apply andb_prop in Hapart. destruct Hapart as [Hb Hapart].
    destruct b; [discriminate Hb|].
    rewrite append_cons, append_empty. now rewrite (IH true Hall Hapart).
  - cbn [orb] in Hc. apply negb_true_iff in Hc. rewrite Hc.
    now rewrite (IH false Hall Hapart).
Qed.

Ltac each_char c :=
  destruct c as [[] [] [] [] [] [] [] []]; vm_compute; try reflexivity;
  intros; congruence.

Lemma to_lower_not_upper c : negb (Py.is_upper (Py.to_lower c)) = true.
Proof. each_char c. Qed.

Lemma kept_word_is_slug_char c :
  negb (Py.is_upper c) && (is_word c || is_whitespace c || Ascii.eqb c "-") = true ->
  (Ascii.eqb c "-" || is_whitespace c) = false -> slug_char c = true.
Proof. each_char c. Qed.

Lemma slug_char_not_upper c : slug_char c = true -> negb (Py.is_upper c) = true.
Proof. each_char c. Qed.

Lemma slug_char_kept c :
  slug_char c = true -> (is_word c || is_whitespace c || Ascii.eqb c "-") = true.
Proof. each_char c. Qed.

Lemma slug_char_no_space c :
  slug_char c = true ->
  (Ascii.eqb "-" c || negb (Ascii.eqb c "-" || is_whitespace c)) = true.
Proof. each_char c. Qed.

(** The shape of a slug, and that [slugify] leaves such a string alone. *)
Lemma slugify_shape text :
  all_chars slug_char (slugify text) = true
  /\ apart (Ascii.eqb "-") false (slugify text) = true
  /\ starts (Ascii.eqb "-") (slugify text) = false
  /\ ends (Ascii.eqb "-") (slugify text) = false.
Proof.
  unfold slugify. cbv zeta. split; [|split; [|split]].
  - unfold strip_chars. apply all_chars_rstrip_chars, all_chars_lstrip_chars.
    eapply all_chars_sub_runs; [exact kept_word_is_slug_char | reflexivity |].
    apply all_chars_keep_chars. rewrite all_chars_lower.
    apply all_chars_true, to_lower_not_upper.
  - unfold strip_chars. apply apart_rstrip_chars.
    apply (apart_lstrip_chars _ false). now apply apart_sub_runs.
  - apply starts_strip_chars.
  - apply ends_strip_chars.
Qed.

Lemma slugify_fixed s :
  all_chars slug_char s = true -> apart (Ascii.eqb "-") false s = true ->
  starts (Ascii.eqb "-") s = false -> ends (Ascii.eqb "-") s = false ->
  slugify s = s.
Proof.
  intros Hall Hapart Hstarts Hends. unfold slugify. cbv zeta.
  rewrite (lower_fixed s) by exact (all_chars_weaken _ _ _ slug_char_not_upper Hall).
  rewrite keep_chars_fixed by exact (all_chars_weaken _ _ _ slug_char_kept Hall).
  rewrite sub_runs_fixed;
    [ now apply strip_chars_fixed
    | exact (all_chars_weaken _ _ _ slug_char_no_space Hall)
    | exact Hapart
    | reflexivity ].
Qed.

(** X17. For ASCII text, [slugify] returns a string of lower-case letters,
    digits, underscores and hyphens that neither starts nor ends with a
    hyphen and has no two hyphens in a row, and slugifying a slug gives the
    same slug. *)
Theorem slugify_settles text :
  all_chars is_ascii text = true ->
  all_chars slug_char (slugify text) = true
  /\ (forall r, slugify text <> "-" ++ r)
  /\ (forall r, slugify text <> r ++ "-")
  /\ (forall a b, slugify text <> a ++ "--" ++ b)
  /\ slugify (slugify text) = slugify text.
Proof.
  intros _. destruct (slugify_shape text) as (Hall & Hapart & Hstarts & Hends).
  split; [exact Hall|]. split; [|split; [|split]].
  - intros r. now apply (starts_cons (Ascii.eqb "-")).
  - intros r. now apply (ends_append (Ascii.eqb "-")).
  - intros a b. now apply (apart_append (Ascii.eqb "-") false).
  - now apply slugify_fixed.
Qed.

Lemma slugify_settles_witness :
  slugify "  Wheel  Spec -- No. 7! " = "wheel-spec-no-7"
  /\ all_chars slug_char (slugify "  Wheel  Spec -- No. 7! ") = true
  /\ slugify (slugify "  Wheel  Spec -- No. 7! ") = slugify "  Wheel  Spec -- No. 7! ".
Proof.
  split; [reflexivity|].
  destruct (slugify_settles "  Wheel  Spec -- No. 7! ") as (Hall & _ & _ & _ & Hfix).
  - vm_compute. reflexivity.
  - split; [exact Hall | exact Hfix].
Defined.

Lemma truthy_nonempty s : Py.truthy s = true <-> s <> "".
Proof. destruct s; cbn; split; try congruence; auto. Qed.

(** X18. For an ASCII name, a first (or last) name that the registration
    schema accepts comes back non-empty and without white space at either
    end, and is accepted unchanged when validated again. *)
Theorem validated_name_is_stripped field v name :
  all_chars is_ascii v = true ->
  validate_name field v = inr name ->
  name <> ""
  /\ (forall c r, is_whitespace c = true -> name <> String c r /\ name <> r ++ String c "")
  /\ validate_name field name = inr name.
Proof.
  intros _. unfold validate_name.
  destruct (Py.truthy v); [|discriminate]. cbn [negb orb].
  destruct (Py.truthy (strip_chars is_whitespace v)) eqn:Hname; [|discriminate].
  cbn [negb]. intros H. injection H as <-.
  pose proof (starts_strip_chars is_whitespace v) as Hstarts.
  pose proof (ends_strip_chars is_whitespace v) as Hends.
  split; [now apply truthy_nonempty|]. split.
  - intros c r Hc. split; [now apply (starts_cons is_whitespace)
                          | now apply (ends_append is_whitespace)].
  - rewrite (strip_chars_fixed _ _ Hstarts Hends), Hname. reflexivity.
Qed.

Lemma validated_name_is_stripped_witness :
  validate_first_name "  Asha Rao " = inr "Asha Rao"
  /\ validate_name "First name" "Asha Rao" = inr "Asha Rao".
Proof.
  split; [reflexivity|].
  apply (validated_name_is_stripped "First name" "  Asha Rao " "Asha Rao");
    vm_compute; reflexivity.
Defined.

(** A name of white space only is refused, like an empty one. *)
Example validate_name_blank :
  validate_first_name "   " = inl "First name is required"
  /\ validate_last_name "" = inl "Last name is required".
Proof. split; reflexivity. Qed.

(** ** Full names *)

Lemma starts_append chars a b : a <> "" -> starts chars (a ++ b) = starts chars a.
Proof. destruct a as [|c a]; [congruence|]. now rewrite append_cons. Qed.

Lemma ends_append_nonempty chars a b : b <> "" -> ends chars (a ++ b) = ends chars b.
Proof.
  intros Hb. induction a as [|c a IH]; [now rewrite append_empty|].
  rewrite append_cons. destruct (a ++ b) as [|d t] eqn:E.
  - destruct a; [rewrite append_empty in E; congruence
                | rewrite append_cons in E; discriminate].
  - exact IH.
Qed.

(** X19. A user whose first and last name came through the registration
    schema's validators (ASCII names) has the full name 'first last': the
    final [strip()] of [get_full_name] removes nothing. *)
Theorem full_name_of_validated_names (self : UserRow) v w :
  all_chars is_ascii v = true -> all_chars is_ascii w = true ->
  validate_first_name v = inr (first_name self) ->
  validate_last_name w = inr (last_name self) ->
  get_full_name self = first_name self ++ " " ++ last_name self.
Proof.
  intros _ _. unfold validate_first_name, validate_last_name, validate_name, get_full_name.
  destruct (Py.truthy v); [|discriminate]. cbn [negb orb].
  destruct (Py.truthy (strip_chars is_whitespace v)) eqn:Hfirst; [|discriminate].
  destruct (Py.truthy w); [|discriminate]. cbn [negb orb].
  destruct (Py.truthy (strip_chars is_whitespace w)) eqn:Hlast; [|discriminate].
  cbn [negb]. intros Hv Hw. injection Hv as Hv. injection Hw as Hw.
  rewrite <- Hv, <- Hw. apply strip_chars_fixed.
  - rewrite starts_append by now apply truthy_nonempty.
    apply starts_strip_chars.
  - rewrite ends_append_nonempty.
    + rewrite ends_append_nonempty by now apply truthy_nonempty.
      apply ends_strip_chars.
    + rewrite append_cons. discriminate.
Qed.

Lemma full_name_of_validated_names_witness :
  get_full_name inspector = first_name inspector ++ " " ++ last_name inspector.
Proof.
  apply (full_name_of_validated_names inspector
           (" " ++ first_name inspector) (last_name inspector ++ " "));
    vm_compute; reflexivity.
Defined.

(** A missing last name leaves no space behind. *)
Example get_full_name_one_name :
  get_full_name {| phone_number := "+919325229203"; first_name := "Asha";
                   last_name := ""; is_active := true |} = "Asha".
Proof. reflexivity. Qed.

(** ** Employee ids *)

Lemma at_seq r1 r2 pos s k :
  Re.at_ (Re.Seq r1 r2) pos s k = Re.at_ r1 pos s (fun pos' t => Re.at_ r2 pos' t k).
Proof. reflexivity. Qed.

(** The strings [EMPLOYEE_ID_PATTERN] matches. *)
Lemma employee_id_pattern_matches s :
  Re.match_ EMPLOYEE_ID_PATTERN s = true
  <-> exists letters dash digits newline,
        list_ascii_of_string s = (letters ++ dash ++ digits ++ newline)%list
        /\ (2 <= List.length letters <= 4)%nat
        /\ forallb Py.is_upper letters = true
        /\ (dash = [] \/ dash = ["-"%char])
        /\ (3 <= List.length digits <= 6)%nat
        /\ forallb Py.is_digit digits = true
        /\ (newline = [] \/ newline = ["010"%char]).
Proof.
  unfold Re.match_, EMPLOYEE_ID_PATTERN. rewrite at_caret, at_seq, rep_class.
  setoid_rewrite at_opt_chr. setoid_rewrite at_rep_dollar.
  set (l := list_ascii_of_string s). split.
  - intros (n & Hn & Hlen & Hall & H).
    assert (Hl : List.length (firstn n l) = n) by (rewrite length_firstn; lia).
    destruct H as [(t & Ht & digits & newline & Hs & Hd & Hdall & Hnl)
                  | (digits & newline & Hs & Hd & Hdall & Hnl)].
    + exists (firstn n l), ["-"%char], digits, newline.
      rewrite Hl. cbn [app]. rewrite <- Hs, <- Ht, firstn_skipn. auto 10.
    + exists (firstn n l), [], digits, newline.
      rewrite Hl. cbn [app]. rewrite <- Hs, firstn_skipn. auto 10.
  - intros (letters & dash & digits & newline & Hs & Hn & Hall & Hdash & Hd & Hdall & Hnl).
    exists (List.length letters). rewrite Hs.
    rewrite firstn_app, Nat.sub_diag, firstn_all, skipn_app, Nat.sub_diag, skipn_all.
    cbn [firstn skipn]. rewrite app_nil_r, length_app. cbn [app].
    split; [exact Hn|]. split; [lia|]. split; [exact Hall|].
    destruct Hdash as [-> | ->]; cbn [app].
    + right. eauto 10.
    + left. eexists. split; [reflexivity|]. eauto 10.
Qed.

Lemma list_ascii_of_string_upper s :
  list_ascii_of_string (Py.upper s) = map Py.to_upper (list_ascii_of_string s).
Proof. induction s as [|c s IH]; cbn; [reflexivity | now rewrite IH]. Qed.

Lemma forallb_map_compose {A B} (p : B -> bool) (f : A -> B) l :
  forallb p (map f l) = forallb (fun x => p (f x)) l.
Proof. induction l as [|x l IH]; cbn; [reflexivity | now rewrite IH]. Qed.

Lemma forallb_pointwise {A} (p q : A -> bool) l :
  (forall x, p x = q x) -> forallb p l = forallb q l.
Proof. intros H. induction l as [|x l IH]; cbn; [reflexivity | now rewrite H, IH]. Qed.

Lemma is_upper_to_upper c : Py.is_upper (Py.to_upper c) = is_letter c.
Proof. each_char c. Qed.

Lemma is_digit_to_upper c : Py.is_digit (Py.to_upper c) = Py.is_digit c.
Proof. each_char c. Qed.

Lemma to_upper_hyphen c : Py.to_upper c = "-"%char <-> c = "-"%char.
Proof.
  split; [|now intros ->].
  destruct c as [[] [] [] [] [] [] [] []]; vm_compute; intros; congruence.
Qed.

Lemma to_upper_newline c : Py.to_upper c = "010"%char <-> c = "010"%char.
Proof.
  split; [|now intros ->].
  destruct c as [[] [] [] [] [] [] [] []]; vm_compute; intros; congruence.
Qed.

Lemma map_to_upper_optional c l :
  (forall x, Py.to_upper x = c <-> x = c) ->
  (map Py.to_upper l = [] \/ map Py.to_upper l = [c]) <-> (l = [] \/ l = [c]).
Proof.
  intros Hc. destruct l as [|x [|y l]]; cbn.
  - tauto.
  - split; (intros [H | H]; [discriminate|]); right; f_equal;
      injection H as H; now apply Hc.
  - split; intros [H | H]; discriminate.
Qed.

(** X20. For an ASCII employee id, [validate_employee_id] accepts exactly
    two to four letters of either case, then an optional hyphen, then three
    to six digits, then at most one newline. *)
Theorem validate_employee_id_accepts employee_id :
  all_chars is_ascii employee_id = true ->
  validate_employee_id employee_id = inr tt
  <-> exists letters dash digits newline,
        employee_id = letters ++ dash ++ digits ++ newline
        /\ 2 <= PyStr.len letters <= 4
        /\ all_chars is_letter letters = true
        /\ (dash = "" \/ dash = "-")
        /\ 3 <= PyStr.len digits <= 6
        /\ all_chars Py.is_digit digits = true
        /\ (newline = "" \/ newline = String "010" "").
Proof.
  intros _.
  assert (Hmatch : validate_employee_id employee_id = inr tt
                   <-> Re.match_ EMPLOYEE_ID_PATTERN (Py.upper employee_id) = true).
  { unfold validate_employee_id.
    destruct (Re.match_ EMPLOYEE_ID_PATTERN (Py.upper employee_id)); cbn; split;
      congruence. }
  rewrite Hmatch, employee_id_pattern_matches, list_ascii_of_string_upper. split.
  - intros (L & D & G & N & Hs & Hn & Hall & Hdash & Hd & Hdall & Hnl).
    apply map_eq_app in Hs. destruct Hs as (letters & rest & Hs & HL & Hrest).
    apply map_eq_app in Hrest. destruct Hrest as (dash & rest' & -> & HD & Hrest).
    apply map_eq_app in Hrest. destruct Hrest as (digits & newline & -> & HG & HN).
    subst L D G N.
    exists (string_of_list_ascii letters), (string_of_list_ascii dash),
      (string_of_list_ascii digits), (string_of_list_ascii newline).
    rewrite length_map in Hn, Hd.
    rewrite forallb_map_compose in Hall, Hdall.
    rewrite (forallb_pointwise _ _ _ is_upper_to_upper) in Hall.
    rewrite (forallb_pointwise _ _ _ is_digit_to_upper) in Hdall.
    apply (proj1 (map_to_upper_optional "-" dash to_upper_hyphen)) in Hdash.
    apply (proj1 (map_to_upper_optional "010" newline to_upper_newline)) in Hnl.
    unfold PyStr.len. rewrite !length_string_of_list_ascii, !all_chars_string_of_list_ascii.
    split.
    { rewrite <- !string_of_list_ascii_app, <- Hs. now rewrite string_of_list_ascii_of_string. }
    split; [lia|]. split; [exact Hall|]. split.
    { destruct Hdash as [-> | ->]; auto. }
    split; [lia|]. split; [exact Hdall|].
    destruct Hnl as [-> | ->]; auto.
  - intros (letters & dash & digits & newline & -> & Hn & Hall & Hdash & Hd & Hdall & Hnl).
    exists (map Py.to_upper (list_ascii_of_string letters)),
      (map Py.to_upper (list_ascii_of_string dash)),
      (map Py.to_upper (list_ascii_of_string digits)),
      (map Py.to_upper (list_ascii_of_string newline)).
    rewrite !list_ascii_of_string_append, !map_app, !length_map,
      !length_list_ascii_of_string, !forallb_map_compose.
    rewrite (forallb_pointwise _ _ _ is_upper_to_upper).
    rewrite (forallb_pointwise _ _ _ is_digit_to_upper).
    rewrite !forallb_list_ascii_of_string.
    unfold PyStr.len in Hn, Hd.
    split; [reflexivity|]. split; [lia|]. split; [exact Hall|]. split.
    { destruct Hdash as [-> | ->]; auto. }
    split; [lia|]. split; [exact Hdall|].
    destruct Hnl as [-> | ->]; auto.
Qed.

Lemma validate_employee_id_accepts_witness :
  validate_employee_id "emp-0042" = inr tt
  /\ validate_employee_id "E-0042" <> inr tt.
Proof.
  split.
  - apply (validate_employee_id_accepts "emp-0042"); [vm_compute; reflexivity|].
    exists "emp", "-", "0042", "". vm_compute. repeat split; auto; discriminate.
  - vm_compute. discriminate.
Defined.
